(** * A shallow embedding of the ubirch client's signing core

    The development follows the Go sources package by package:
    [vars], [httphelper] (header access, authentication, hash extraction,
    JSON canonicalisation), [handlers] (signer, protocol wrapper, services)
    and the configuration loader of package [main].

    Go values are modelled as follows: [[]byte] is [list byte], [string] is
    [string], a [(T, error)] result is [result T], maps are [gmap]s and the
    functions of libraries outside the repository (uuid, hex, base64, sha256,
    the ubirch protocol library, encoding/json's scanner) are the fields of
    the class [GoLib]. *)

From Stdlib Require Import ZArith Ascii String.
From Stdlib.Strings Require Import Byte.
From stdpp Require Import base option list gmap strings pretty sorting.

#[local] Set Warnings "-register-all,-clear-no-such-hyp".

Local Open Scope Z_scope.

(** ** Go results *)

Inductive result (A : Type) : Type :=
| Ok (a : A)
| Err (e : string).
Arguments Ok {A} a.
Arguments Err {A} e.

Definition is_ok {A} (r : result A) : bool :=
  match r with Ok _ => true | Err _ => false end.

Definition bytes := list byte.

#[global] Instance byte_eq_dec : EqDecision byte := Byte.byte_eq_dec.

(** ** Package strings *)

Module gostrings.

Definition lower_ascii (c : ascii) : ascii :=
    let n := N_of_ascii c in
    if ((65 <=? n) && (n <=? 90))%N then ascii_of_N (n + 32) else c.

  (** [strings.ToLower], on the ASCII range that header values use. *)
Fixpoint ToLower (s : string) : string :=
    match s with
    | EmptyString => EmptyString
    | String c s' => String (lower_ascii c) (ToLower s')
    end.

  (** [strings.HasSuffix]: [len(s) >= len(suffix) && s[len(s)-len(suffix):] == suffix]. *)
Definition HasSuffix (s suffix : string) : bool :=
    (String.length suffix <=? String.length s)%nat
    && String.eqb
         (String.substring (String.length s - String.length suffix)
                           (String.length suffix) s)
         suffix.

  (** [strings.TrimSuffix]. *)
Definition TrimSuffix (s suffix : string) : string :=
    if HasSuffix s suffix
    then String.substring 0 (String.length s - String.length suffix) s
    else s.

  (** [strings.Split] for a non-empty separator: [skip] counts the
      characters of a separator occurrence that are still to be dropped,
      [cur] is the piece being collected. *)
Fixpoint split_go (sep : string) (skip : nat) (cur s : string) : list string :=
    match s with
    | EmptyString => [cur]
    | String c s' =>
        match skip with
        | S k => split_go sep k cur s'
        | O =>
            if String.prefix sep s
            then cur :: split_go sep (String.length sep - 1) EmptyString s'
            else split_go sep 0 (cur +:+ String c EmptyString) s'
        end
    end.

Definition Split (s sep : string) : list string := split_go sep 0 EmptyString s.

End gostrings.

(** ** Package vars *)

Module vars.
Definition UUIDKey : string := "uuid".
Definition OperationKey : string := "operation".
Definition VerifyPath : string := "verify".
Definition HashEndpoint : string := "hash".

Definition BinType : string := "application/octet-stream".
Definition TextType : string := "text/plain".
Definition JSONType : string := "application/json".

Definition HexEncoding : string := "hex".

Definition HashLen : nat := 32.
End vars.

(** ** Package net/http: the part of a request the handlers read *)

Module http.

Definition StatusOK : Z := 200.
Definition StatusBadRequest : Z := 400.
Definition StatusUnauthorized : Z := 401.
Definition StatusNotFound : Z := 404.
Definition StatusInternalServerError : Z := 500.
Definition StatusBadGateway : Z := 502.
Definition StatusServiceUnavailable : Z := 503.
Definition StatusGatewayTimeout : Z := 504.

  (** [http.StatusText] on the codes the client produces; the library
      answers the empty string for a code it does not know. *)
Definition StatusText (code : Z) : string :=
    if decide (code = 200) then "OK"
    else if decide (code = 400) then "Bad Request"
    else if decide (code = 401) then "Unauthorized"
    else if decide (code = 404) then "Not Found"
    else if decide (code = 500) then "Internal Server Error"
    else if decide (code = 502) then "Bad Gateway"
    else if decide (code = 503) then "Service Unavailable"
    else if decide (code = 504) then "Gateway Timeout"
    else "".

  (** [http.Header]: canonical header name to its values. *)
Abbreviation Header := (gmap string (list string)).

  (** [Header.Get]: first value of the key, or the empty string. *)
Definition Get (h : Header) (key : string) : string :=
    match h !! key with
    | Some (v :: _) => v
    | _ => ""
    end.

  (** What [ioutil.ReadAll(r.Body)] yields. *)
Inductive Body :=
  | Readable (data : bytes)
  | Broken (e : string).

Record Request := {
    Path : string;                    (* r.URL.Path *)
    URLParams : gmap string string;   (* chi's route parameters *)
    ReqHeader : Header;
    ReqBody : Body
  }.

  (** [chi.URLParam]: the empty string when the route has no such parameter. *)
Definition URLParam (r : Request) (key : string) : string :=
    default "" (URLParams r !! key).

End http.

(** ** Package encoding/json: texts and decoded values *)

(** A [uuid.UUID] is a 128 bit value. *)
Abbreviation UUID := N.

(** A [float64] is kept as its IEEE 754 bit pattern. *)
Abbreviation float64 := N.

Module json.

  (** The syntax tree of a JSON text: the members of an object in the order
      of the text (a name may occur twice), string literals unquoted,
      number literals converted. *)
Inductive text :=
  | TNull
  | TBool (b : bool)
  | TNumber (f : float64)
  | TString (s : string)
  | TArray (elems : list text)
  | TObject (members : list (string * text)).

  (** What [json.Unmarshal] stores into an [interface{}]: [nil], [bool],
      [float64], [string], [[]interface{}] or [map[string]interface{}]. *)
Inductive value :=
  | Nil
  | Bool (b : bool)
  | Float64 (f : float64)
  | Str (s : string)
  | Slice (elems : list value)
  | Map (m : gmap string value).

End json.

(** ** Package ubirch (protocol library): the envelope structs *)

Module ubirch.

Inductive ProtocolVersion := Signed | Chained.

  (** [type Hint uint8] *)
Abbreviation Hint := Z.

  (** Modelled from the spec: the hint constants are declared by the
      protocol library, which is not part of src/; §3 gives
      BINARY=0x00, DISABLE=0xFA, ENABLE=0xFB, DELETE=0xFC. *)
Definition Binary : Hint := 0x00.
Definition Disable : Hint := 0xFA.
Definition Enable : Hint := 0xFB.
Definition Delete : Hint := 0xFC.

  (** The fields that the client sets in a [ubirch.SignedUPP] and in a
      [ubirch.ChainedUPP]; both implement the interface [ubirch.UPP]. *)
Inductive UPP :=
  | SignedUPP (Version : ProtocolVersion) (Uuid : UUID) (hint : Hint)
              (Payload : bytes)
  | ChainedUPP (Version : ProtocolVersion) (Uuid : UUID)
               (PrevSignature : bytes) (hint : Hint) (Payload : bytes).

Definition GetVersion (u : UPP) : ProtocolVersion :=
    match u with
    | SignedUPP v _ _ _ => v
    | ChainedUPP v _ _ _ _ => v
    end.

Definition GetUuid (u : UPP) : UUID :=
    match u with
    | SignedUPP _ id _ _ => id
    | ChainedUPP _ id _ _ _ => id
    end.

Definition GetHint (u : UPP) : Hint :=
    match u with
    | SignedUPP _ _ h _ => h
    | ChainedUPP _ _ _ h _ => h
    end.

Definition GetPayload (u : UPP) : bytes :=
    match u with
    | SignedUPP _ _ _ p => p
    | ChainedUPP _ _ _ _ p => p
    end.

  (** The previous-signature field; a signed envelope has none. *)
Definition GetPrevSignature (u : UPP) : option bytes :=
    match u with
    | SignedUPP _ _ _ _ => None
    | ChainedUPP _ _ prev _ _ => Some prev
    end.

End ubirch.

(** ** Package httphelper: request and response values *)

(** [type Sha256Sum [vars.HashLen]byte] *)
Abbreviation Sha256Sum := bytes.

Record HTTPRequest := {
  ID : UUID;
  Auth : string;
  Hash : Sha256Sum
}.

Record HTTPResponse := {
  StatusCode : Z;
  Header : http.Header;
  Content : bytes
}.

(** ** Package handlers: receipt and stored identity *)

Record signingResponse := {
  sr_Error : string;
  sr_Hash : bytes;
  sr_UPP : bytes;
  sr_Response : HTTPResponse;
  sr_RequestID : string
}.

(** [ent.Identity], the row of the identity store. *)
Record Identity := {
  Uid : string;
  PrivateKey : bytes;
  PublicKey : bytes;
  Signature : bytes;
  AuthToken : string
}.

(** ** Libraries outside the repository *)

Class GoLib := {
  (** [uuid.Parse] *)
  uuid_Parse : string → result UUID;
  (** [uuid.FromBytes] *)
  uuid_FromBytes : bytes → result UUID;
  (** [UUID.String] *)
  uuid_String : UUID → string;
  (** [hex.DecodeString]: the bytes decoded so far and the error, if any *)
  hex_DecodeString : string → bytes * option string;
  (** [base64.StdEncoding.DecodeString], likewise *)
  base64_DecodeString : string → bytes * option string;
  (** [sha256.Sum256], a 32 byte array *)
  sha256_Sum256 : bytes → bytes;
  (** the scanner of [encoding/json] with the conversion of its literals:
      the syntax tree of a text, or the syntax error *)
  json_scan : bytes → result json.text;
  (** how [encoding/json] writes a [float64] and a quoted [string]
      (HTML escaping switched off) *)
  json_encodeFloat : float64 → string;
  json_encodeString : string → string;
  (** [json.Compact] *)
  json_Compact : bytes → result bytes;
  (** [json.Marshal] of a [signingResponse] *)
  json_Marshal : signingResponse → result bytes;
  (** [ubirch.Protocol.Sign]: encodes the envelope, signs it with the
      private key and appends the signature *)
  protocol_Sign : bytes → ubirch.UPP → result bytes;
  (** [ubirch.Decode] *)
  ubirch_Decode : bytes → result ubirch.UPP
}.

(** ** Package encoding/json: decoding and encoding *)

Module jsonlib.
Import json.

  (** The decoder fills a fresh map member by member, in the order of the
      text: a later member replaces an earlier one of the same name. *)
Fixpoint decode (t : text) : value :=
    match t with
    | TNull => Nil
    | TBool b => Bool b
    | TNumber f => Float64 f
    | TString s => Str s
    | TArray elems => Slice (decode <$> elems)
    | TObject members =>
        Map (foldl (λ acc p, <[p.1 := decode p.2]> acc) ∅ members)
    end.

  (** The order in which the encoder sorts the keys of a map: Go's [<] on
      strings, byte by byte. *)
Definition key_le (p q : string * string) : Prop := String.leb p.1 q.1 = true.

#[global] Instance key_le_dec p q : Decision (key_le p q).
  Proof. unfold key_le. apply _. Defined.

Section encode.
Context `{GoLib}.

    (** The encoder: map keys sorted, no white space between tokens. *)
Definition member (p : string * string) : string :=
      json_encodeString p.1 +:+ ":" +:+ p.2.

Fixpoint encode (v : value) : string :=
      match v with
      | Nil => "null"
      | Bool b => if b then "true" else "false"
      | Float64 f => json_encodeFloat f
      | Str s => json_encodeString s
      | Slice elems => "[" +:+ String.concat "," (encode <$> elems) +:+ "]"
      | Map m =>
          "{" +:+ String.concat ","
                    (member <$> merge_sort key_le (map_to_list (encode <$> m)))
              +:+ "}"
      end.

    (** [json.Unmarshal(data, &v)] with [v] an [interface{}]. *)
Definition Unmarshal (data : bytes) : result value :=
      match json_scan data with
      | Ok t => Ok (decode t)
      | Err e => Err e
      end.

End encode.

End jsonlib.

(** ** Package httphelper (handlers/httphelper/common.go, resp.go) *)

Definition dquote : string := String "034"%char EmptyString.
Definition newline : string := String "010"%char EmptyString.

Module httphelper.
Section httphelper.
Context `{GoLib}.

    (** [jsonMarshal]: [Encoder.Encode] ends the value with a newline. *)
Definition jsonMarshal (v : json.value) : result bytes :=
      Ok (list_byte_of_string (jsonlib.encode v +:+ newline)).

Definition GetSortedCompactJSON (data : bytes) : result bytes :=
      (* json.Unmarshal returns an error if data is not valid JSON *)
      match jsonlib.Unmarshal data with
      | Err e => Err ("unable to parse JSON request body: " +:+ e)
      | Ok reqDump =>
          (* json.Marshal sorts the keys *)
          match jsonMarshal reqDump with
          | Err e => Err ("unable to serialize json object: " +:+ e)
          | Ok sortedJson =>
              (* remove spaces and newlines *)
              match json_Compact sortedJson with
              | Err e => Err ("unable to compact json object: " +:+ e)
              | Ok sortedCompactJson => Ok sortedCompactJson
              end
          end
      end.

Definition ContentType (header : http.Header) : string :=
      gostrings.ToLower (http.Get header "Content-Type").

Definition ContentEncoding (header : http.Header) : string :=
      gostrings.ToLower (http.Get header "Content-Transfer-Encoding").

Definition AuthToken (header : http.Header) : string :=
      http.Get header "X-Auth-Token".

Definition GetUUID (r : http.Request) : result UUID :=
      let uuidParam := http.URLParam r vars.UUIDKey in
      match uuid_Parse uuidParam with
      | Err e =>
          Err ("invalid UUID: " +:+ dquote +:+ uuidParam +:+ dquote +:+ ": " +:+ e)
      | Ok id => Ok id
      end.

    (** [CheckAuth] compares with Go's [!=] on strings. *)
Definition CheckAuth (r : http.Request) (actualAuth : string) : result string :=
      let headerAuthToken := AuthToken (http.ReqHeader r) in
      if bool_decide (actualAuth ≠ headerAuthToken)
      then Err "invalid auth token"
      else Ok headerAuthToken.

Definition readBody (r : http.Request) : result bytes :=
      match http.ReqBody r with
      | http.Broken e => Err ("unable to read request body: " +:+ e)
      | http.Readable rBody => Ok rBody
      end.

Definition isHashRequest (r : http.Request) : bool :=
      gostrings.HasSuffix (http.Path r) vars.HashEndpoint.

    (** [copy(hash[:], data)] into the zero array of [n] bytes. *)
Definition copy (n : nat) (data : bytes) : bytes :=
      take n data ++ replicate (n - length data) x00.

Definition getHashFromDataRequest (header : http.Header) (data : bytes)
      : result Sha256Sum :=
      let ct := ContentType header in
      if String.eqb ct vars.JSONType then
        match GetSortedCompactJSON data with
        | Err e => Err e
        | Ok data => Ok (sha256_Sum256 data)   (* fallthrough *)
        end
      else if String.eqb ct vars.BinType then
        Ok (sha256_Sum256 data)
      else
        Err ("invalid content-type for original data: expected (" +:+ dquote
             +:+ vars.BinType +:+ dquote +:+ " | " +:+ dquote +:+ vars.JSONType
             +:+ dquote +:+ ")").

    (** The tail shared by the two accepted cases of
        [getHashFromHashRequest]. *)
Definition checkHashLen (data : bytes) : result Sha256Sum :=
      if bool_decide (length data ≠ vars.HashLen)
      then Err ("invalid SHA256 hash size: expected " +:+ pretty vars.HashLen
                +:+ " bytes, got " +:+ pretty (length data) +:+ " bytes")
      else Ok (copy vars.HashLen data).

Definition getHashFromHashRequest (header : http.Header) (data : bytes)
      : result Sha256Sum :=
      let ct := ContentType header in
      if String.eqb ct vars.TextType then
        if String.eqb (ContentEncoding header) vars.HexEncoding then
          match hex_DecodeString (string_of_list_byte data) with
          | (data, Some e) =>
              Err ("decoding hex encoded hash failed: " +:+ e +:+ " ("
                   +:+ string_of_list_byte data +:+ ")")
          | (data, None) => checkHashLen data   (* fallthrough *)
          end
        else
          match base64_DecodeString (string_of_list_byte data) with
          | (data, Some e) =>
              Err ("decoding base64 encoded hash failed: " +:+ e +:+ " ("
                   +:+ string_of_list_byte data +:+ ")")
          | (data, None) => checkHashLen data   (* fallthrough *)
          end
      else if String.eqb ct vars.BinType then
        checkHashLen data
      else
        Err ("invalid content-type for hash: expected (" +:+ dquote
             +:+ vars.BinType +:+ dquote +:+ " | " +:+ dquote +:+ vars.TextType
             +:+ dquote +:+ ")").

    (** [GetHash] returns the hash from the request body. *)
Definition GetHash (r : http.Request) : result Sha256Sum :=
      match readBody r with
      | Err e => Err e
      | Ok rBody =>
          if isHashRequest r
          then getHashFromHashRequest (http.ReqHeader r) rBody
          else getHashFromDataRequest (http.ReqHeader r) rBody
      end.

Definition ErrorResponse (code : Z) (message : string) : HTTPResponse :=
      let message :=
        if String.eqb message "" then http.StatusText code else message in
      {| StatusCode := code;
         Header := {[ "Content-Type" := ["text/plain; charset=utf-8"] ]};
         Content := list_byte_of_string message |}.

End httphelper.
End httphelper.

(** Modelled from the spec: [SignatureLength] is a method of the protocol
    library, which is not part of src/; §4.1 fixes the signature length at
    exactly 64 bytes. *)
Definition SignatureLength : nat := 64.

(** Modelled from the spec: [httpFailed] and its complement are used by
    handlers/signer.go but defined in a file that is not part of src/; §4.5
    classifies SUCCESS as a 2xx status. *)
Definition HttpSuccess (StatusCode : Z) : bool :=
  (200 <=? StatusCode) && (StatusCode <? 300).

Definition httpFailed (StatusCode : Z) : bool := negb (HttpSuccess StatusCode).

(** ** The identity store *)

(** The state the handlers run in: the rows of the identity store, and, as
    a record of what was built, the envelopes handed to [Protocol.Sign] so
    far, each with what [Protocol.Sign] returned for it. *)
Record World := {
  identities : gmap UUID Identity;
  envelopes : list (ubirch.UPP * result bytes)
}.

Definition set_identities (m : gmap UUID Identity) (w : World) : World :=
  {| identities := m; envelopes := envelopes w |}.

Definition log_envelope (u : ubirch.UPP) (signed : result bytes) (w : World)
  : World :=
  {| identities := identities w; envelopes := envelopes w ++ [(u, signed)] |}.

Definition clear_envelopes (w : World) : World :=
  {| identities := identities w; envelopes := [] |}.

Definition set_signature (sig : bytes) (id : Identity) : Identity :=
  {| Uid := Uid id; PrivateKey := PrivateKey id; PublicKey := PublicKey id;
     Signature := sig; AuthToken := AuthToken id |}.

(** Modelled from the spec: the implementations of the interface
    [ContextManager] (the file backed and the SQL backed identity store) are
    not part of src/. §4.2: [fetchIdentity(uid)] yields the identity or
    NOT_FOUND, [storeIdentity] creates and fails if the uid already exists,
    and the getters are individual accessors. *)
Module ContextManager.

Definition FetchIdentity (uid : UUID) (w : World) : result Identity :=
    match identities w !! uid with
    | Some id => Ok id
    | None => Err "NOT_FOUND"
    end.

Definition GetPrivateKey (uid : UUID) (w : World) : result bytes :=
    match FetchIdentity uid w with Ok id => Ok (PrivateKey id) | Err e => Err e end.

Definition GetPublicKey (uid : UUID) (w : World) : result bytes :=
    match FetchIdentity uid w with Ok id => Ok (PublicKey id) | Err e => Err e end.

Definition GetSignature (uid : UUID) (w : World) : result bytes :=
    match FetchIdentity uid w with Ok id => Ok (Signature id) | Err e => Err e end.

Definition GetAuthToken (uid : UUID) (w : World) : result string :=
    match FetchIdentity uid w with Ok id => Ok (AuthToken id) | Err e => Err e end.

Definition StoreIdentity (uid : UUID) (id : Identity) (w : World)
    : result unit * World :=
    match identities w !! uid with
    | Some _ => (Err "identity already exists", w)
    | None => (Ok (), set_identities (<[uid := id]> (identities w)) w)
    end.

  (** [SetSignature] of the older interface (main/protocol.go). *)
Definition SetSignature (uid : UUID) (sig : bytes) (w : World)
    : result unit * World :=
    match identities w !! uid with
    | Some id =>
        (Ok (), set_identities (<[uid := set_signature sig id]> (identities w)) w)
    | None => (Err "NOT_FOUND", w)
    end.

End ContextManager.

(** ** Package handlers (handlers/protocol.go, signer.go, services.go) *)

Module handlers.

Abbreviation operation := string.

Definition anchorHash : operation := "anchor".
Definition disableHash : operation := "disable".
Definition enableHash : operation := "enable".
Definition deleteHash : operation := "delete".

Definition lenRequestID : nat := 16.

Definition hintLookup : gmap operation ubirch.Hint :=
    <[anchorHash := ubirch.Binary]>
      (<[disableHash := ubirch.Disable]>
         (<[enableHash := ubirch.Enable]>
            (<[deleteHash := ubirch.Delete]> ∅))).

  (** What [Client.sendToAuthService] returns: the response of the backend,
      or an error, of which [os.IsTimeout] tells whether it is a timeout. *)
Inductive dispatch :=
  | Responded (backendResp : HTTPResponse)
  | Failed (IsTimeout : bool) (e : string).

Record Client := {
    sendToAuthService : UUID → string → bytes → dispatch
  }.

  (** What a handler writes to its [http.ResponseWriter]: a call of
      [http.Error] with a message (which the library sends as a plain text
      line) and a status, or a response forwarded by [SendResponse]. *)
Inductive Written :=
  | HttpError (message : string) (code : Z)
  | Sent (resp : HTTPResponse).

Definition status (o : Written) : Z :=
    match o with
    | HttpError _ code => code
    | Sent resp => StatusCode resp
    end.

Section handlers.
Context `{GoLib}.

    (** *** handlers/protocol.go *)

Definition checkSignatureLen (signature : bytes) : result unit :=
      if bool_decide (length signature ≠ SignatureLength)
      then Err ("invalid signature length: expected " +:+ pretty SignatureLength
                +:+ ", got " +:+ pretty (length signature))
      else Ok ().

    (** [ExtendedProtocol.StoreIdentity]; [uid] is the parsed [id.Uid], the
        key of the row. *)
Definition StoreIdentity (uid : UUID) (id : Identity) (w : World)
      : result unit * World :=
      (* check valid attributes *)
      if bool_decide (String.length (AuthToken id) = 0%nat) then
        (Err (Uid id +:+ ": empty token"), w)
      else
        match checkSignatureLen (Signature id) with
        | Err e => (Err (Uid id +:+ ": " +:+ e), w)
        | Ok _ =>
            if bool_decide (length (PrivateKey id) = 0%nat) then
              (Err "private key is empty", w)
            else if bool_decide (length (PublicKey id) = 0%nat) then
              (Err "public key is empty", w)
            else ContextManager.StoreIdentity uid id w
        end.

Definition GetPublicKey (uid : UUID) (w : World) : result bytes :=
      ContextManager.GetPublicKey uid w.

Definition GetAuthToken (uid : UUID) (w : World) : result string :=
      match ContextManager.GetAuthToken uid w with
      | Err e => Err e
      | Ok authToken =>
          if bool_decide (String.length authToken = 0%nat)
          then Err (uuid_String uid +:+ ": empty auth token")
          else Ok authToken
      end.

    (** *** handlers/signer.go *)

    (** [s.Protocol.Sign]: the call of the protocol library, with the
        envelope recorded. *)
Definition Protocol_Sign (privateKey : bytes) (upp : ubirch.UPP) (w : World)
      : result bytes * World :=
      let signed := protocol_Sign privateKey upp in
      (signed, log_envelope upp signed w).

Definition GetChainedUPP (id : UUID) (hash : Sha256Sum)
        (decryptedPrivate signature : bytes) (w : World) : result bytes * World :=
      Protocol_Sign decryptedPrivate
        (ubirch.ChainedUPP ubirch.Chained id signature ubirch.Binary hash) w.


Definition getSignedUPP (id : UUID) (hash : Sha256Sum)
        (decryptedPrivate : bytes) (op : operation) (w : World)
      : result bytes * World :=
      match hintLookup !! op with
      | None =>
          (Err (uuid_String id +:+ ": invalid operation: " +:+ dquote +:+ op
                +:+ dquote), w)
      | Some hint =>
          Protocol_Sign decryptedPrivate
            (ubirch.SignedUPP ubirch.Signed id hint hash) w
      end.

    (** [getRequestID]: the string and the error are both returned. *)
Definition getRequestID (respUPP : ubirch.UPP) : string * option string :=
      let respPayload := ubirch.GetPayload respUPP in
      if bool_decide (length respPayload < lenRequestID)%nat then
        ("n/a", Some "response payload does not contain request ID")
      else
        match uuid_FromBytes (take lenRequestID respPayload) with
        | Err e => ("n/a", Some e)
        | Ok requestID => (uuid_String requestID, None)
        end.

Definition getSigningResponse (respCode : Z) (msg : HTTPRequest)
        (upp : bytes) (backendResp : HTTPResponse) (requestID errMsg : string)
      : HTTPResponse :=
      let signingResp :=
        match json_Marshal {| sr_Hash := Hash msg; sr_UPP := upp;
                              sr_Response := backendResp;
                              sr_RequestID := requestID; sr_Error := errMsg |} with
        | Ok b => b
        | Err _ => []
        end in
      {| StatusCode := respCode;
         Header := {[ "Content-Type" := ["application/json"] ]};
         Content := signingResp |}.

Definition SendUPP (client : Client) (msg : HTTPRequest) (upp : bytes)
      : HTTPResponse :=
      (* send UPP to ubirch backend *)
      match sendToAuthService client (ID msg) (Auth msg) upp with
      | Failed true _ =>
          httphelper.ErrorResponse http.StatusGatewayTimeout ""
      | Failed false _ =>
          httphelper.ErrorResponse http.StatusInternalServerError ""
      | Responded backendResp =>
          (* decode the backend response UPP and get request ID *)
          let requestID :=
            match ubirch_Decode (Content backendResp) with
            | Err _ => ""
            | Ok responseUPPStruct => (getRequestID responseUPPStruct).1
            end in
          getSigningResponse (StatusCode backendResp) msg upp backendResp
                             requestID ""
      end.

Definition Sign (client : Client) (msg : HTTPRequest) (op : operation)
        (w : World) : HTTPResponse * World :=
      match ContextManager.GetPrivateKey (ID msg) w with
      | Err _ =>
          (httphelper.ErrorResponse http.StatusInternalServerError "", w)
      | Ok pemPrivateKey =>
          match getSignedUPP (ID msg) (Hash msg) pemPrivateKey op w with
          | (Err _, w') =>
              (httphelper.ErrorResponse http.StatusInternalServerError "", w')
          | (Ok uppBytes, w') => (SendUPP client msg uppBytes, w')
          end
      end.

    (** *** The chained dispatch *)

    (** Modelled from the spec: [SendChainedUpp] is declared in the interface
        [ContextManager] (handlers/protocol.go) and called by
        [ChainingService.HandleRequest], but its implementations are not part
        of src/. §4.6, step 2, inside the identity lock: (a) read [prevSig]
        and [privKey]; (b, c) build and sign the envelope, which is
        [GetChainedUPP] of signer.go; (d) stage the new signature, the
        trailing [SignatureLength] bytes of the envelope; (e) dispatch, which
        is [SendUPP] of signer.go; (f) on SUCCESS commit the staged
        signature; (g) otherwise release without commit. *)
Definition SendChainedUpp (client : Client) (msg : HTTPRequest) (w : World)
      : result HTTPResponse * World :=
      match ContextManager.FetchIdentity (ID msg) w with
      | Err e => (Err e, w)
      | Ok id =>
          let prevSig := Signature id in
          let privKey := PrivateKey id in
          match GetChainedUPP (ID msg) (Hash msg) privKey prevSig w with
          | (Err e, w') => (Err e, w')
          | (Ok uppBytes, w') =>
              let sig := drop (length uppBytes - SignatureLength) uppBytes in
              let resp := SendUPP client msg uppBytes in
              if HttpSuccess (StatusCode resp)
              then (Ok resp,
                    set_identities
                      (<[ID msg := set_signature sig id]> (identities w')) w')
              else (Ok resp, w')
          end
      end.

    (** *** handlers/services.go *)

    (** [h.Error]: logs and calls [http.Error(w, err.Error(), code)]. *)
Definition Error (uid : UUID) (err : string) (code : Z) : Written :=
      HttpError err code.

    (** [getOperation] returns the operation parameter from the request URL. *)
Definition getOperation (r : http.Request) : result operation :=
      let opParam := http.URLParam r vars.OperationKey in
      if bool_decide (opParam = anchorHash ∨ opParam = disableHash
                      ∨ opParam = enableHash ∨ opParam = deleteHash)
      then Ok opParam
      else Err ("invalid operation: expected (" +:+ dquote +:+ anchorHash
                +:+ dquote +:+ " | " +:+ dquote +:+ disableHash +:+ dquote
                +:+ " | " +:+ dquote +:+ enableHash +:+ dquote +:+ " | "
                +:+ dquote +:+ deleteHash +:+ dquote +:+ "), got " +:+ dquote
                +:+ opParam +:+ dquote).

    (** [ChainingService.HandleRequest] *)
Definition ChainingService_HandleRequest (client : Client)
        (r : http.Request) (w : World) : Written * World :=
      match httphelper.GetUUID r with
      | Err err => (Error 0%N err http.StatusNotFound, w)
      | Ok msgID =>
          match GetAuthToken msgID w with
          | Err err => (Error msgID err http.StatusInternalServerError, w)
          | Ok idAuth =>
              match httphelper.CheckAuth r idAuth with
              | Err err => (Error msgID err http.StatusUnauthorized, w)
              | Ok msgAuth =>
                  match httphelper.GetHash r with
                  | Err err => (Error msgID err http.StatusBadRequest, w)
                  | Ok msgHash =>
                      let msg := {| ID := msgID; Auth := msgAuth; Hash := msgHash |} in
                      match SendChainedUpp client msg w with
                      | (Err err, w') =>
                          (Error msgID err http.StatusInternalServerError, w')
                      | (Ok resp, w') => (Sent resp, w')
                      end
                  end
              end
          end
      end.

    (** [SigningService.HandleRequest] *)
Definition SigningService_HandleRequest (client : Client)
        (r : http.Request) (w : World) : Written * World :=
      match httphelper.GetUUID r with
      | Err err => (Error 0%N err http.StatusNotFound, w)
      | Ok msgID =>
          match GetAuthToken msgID w with
          | Err err => (Error msgID err http.StatusInternalServerError, w)
          | Ok idAuth =>
              match httphelper.CheckAuth r idAuth with
              | Err err => (Error msgID err http.StatusUnauthorized, w)
              | Ok msgAuth =>
                  match getOperation r with
                  | Err err => (Error msgID err http.StatusNotFound, w)
                  | Ok op =>
                      match httphelper.GetHash r with
                      | Err err => (Error msgID err http.StatusBadRequest, w)
                      | Ok msgHash =>
                          let msg := {| ID := msgID; Auth := msgAuth;
                                        Hash := msgHash |} in
                          let '(resp, w') := Sign client msg op w in
                          (Sent resp, w')
                      end
                  end
              end
          end
      end.

    (** *** The two signing routes of the server (main.go) *)

Inductive Route :=
    | ChainRoute     (* POST /{uuid} *)
    | UpdateRoute.   (* POST /{uuid}/{operation} *)

Record Call := {
      route : Route;
      backend : Client;      (* how the backend answers this call's dispatch *)
      request : http.Request
    }.

Definition handle (c : Call) (w : World) : Written * World :=
      match route c with
      | ChainRoute => ChainingService_HandleRequest (backend c) (request c) w
      | UpdateRoute => SigningService_HandleRequest (backend c) (request c) w
      end.

    (** What one call left behind: the answer and the envelopes it built. *)
Record Served := {
      written : Written;
      built : list (ubirch.UPP * result bytes)
    }.

    (** The server handles the calls one after the other (calls for the
        same uid are serialised by the identity lock, §5). *)
Fixpoint serve (calls : list Call) (w : World) : list Served * World :=
      match calls with
      | [] => ([], w)
      | c :: calls' =>
          let '(o, w1) := handle c (clear_envelopes w) in
          let '(os, w2) := serve calls' w1 in
          ({| written := o; built := envelopes w1 |} :: os, w2)
      end.

    (** *** The chain of a uid, read off the served calls *)

Record Link := {
      prev : bytes;       (* the previous-signature field of the envelope *)
      sig : bytes;        (* the signature appended to the envelope *)
      accepted : bool     (* the backend answered 2xx *)
    }.

Definition signature_of (signed : result bytes) : bytes :=
      match signed with
      | Ok uppBytes => drop (length uppBytes - SignatureLength) uppBytes
      | Err _ => []
      end.

Definition link_of (uid : UUID) (o : Written)
        (b : ubirch.UPP * result bytes) : option Link :=
      match b.1 with
      | ubirch.ChainedUPP _ id prevSignature _ _ =>
          if bool_decide (id = uid)
          then Some {| prev := prevSignature;
                       sig := signature_of b.2;
                       accepted := is_ok b.2 && HttpSuccess (status o) |}
          else None
      | ubirch.SignedUPP _ _ _ _ => None
      end.

Definition links (uid : UUID) (served : list Served) : list Link :=
      s ← served; omap (link_of uid (written s)) (built s).

    (** The chain tip of a uid: its stored signature. *)
Definition tip (uid : UUID) (w : World) : option bytes :=
      Signature <$> identities w !! uid.



End handlers.
End handlers.

(** ** Package main (main/protocol.go, main/config.go) *)

(** A Go call either returns or panics. *)
Inductive outcome (A : Type) : Type :=
| Returned (a : A)
| Panicked (msg : string).
Arguments Returned {A} a.
Arguments Panicked {A} msg.

Module mainpkg.

  (** *** main/protocol.go *)

Definition checkSignatureLen (signature : bytes) : result unit :=
    if bool_decide (length signature ≠ SignatureLength)
    then Err ("invalid signature length: expected " +:+ pretty SignatureLength
              +:+ ", got " +:+ pretty (length signature))
    else Ok ().

Definition GetSignature (uid : UUID) (w : World) : result bytes :=
    match ContextManager.GetSignature uid w with
    | Err e => Err e
    | Ok signature =>
        match checkSignatureLen signature with
        | Err e => Err e
        | Ok _ => Ok signature
        end
    end.

Definition SetSignature (uid : UUID) (signature : bytes) (w : World)
    : result unit * World :=
    match checkSignatureLen signature with
    | Err e => (Err e, w)
    | Ok _ => ContextManager.SetSignature uid signature w
    end.

  (** *** main/config.go *)

Definition DEV_STAGE : string := "dev".
Definition DEMO_STAGE : string := "demo".
Definition PROD_STAGE : string := "prod".
Definition KEY_URL : string := "https://key.%s.ubirch.com/api/keyService/v1/pubkey".
Definition NIOMON_URL : string := "https://niomon.%s.ubirch.com/".
Definition VERIFY_URL : string := "https://verify.%s.ubirch.com/api/upp".

  (** [fmt.Sprintf] of a format with one [%s] verb. *)
Fixpoint Sprintf (format arg : string) : string :=
    match format with
    | EmptyString => EmptyString
    | String "%" (String "s" rest) => arg +:+ rest
    | String c rest => String c (Sprintf rest arg)
    end.

Record Config := {
    Devices : gmap string string;
    Secret : string;
    DSN : string;
    StaticUUID : bool;
    Env : string;
    TLS : bool;
    CertFile : string;
    KeyFile : string;
    Debug : bool;
    KeyService : string;
    Niomon : string;
    VerifyService : string;
    SecretBytes : bytes
  }.

Definition set_Env (v : string) (c : Config) : Config :=
    {| Devices := Devices c; Secret := Secret c; DSN := DSN c;
       StaticUUID := StaticUUID c; Env := v; TLS := TLS c;
       CertFile := CertFile c; KeyFile := KeyFile c; Debug := Debug c;
       KeyService := KeyService c; Niomon := Niomon c;
       VerifyService := VerifyService c; SecretBytes := SecretBytes c |}.

Definition set_CertFile (v : string) (c : Config) : Config :=
    {| Devices := Devices c; Secret := Secret c; DSN := DSN c;
       StaticUUID := StaticUUID c; Env := Env c; TLS := TLS c;
       CertFile := v; KeyFile := KeyFile c; Debug := Debug c;
       KeyService := KeyService c; Niomon := Niomon c;
       VerifyService := VerifyService c; SecretBytes := SecretBytes c |}.

Definition set_KeyFile (v : string) (c : Config) : Config :=
    {| Devices := Devices c; Secret := Secret c; DSN := DSN c;
       StaticUUID := StaticUUID c; Env := Env c; TLS := TLS c;
       CertFile := CertFile c; KeyFile := v; Debug := Debug c;
       KeyService := KeyService c; Niomon := Niomon c;
       VerifyService := VerifyService c; SecretBytes := SecretBytes c |}.

Definition set_KeyService (v : string) (c : Config) : Config :=
    {| Devices := Devices c; Secret := Secret c; DSN := DSN c;
       StaticUUID := StaticUUID c; Env := Env c; TLS := TLS c;
       CertFile := CertFile c; KeyFile := KeyFile c; Debug := Debug c;
       KeyService := v; Niomon := Niomon c;
       VerifyService := VerifyService c; SecretBytes := SecretBytes c |}.

Definition set_Niomon (v : string) (c : Config) : Config :=
    {| Devices := Devices c; Secret := Secret c; DSN := DSN c;
       StaticUUID := StaticUUID c; Env := Env c; TLS := TLS c;
       CertFile := CertFile c; KeyFile := KeyFile c; Debug := Debug c;
       KeyService := KeyService c; Niomon := v;
       VerifyService := VerifyService c; SecretBytes := SecretBytes c |}.

Definition set_VerifyService (v : string) (c : Config) : Config :=
    {| Devices := Devices c; Secret := Secret c; DSN := DSN c;
       StaticUUID := StaticUUID c; Env := Env c; TLS := TLS c;
       CertFile := CertFile c; KeyFile := KeyFile c; Debug := Debug c;
       KeyService := KeyService c; Niomon := Niomon c;
       VerifyService := v; SecretBytes := SecretBytes c |}.

Definition set_SecretBytes (v : bytes) (c : Config) : Config :=
    {| Devices := Devices c; Secret := Secret c; DSN := DSN c;
       StaticUUID := StaticUUID c; Env := Env c; TLS := TLS c;
       CertFile := CertFile c; KeyFile := KeyFile c; Debug := Debug c;
       KeyService := KeyService c; Niomon := Niomon c;
       VerifyService := VerifyService c; SecretBytes := v |}.

  (** What the loader reads from outside: the environment, the file system,
      the two decoders that fill a [Config], and the package variables
      [Path] and [ConfigFile]. *)
Record OS := {
    Getenv : string → string;
    envconfig_Process : string → Config → result Config;
    ReadFile : string → result bytes;
    json_Unmarshal : bytes → Config → result Config;
    filepath_Join : string → string → string;
    Path : string;
    ConfigFile : string
  }.

Section config.
Context `{GoLib} (os : OS).

    (** [loadEnv] reads the configuration from environment variables. *)
Definition loadEnv (c : Config) : result Config :=
      envconfig_Process os "ubirch" c.

    (** [loadFile] reads the configuration from a json file. *)
Definition loadFile (filename : string) (c : Config) : result Config :=
      match ReadFile os filename with
      | Err e => Err e
      | Ok contextBytes => json_Unmarshal os contextBytes c
      end.

Definition checkMandatory (c : Config) : result unit :=
      if bool_decide (size (Devices c) = 0%nat) then
        Err ("There are no devices authorized to use this client." +:+ newline
             +:+ "It is mandatory to set at least one device UUID and auth token in the configuration."
             +:+ newline
             +:+ "For more information take a look at the README under 'Configuration'.")
      else if bool_decide (length (SecretBytes c) ≠ 16%nat) then
        Err ("secret length must be 16 bytes (is "
             +:+ pretty (length (SecretBytes c)) +:+ ")")
      else Ok ().

Definition setDefaultTLS (c : Config) : Config :=
      if TLS c then
        let c := if String.eqb (CertFile c) ""
                 then set_CertFile (filepath_Join os (Path os) "cert.pem") c
                 else c in
        if String.eqb (KeyFile c) ""
        then set_KeyFile (filepath_Join os (Path os) "key.pem") c
        else c
      else c.

Definition valid_stage (env : string) : bool :=
      String.eqb env DEV_STAGE || String.eqb env DEMO_STAGE
      || String.eqb env PROD_STAGE.

Definition setDefaultURLs (c : Config) : outcome (result Config) :=
      let c := if String.eqb (Env c) "" then set_Env PROD_STAGE c else c in
      let c := if String.eqb (Niomon c) ""
               then set_Niomon (Sprintf NIOMON_URL (Env c)) c else c in
      (* now make sure the Env variable has the actual environment value
         that is used in the URL *)
      let parts := gostrings.Split (Niomon c) "." in
      match parts !! 1%nat with
      | None =>
          Panicked ("runtime error: index out of range [1] with length "
                    +:+ pretty (length parts))
      | Some env =>
          let c := set_Env env c in
          (* assert Env variable value is a valid UBIRCH backend environment *)
          if negb (valid_stage (Env c)) then
            Returned (Err ("invalid UBIRCH backend environment: " +:+ dquote
                           +:+ Env c +:+ dquote))
          else
            let c := if String.eqb (KeyService c) ""
                     then set_KeyService (Sprintf KEY_URL (Env c)) c
                     else set_KeyService
                            (gostrings.TrimSuffix (KeyService c) "/mpack") c in
            let c := if String.eqb (VerifyService c) ""
                     then set_VerifyService (Sprintf VERIFY_URL (Env c)) c
                     else c in
            Returned (Ok c)
      end.

Definition Load (c : Config) : outcome (result Config) :=
      (* assume that we want to load from env instead of config files, if
         we have the UBIRCH_DEVICES env variable set. *)
      let loaded :=
        if negb (String.eqb (Getenv os "UBIRCH_DEVICES") "")
        then loadEnv c
        else loadFile (filepath_Join os (Path os) (ConfigFile os)) c in
      match loaded with
      | Err e => Returned (Err e)
      | Ok c =>
          match base64_DecodeString (Secret c) with
          | (_, Some e) =>
              Returned (Err ("unable to decode base64 encoded secret ("
                             +:+ Secret c +:+ "): " +:+ e))
          | (secretBytes, None) =>
              let c := set_SecretBytes secretBytes c in
              match checkMandatory c with
              | Err e => Returned (Err e)
              | Ok _ => setDefaultURLs (setDefaultTLS c)
              end
          end
      end.

End config.
End mainpkg.

(** ** A test double for the libraries

    The theorems below hold for every [GoLib]. To run the model on the
    scenarios of §8 the class is instantiated once: UUIDs, hex and base64 are
    decoded as the Go libraries do on well-formed input, while the digest, the
    signature, the JSON scanner and the receipt encoder are small stand-ins
    (they produce values of the right shape, not the real ones). *)

Module fake.

Definition hexval (c : ascii) : option N :=
    let n := N_of_ascii c in
    if ((48 <=? n) && (n <=? 57))%N then Some (n - 48)%N
    else if ((97 <=? n) && (n <=? 102))%N then Some (n - 87)%N
    else if ((65 <=? n) && (n <=? 70))%N then Some (n - 55)%N
    else None.

Fixpoint parse_hex (s : string) (acc : N) : option N :=
    match s with
    | EmptyString => Some acc
    | String c s' =>
        match hexval c with
        | Some d => parse_hex s' (acc * 16 + d)%N
        | None => None
        end
    end.

  (** The canonical form xxxxxxxx-xxxx-xxxx-xxxx-xxxxxxxxxxxx. *)
Definition parse_uuid (s : string) : result UUID :=
    if bool_decide (String.length s = 36%nat
                    ∧ String.get 8 s = Some "-"%char
                    ∧ String.get 13 s = Some "-"%char
                    ∧ String.get 18 s = Some "-"%char
                    ∧ String.get 23 s = Some "-"%char)
    then
      match parse_hex (String.substring 0 8 s +:+ String.substring 9 4 s
                       +:+ String.substring 14 4 s +:+ String.substring 19 4 s
                       +:+ String.substring 24 12 s) 0 with
      | Some n => Ok n
      | None => Err "invalid UUID format"
      end
    else Err ("invalid UUID length: " +:+ pretty (String.length s)).

Definition hexdigit (d : N) : ascii :=
    if (d <? 10)%N then ascii_of_N (48 + d) else ascii_of_N (87 + d).

  (** The [digits] low hex digits of [n], most significant first. *)
Fixpoint to_hex (digits : nat) (n : N) (acc : string) : string :=
    match digits with
    | O => acc
    | S k => to_hex k (n / 16)%N (String (hexdigit (n mod 16)%N) acc)
    end.

Definition uuid_to_string (u : UUID) : string :=
    let h := to_hex 32 u EmptyString in
    String.substring 0 8 h +:+ "-" +:+ String.substring 8 4 h +:+ "-"
    +:+ String.substring 12 4 h +:+ "-" +:+ String.substring 16 4 h +:+ "-"
    +:+ String.substring 20 12 h.

Definition N_of_bytes (b : bytes) : N :=
    foldl (λ acc x, acc * 256 + Byte.to_N x)%N 0%N b.

Definition byte_of_N (n : N) : byte :=
    default x00 (Byte.of_N (n mod 256)%N).

Definition uuid_of_bytes (b : bytes) : result UUID :=
    if bool_decide (length b = 16%nat) then Ok (N_of_bytes b)
    else Err ("invalid UUID (got " +:+ pretty (length b) +:+ " bytes)").

Fixpoint hex_decode (s : string) (acc : bytes) : bytes * option string :=
    match s with
    | EmptyString => (acc, None)
    | String _ EmptyString => (acc, Some "encoding/hex: odd length hex string")
    | String a (String b s') =>
        match hexval a, hexval b with
        | Some x, Some y => hex_decode s' (acc ++ [byte_of_N (x * 16 + y)])
        | _, _ => (acc, Some "encoding/hex: invalid byte")
        end
    end.

Definition decode_hex (s : string) : bytes * option string :=
    hex_decode s [].

Definition b64val (c : ascii) : option N :=
    let n := N_of_ascii c in
    if ((65 <=? n) && (n <=? 90))%N then Some (n - 65)%N
    else if ((97 <=? n) && (n <=? 122))%N then Some (n - 71)%N
    else if ((48 <=? n) && (n <=? 57))%N then Some (n + 4)%N
    else if (n =? 43)%N then Some 62%N
    else if (n =? 47)%N then Some 63%N
    else None.

  (** Groups of four characters; padding only in the last group. *)
Fixpoint b64_decode (s : string) (acc : bytes) : bytes * option string :=
    match s with
    | EmptyString => (acc, None)
    | String a (String b (String c (String d s'))) =>
        match b64val a, b64val b, b64val c, b64val d with
        | Some w, Some x, Some y, Some z =>
            let n := (((w * 64 + x) * 64 + y) * 64 + z)%N in
            b64_decode s' (acc ++ [byte_of_N (n / 65536); byte_of_N (n / 256);
                                   byte_of_N n])
        | Some w, Some x, Some y, None =>
            if bool_decide (d = "="%char ∧ s' = EmptyString)
            then let n := ((w * 64 + x) * 64 + y)%N in
                 (acc ++ [byte_of_N (n / 1024); byte_of_N (n / 4)], None)
            else (acc, Some "illegal base64 data")
        | Some w, Some x, None, None =>
            if bool_decide (c = "="%char ∧ d = "="%char ∧ s' = EmptyString)
            then (acc ++ [byte_of_N ((w * 64 + x) / 16)], None)
            else (acc, Some "illegal base64 data")
        | _, _, _, _ => (acc, Some "illegal base64 data")
        end
    | _ => (acc, Some "illegal base64 data")
    end.

Definition decode_base64 (s : string) : bytes * option string :=
    b64_decode s [].

  (** Stand-in for SHA-256: 32 bytes that depend on every byte of the
      input and on its length. *)
Definition digest (data : bytes) : bytes :=
    let s := foldl (λ acc x, acc * 31 + Byte.to_N x + 7)%N 1%N data in
    (λ i : nat, byte_of_N (s / (N.of_nat i + 1) + N.of_nat i)) <$> seq 0 32.

Definition ws (c : ascii) : bool :=
    let n := N_of_ascii c in
    ((n =? 32) || (n =? 9) || (n =? 10) || (n =? 13))%N.

  (** [json.Compact] on a well-formed text: white space outside string
      literals is dropped. *)
Fixpoint compact (in_string escaped : bool) (s : string) : string :=
    match s with
    | EmptyString => EmptyString
    | String c s' =>
        if in_string then
          String c (compact (escaped || negb (Ascii.eqb c "034"%char))
                            (negb escaped && Ascii.eqb c "\"%char) s')
        else if ws c then compact false false s'
        else String c (compact (Ascii.eqb c "034"%char) false s')
    end.

Definition compact_bytes (b : bytes) : result bytes :=
    Ok (list_byte_of_string (compact false false (string_of_list_byte b))).

Definition quote (s : string) : string := dquote +:+ s +:+ dquote.

  (** The bodies of scenario S6, and the float64 patterns of 1 and 2. *)
Definition one : float64 := 0x3FF0000000000000%N.
Definition two : float64 := 0x4000000000000000%N.

Definition body_ba : bytes :=
    list_byte_of_string
      ("{" +:+ quote "b" +:+ ":2," +:+ quote "a" +:+ ":1}").
Definition body_ab : bytes :=
    list_byte_of_string
      ("{" +:+ quote "a" +:+ ":1," +:+ quote "b" +:+ ":2}").
Definition body_aa12 : bytes :=
    list_byte_of_string
      ("{" +:+ quote "a" +:+ ":1," +:+ quote "a" +:+ ":2}").
Definition body_aa21 : bytes :=
    list_byte_of_string
      ("{" +:+ quote "a" +:+ ":2," +:+ quote "a" +:+ ":1}").

  (** Stand-in for the scanner: it knows the bodies above. *)
Definition scan (b : bytes) : result json.text :=
    if bool_decide (b = body_ba) then
      Ok (json.TObject [("b", json.TNumber two); ("a", json.TNumber one)])
    else if bool_decide (b = body_ab) then
      Ok (json.TObject [("a", json.TNumber one); ("b", json.TNumber two)])
    else if bool_decide (b = body_aa12) then
      Ok (json.TObject [("a", json.TNumber one); ("a", json.TNumber two)])
    else if bool_decide (b = body_aa21) then
      Ok (json.TObject [("a", json.TNumber two); ("a", json.TNumber one)])
    else Err "invalid character".

Definition encode_float (f : float64) : string :=
    if bool_decide (f = one) then "1"
    else if bool_decide (f = two) then "2"
    else "0x" +:+ to_hex 16 f EmptyString.

  (** Stand-in for the receipt encoder: the envelope bytes. *)
Definition marshal_receipt (r : signingResponse) : result bytes := Ok (sr_UPP r).

  (** Stand-in for the protocol library: the fields of the envelope
      followed by 64 bytes derived from key and fields. *)
Definition fields (u : ubirch.UPP) : bytes :=
    match u with
    | ubirch.SignedUPP _ _ h p => byte_of_N (Z.to_N h) :: p
    | ubirch.ChainedUPP _ _ prev h p => prev ++ byte_of_N (Z.to_N h) :: p
    end.

Definition sign (key : bytes) (u : ubirch.UPP) : result bytes :=
    if bool_decide (length key = 0%nat) then Err "no private key"
    else Ok (fields u ++ digest (key ++ fields u) ++ digest (fields u ++ key)).

Definition decode_upp (b : bytes) : result ubirch.UPP :=
    if bool_decide (length b = 0%nat) then Err "empty response"
    else Ok (ubirch.SignedUPP ubirch.Signed 0%N ubirch.Binary b).

#[export] Instance lib : GoLib := {|
    uuid_Parse := parse_uuid;
    uuid_FromBytes := uuid_of_bytes;
    uuid_String := uuid_to_string;
    hex_DecodeString := decode_hex;
    base64_DecodeString := decode_base64;
    sha256_Sum256 := digest;
    json_scan := scan;
    json_encodeFloat := encode_float;
    json_encodeString := quote;
    json_Compact := compact_bytes;
    json_Marshal := marshal_receipt;
    protocol_Sign := sign;
    ubirch_Decode := decode_upp
  |}.

End fake.


(** ** The scenarios of §8 as inputs of the model *)

Module scenario.
Import handlers.

Definition uid_text : string := "d1b7eb09-d1d8-4c63-b6a5-1c861a6477fa".
Definition uid : UUID := 278763608588413467432784619876638816250%N.

(** 64 zero bytes. *)
Definition genesis : bytes := replicate 64 x00.

Definition device (signature : bytes) : Identity :=
  {| Uid := uid_text; PrivateKey := [x01; x02; x03]; PublicKey := [x04; x05];
     Signature := signature; AuthToken := "ABC" |}.

(** A store that holds the one device, with the given chain tip. *)
Definition world (signature : bytes) : World :=
  {| identities := {[ uid := device signature ]}; envelopes := [] |}.

(** The body of S1: 0x00..01, 32 bytes. *)
Definition hash1 : bytes := replicate 31 x00 ++ [x01].

Definition headers (contentType token : string) : http.Header :=
  <["Content-Type" := [contentType]]> {[ "X-Auth-Token" := [token] ]}.

(** POST /{uuid}/hash *)
Definition chained_request (token : string) : http.Request :=
  {| http.Path := "/" +:+ uid_text +:+ "/hash";
     http.URLParams := {[ "uuid" := uid_text ]};
     http.ReqHeader := headers vars.BinType token;
     http.ReqBody := http.Readable hash1 |}.

(** POST /{uuid}/{operation}/hash *)
Definition update_request (op token : string) : http.Request :=
  {| http.Path := "/" +:+ uid_text +:+ "/" +:+ op +:+ "/hash";
     http.URLParams := <["operation" := op]> {[ "uuid" := uid_text ]};
     http.ReqHeader := headers vars.BinType token;
     http.ReqBody := http.Readable hash1 |}.

(** POST /{uuid}/hash with a hex encoded hash as text/plain. *)
Definition hex_request : http.Request :=
  {| http.Path := "/" +:+ uid_text +:+ "/hash";
     http.URLParams := {[ "uuid" := uid_text ]};
     http.ReqHeader :=
       <["Content-Transfer-Encoding" := ["hex"]]> (headers vars.TextType "ABC");
     http.ReqBody :=
       http.Readable
         (list_byte_of_string
            "00000000000000000000000000000000000000000000000000000000000000ff") |}.

Definition answers (code : Z) : Client :=
  {| sendToAuthService := λ _ _ _,
       Responded {| StatusCode := code; Header := ∅; Content := [x2a] |} |}.

Definition refuses : Client :=
  {| sendToAuthService := λ _ _ _, Failed false "connection refused" |}.

Definition times_out : Client :=
  {| sendToAuthService := λ _ _ _, Failed true "context deadline exceeded" |}.

Definition chained (client : Client) : Call :=
  {| route := ChainRoute; backend := client; request := chained_request "ABC" |}.

Definition update (client : Client) (op : string) : Call :=
  {| route := UpdateRoute; backend := client; request := update_request op "ABC" |}.

Definition message : HTTPRequest := {| ID := uid; Auth := "ABC"; Hash := hash1 |}.

(** A configuration file that names a backend URL without a dot. *)
Definition empty_config : mainpkg.Config :=
  {| mainpkg.Devices := ∅; mainpkg.Secret := ""; mainpkg.DSN := "";
     mainpkg.StaticUUID := false; mainpkg.Env := ""; mainpkg.TLS := false;
     mainpkg.CertFile := ""; mainpkg.KeyFile := ""; mainpkg.Debug := false;
     mainpkg.KeyService := ""; mainpkg.Niomon := "";
     mainpkg.VerifyService := ""; mainpkg.SecretBytes := [] |}.

Definition config_file (niomon : string) : mainpkg.Config :=
  {| mainpkg.Devices := {[ uid_text := "ABC" ]};
     mainpkg.Secret := "MTIzNDU2Nzg5MDEyMzQ1Ng==";
     mainpkg.DSN := ""; mainpkg.StaticUUID := false; mainpkg.Env := "";
     mainpkg.TLS := false; mainpkg.CertFile := ""; mainpkg.KeyFile := "";
     mainpkg.Debug := false; mainpkg.KeyService := "";
     mainpkg.Niomon := niomon; mainpkg.VerifyService := "";
     mainpkg.SecretBytes := [] |}.

(** No UBIRCH_DEVICES in the environment; config.json decodes to [c]. *)
Definition os_with_file (c : mainpkg.Config) : mainpkg.OS :=
  {| mainpkg.Getenv := λ _, "";
     mainpkg.envconfig_Process := λ _ c0, Ok c0;
     mainpkg.ReadFile := λ _, Ok [];
     mainpkg.json_Unmarshal := λ _ _, Ok c;
     mainpkg.filepath_Join := λ dir file, dir +:+ "/" +:+ file;
     mainpkg.Path := ".";
     mainpkg.ConfigFile := "config.json" |}.

(** The texts of the bodies [{"a":1,"b":2}] and friends. *)
Definition text_ab : json.text :=
  json.TObject [("a", json.TNumber fake.one); ("b", json.TNumber fake.two)].
Definition text_ba : json.text :=
  json.TObject [("b", json.TNumber fake.two); ("a", json.TNumber fake.one)].
Definition text_aa12 : json.text :=
  json.TObject [("a", json.TNumber fake.one); ("a", json.TNumber fake.two)].
Definition text_aa21 : json.text :=
  json.TObject [("a", json.TNumber fake.two); ("a", json.TNumber fake.one)].

End scenario.


(** * The vocabulary of the properties *)

Section vocabulary.
Context `{GoLib}.
Import handlers.


(** A dispatch fails when the call returns an error or the backend answers
    outside 2xx. *)
Definition dispatch_failed (d : dispatch) : Prop :=
  match d with
  | Failed _ _ => True
  | Responded backendResp => HttpSuccess (StatusCode backendResp) = false
  end.


End vocabulary.

(** A string without a dot. *)
Fixpoint dotless (s : string) : bool :=
  match s with
  | EmptyString => true
  | String c s' => negb (Ascii.eqb c ".") && dotless s'
  end.

(** One rearrangement of the members of one object of a JSON text, at any
    depth; the members keep their values. *)
Inductive permutes : json.text → json.text → Prop :=
| permutes_here (m m' : list (string * json.text)) :
    m ≡ₚ m' → permutes (json.TObject m) (json.TObject m')
| permutes_elem (l1 : list json.text) (t t' : json.text) (l2 : list json.text) :
    permutes t t' →
    permutes (json.TArray (l1 ++ t :: l2)) (json.TArray (l1 ++ t' :: l2))
| permutes_member (m1 : list (string * json.text)) (k : string)
    (t t' : json.text) (m2 : list (string * json.text)) :
    permutes t t' →
    permutes (json.TObject (m1 ++ (k, t) :: m2))
             (json.TObject (m1 ++ (k, t') :: m2)).

(** Two texts differ only in the order of their keys. *)
Definition key_permutation : json.text → json.text → Prop := rtc permutes.

(** No object of the text, at any depth, has two members of the same name. *)
Fixpoint unique_keys (t : json.text) : bool :=
  match t with
  | json.TArray elems => forallb unique_keys elems
  | json.TObject members =>
      bool_decide (NoDup members.*1)
      && forallb (λ p, unique_keys p.2) members
  | _ => true
  end.


(** * More of the code *)

(** ** handlers/services.go: the older signer source, the verification route *)

Module handlers0.
Import handlers.

Section handlers0.
Context `{GoLib}.

(** [getSignedUPP] of the older source fetches the private key itself. *)
Definition getSignedUPP (id : UUID) (hash : Sha256Sum) (op : operation)
    (w : World) : result bytes * World :=
  match ContextManager.GetPrivateKey id w with
  | Err e => (Err e, w)
  | Ok privKeyPEM =>
      match hintLookup !! op with
      | None =>
          (Err (uuid_String id +:+ ": invalid operation: " +:+ dquote +:+ op
                +:+ dquote), w)
      | Some hint =>
          Protocol_Sign privKeyPEM
            (ubirch.SignedUPP ubirch.Signed id hint hash) w
      end
  end.

Definition Sign (client : Client) (msg : HTTPRequest) (op : operation)
    (w : World) : HTTPResponse * World :=
  match getSignedUPP (ID msg) (Hash msg) op w with
  | (Err _, w') =>
      (httphelper.ErrorResponse http.StatusInternalServerError "", w')
  | (Ok uppBytes, w') => (SendUPP client msg uppBytes, w')
  end.

(** [VerificationService.HandleRequest]; [Verify] is [Verifier.Verify],
    whose source is not part of src/ and which is taken as it comes. *)
Definition VerificationService_HandleRequest (Verify : bytes → HTTPResponse)
    (r : http.Request) : Written :=
  match httphelper.GetHash r with
  | Err err => Error 0%N err http.StatusBadRequest
  | Ok hash => Sent (Verify hash)
  end.

End handlers0.
End handlers0.

(** ** main/protocol.go: the auth token of the older protocol wrapper *)

Module protocol0.

(** Modelled from the spec: [ContextManager.SetAuthToken] belongs to the
    identity store, whose implementations are not part of src/; §4.2 makes
    the store a mapping from uid to identity with individual accessors. *)
Definition store_SetAuthToken (uid : UUID) (authToken : string) (w : World)
  : result unit * World :=
  match identities w !! uid with
  | Some id =>
      (Ok (),
       set_identities
         (<[uid := {| Uid := Uid id; PrivateKey := PrivateKey id;
                      PublicKey := PublicKey id; Signature := Signature id;
                      AuthToken := authToken |}]> (identities w)) w)
  | None => (Err "NOT_FOUND", w)
  end.

Definition GetAuthToken (uid : UUID) (w : World) : result string :=
  match ContextManager.GetAuthToken uid w with
  | Err e => Err e
  | Ok authToken =>
      if bool_decide (String.length authToken = 0%nat)
      then Err "empty auth token"
      else Ok authToken
  end.

Definition SetAuthToken (uid : UUID) (authToken : string) (w : World)
  : result unit * World :=
  if bool_decide (String.length authToken = 0%nat)
  then (Err "empty auth token", w)
  else store_SetAuthToken uid authToken w.

End protocol0.

(** ** main/main.go: the command line *)

Module maingo.

Definition MigrateArg : string := "migrate".

(** The state of the loop of [getArgs]: [configDir], [migrate], [diffPort]. *)
Definition arg_step (st : string * bool * bool) (arg : string)
  : string * bool * bool :=
  let '(configDir, migrate, diffPort) := st in
  if String.eqb arg MigrateArg then (configDir, true, diffPort)
  else if String.eqb arg "88" then (configDir, migrate, true)
  else (arg, migrate, diffPort).

(** [getArgs], of [os.Args]. *)
Definition getArgs (Args : list string) : string * bool * bool :=
  if bool_decide (1 < length Args)%nat
  then foldl arg_step ("", false, false) (drop 1 Args)
  else ("", false, false).

End maingo.

(** The part of a string before its first dot (all of it if it has none). *)
Fixpoint label (s : string) : string :=
  match s with
  | EmptyString => EmptyString
  | String c s' => if Ascii.eqb c "." then EmptyString else String c (label s')
  end.


(** ** api/ubirch_rest_api.go: the older REST endpoints *)

(** [json.Marshal] escapes HTML characters in strings, unlike the encoder
    of [httphelper.jsonMarshal]. *)
Class GoLibHTML := {
  json_encodeStringHTML : string → string
}.

Module api.

Definition UUIDKey : string := "uuid".
Definition BinType : string := "application/octet-stream".
Definition JSONType : string := "application/json".

(** A step of a handler: it goes on with a value, or it has called
    [http.Error] with a message and a status and returns. *)
Inductive handled (A : Type) : Type :=
| Continue (a : A)
| Answered (message : string) (code : Z).
Arguments Continue {A} a.
Arguments Answered {A} message code.

(** [HTTPMessage], without the channel on which the response comes back. *)
Record HTTPMessage := {
  msgID : UUID;
  msgData : bytes
}.

Section api.
Context `{GoLib} `{GoLibHTML}.

(** [json.Marshal] of what [json.Unmarshal] stored: map keys sorted. *)
Fixpoint Marshal (v : json.value) : string :=
  match v with
  | json.Nil => "null"
  | json.Bool b => if b then "true" else "false"
  | json.Float64 f => json_encodeFloat f
  | json.Str s => json_encodeStringHTML s
  | json.Slice elems => "[" +:+ String.concat "," (Marshal <$> elems) +:+ "]"
  | json.Map m =>
      "{" +:+ String.concat ","
                ((λ p, json_encodeStringHTML p.1 +:+ ":" +:+ p.2)
                   <$> merge_sort jsonlib.key_le (map_to_list (Marshal <$> m)))
          +:+ "}"
  end.

(** [json.Marshal(v)] for such a value: it has no case of failure. *)
Definition json_Marshal_value (v : json.value) : result bytes :=
  Ok (list_byte_of_string (Marshal v)).

(** helper function to get "content-type" from headers *)
Definition ContentType (r : http.Request) : string :=
  gostrings.ToLower (http.Get (http.ReqHeader r) "Content-Type").

(** make sure request has correct content-type *)
Definition assertContentType (r : http.Request) (expectedType : string)
  : handled unit :=
  if bool_decide (ContentType r ≠ expectedType)
  then Answered ("Wrong content-type. Expected " +:+ dquote +:+ expectedType
                 +:+ dquote) http.StatusBadRequest
  else Continue ().

(** helper function to get "x-auth-token" from headers *)
Definition XAuthToken (r : http.Request) : string :=
  http.Get (http.ReqHeader r) "X-Auth-Token".

(** get UUID from request URL and check auth token *)
Definition checkAuth (r : http.Request) (AuthTokens : gmap string string)
  : handled UUID :=
  (* get UUID from URL *)
  let urlParam := http.URLParam r UUIDKey in
  match uuid_Parse urlParam with
  | Err e =>
      Answered ("unable to parse " +:+ dquote +:+ urlParam +:+ dquote
                +:+ " as UUID: " +:+ e) http.StatusNotFound
  | Ok id =>
      (* check if UUID is known *)
      match AuthTokens !! uuid_String id with
      | None =>
          Answered ("unknown UUID " +:+ dquote +:+ uuid_String id +:+ dquote)
                   http.StatusNotFound
      | Some idAuthToken =>
          (* check authorization *)
          if bool_decide (XAuthToken r ≠ idAuthToken)
          then Answered ("invalid " +:+ dquote +:+ "X-Auth-Token" +:+ dquote)
                        http.StatusUnauthorized
          else Continue id
      end
  end.

Definition getSortedCompactJSON (data : bytes) : handled bytes :=
  (* json.Unmarshal returns an error if data is not valid JSON *)
  match jsonlib.Unmarshal data with
  | Err e => Answered ("unable to parse request body: " +:+ e)
                      http.StatusBadRequest
  | Ok reqDump =>
      (* json.Marshal sorts the keys *)
      match json_Marshal_value reqDump with
      | Err e => Answered ("unable to serialize json object: " +:+ e)
                          http.StatusBadRequest
      | Ok sortedJson =>
          (* remove spaces and newlines *)
          match json_Compact sortedJson with
          | Err e => Answered ("unable to compact json object: " +:+ e)
                              http.StatusBadRequest
          | Ok compactSortedJson => Continue compactSortedJson
          end
      end
  end.

Definition getData (r : http.Request) (isHash : bool) : handled bytes :=
  (* read request body *)
  match http.ReqBody r with
  | http.Broken e =>
      Answered ("unable to read request body: " +:+ e) http.StatusBadRequest
  | http.Readable data =>
      let canonical :=
        if String.eqb (ContentType r) JSONType
        then getSortedCompactJSON data
        else Continue data in
      match canonical with
      | Answered m code => Answered m code
      | Continue data =>
          if negb isHash then Continue (sha256_Sum256 data) else Continue data
      end
  end.

(** [HTTPServer.sign], up to the message it submits for signing. *)
Definition sign (AuthTokens : gmap string string) (r : http.Request)
    (isHash : bool) : handled HTTPMessage :=
  match checkAuth r AuthTokens with
  | Answered m code => Answered m code
  | Continue id =>
      match getData r isHash with
      | Answered m code => Answered m code
      | Continue data => Continue {| msgID := id; msgData := data |}
      end
  end.


Definition signJSON (AuthTokens : gmap string string) (r : http.Request)
  : handled HTTPMessage :=
  match assertContentType r JSONType with
  | Answered m code => Answered m code
  | Continue _ => sign AuthTokens r false
  end.

End api.
End api.

(** ** The newer configuration loader (Config with Keys, CSR and CORS) *)

Module config.

Definition DEV_STAGE : string := "dev".
Definition DEMO_STAGE : string := "demo".
Definition PROD_STAGE : string := "prod".

Definition defaultKeyURL : string :=
  "https://key.%s.ubirch.com/api/keyService/v1/pubkey".
Definition defaultIdentityURL : string :=
  "https://identity.%s.ubirch.com/api/certs/v1/csr/register".
Definition defaultNiomonURL : string := "https://niomon.%s.ubirch.com/".
Definition defaultVerifyURL : string :=
  "https://verify.%s.ubirch.com/api/upp/verify".

Definition authEnv : string := "UBIRCH_AUTH_MAP".
Definition authFile : string := "auth.json".
Definition identitiesFile : string := "identities.json".
Definition defaultTLSCertFile : string := "cert.pem".
Definition defaultTLSKeyFile : string := "key.pem".
Definition defaultReqBufSize : Z := 30.

Record Config := {
  Devices : gmap string string;
  Secret : string;
  Env : string;
  DSN : string;
  StaticKeys : bool;
  Keys : gmap string string;
  CSR_Country : string;
  CSR_Organization : string;
  TCP_addr : string;
  TLS : bool;
  TLS_CertFile : string;
  TLS_KeyFile : string;
  CORS : bool;
  CORS_Origins : option (list string);
  Debug : bool;
  LogTextFormat : bool;
  RequestBufSize : Z;
  SecretBytes : bytes;
  KeyService : string;
  IdentityService : string;
  Niomon : string;
  VerifyService : string;
  configDir : string
}.

Definition set_Devices (v : gmap string string) (c : Config) : Config :=
  {| Devices := v; Secret := Secret c; Env := Env c; DSN := DSN c;
     StaticKeys := StaticKeys c; Keys := Keys c;
     CSR_Country := CSR_Country c; CSR_Organization := CSR_Organization c;
     TCP_addr := TCP_addr c; TLS := TLS c; TLS_CertFile := TLS_CertFile c;
     TLS_KeyFile := TLS_KeyFile c; CORS := CORS c;
     CORS_Origins := CORS_Origins c; Debug := Debug c;
     LogTextFormat := LogTextFormat c; RequestBufSize := RequestBufSize c;
     SecretBytes := SecretBytes c; KeyService := KeyService c;
     IdentityService := IdentityService c; Niomon := Niomon c;
     VerifyService := VerifyService c; configDir := configDir c |}.

Definition set_Keys (v : gmap string string) (c : Config) : Config :=
  {| Devices := Devices c; Secret := Secret c; Env := Env c; DSN := DSN c;
     StaticKeys := StaticKeys c; Keys := v; CSR_Country := CSR_Country c;
     CSR_Organization := CSR_Organization c; TCP_addr := TCP_addr c;
     TLS := TLS c; TLS_CertFile := TLS_CertFile c;
     TLS_KeyFile := TLS_KeyFile c; CORS := CORS c;
     CORS_Origins := CORS_Origins c; Debug := Debug c;
     LogTextFormat := LogTextFormat c; RequestBufSize := RequestBufSize c;
     SecretBytes := SecretBytes c; KeyService := KeyService c;
     IdentityService := IdentityService c; Niomon := Niomon c;
     VerifyService := VerifyService c; configDir := configDir c |}.

Definition set_CSR_Country (v : string) (c : Config) : Config :=
  {| Devices := Devices c; Secret := Secret c; Env := Env c; DSN := DSN c;
     StaticKeys := StaticKeys c; Keys := Keys c; CSR_Country := v;
     CSR_Organization := CSR_Organization c; TCP_addr := TCP_addr c;
     TLS := TLS c; TLS_CertFile := TLS_CertFile c;
     TLS_KeyFile := TLS_KeyFile c; CORS := CORS c;
     CORS_Origins := CORS_Origins c; Debug := Debug c;
     LogTextFormat := LogTextFormat c; RequestBufSize := RequestBufSize c;
     SecretBytes := SecretBytes c; KeyService := KeyService c;
     IdentityService := IdentityService c; Niomon := Niomon c;
     VerifyService := VerifyService c; configDir := configDir c |}.

Definition set_CSR_Organization (v : string) (c : Config) : Config :=
  {| Devices := Devices c; Secret := Secret c; Env := Env c; DSN := DSN c;
     StaticKeys := StaticKeys c; Keys := Keys c;
     CSR_Country := CSR_Country c; CSR_Organization := v;
     TCP_addr := TCP_addr c; TLS := TLS c; TLS_CertFile := TLS_CertFile c;
     TLS_KeyFile := TLS_KeyFile c; CORS := CORS c;
     CORS_Origins := CORS_Origins c; Debug := Debug c;
     LogTextFormat := LogTextFormat c; RequestBufSize := RequestBufSize c;
     SecretBytes := SecretBytes c; KeyService := KeyService c;
     IdentityService := IdentityService c; Niomon := Niomon c;
     VerifyService := VerifyService c; configDir := configDir c |}.

Definition set_TCP_addr (v : string) (c : Config) : Config :=
  {| Devices := Devices c; Secret := Secret c; Env := Env c; DSN := DSN c;
     StaticKeys := StaticKeys c; Keys := Keys c;
     CSR_Country := CSR_Country c; CSR_Organization := CSR_Organization c;
     TCP_addr := v; TLS := TLS c; TLS_CertFile := TLS_CertFile c;
     TLS_KeyFile := TLS_KeyFile c; CORS := CORS c;
     CORS_Origins := CORS_Origins c; Debug := Debug c;
     LogTextFormat := LogTextFormat c; RequestBufSize := RequestBufSize c;
     SecretBytes := SecretBytes c; KeyService := KeyService c;
     IdentityService := IdentityService c; Niomon := Niomon c;
     VerifyService := VerifyService c; configDir := configDir c |}.

Definition set_TLS_CertFile (v : string) (c : Config) : Config :=
  {| Devices := Devices c; Secret := Secret c; Env := Env c; DSN := DSN c;
     StaticKeys := StaticKeys c; Keys := Keys c;
     CSR_Country := CSR_Country c; CSR_Organization := CSR_Organization c;
     TCP_addr := TCP_addr c; TLS := TLS c; TLS_CertFile := v;
     TLS_KeyFile := TLS_KeyFile c; CORS := CORS c;
     CORS_Origins := CORS_Origins c; Debug := Debug c;
     LogTextFormat := LogTextFormat c; RequestBufSize := RequestBufSize c;
     SecretBytes := SecretBytes c; KeyService := KeyService c;
     IdentityService := IdentityService c; Niomon := Niomon c;
     VerifyService := VerifyService c; configDir := configDir c |}.

Definition set_TLS_KeyFile (v : string) (c : Config) : Config :=
  {| Devices := Devices c; Secret := Secret c; Env := Env c; DSN := DSN c;
     StaticKeys := StaticKeys c; Keys := Keys c;
     CSR_Country := CSR_Country c; CSR_Organization := CSR_Organization c;
     TCP_addr := TCP_addr c; TLS := TLS c; TLS_CertFile := TLS_CertFile c;
     TLS_KeyFile := v; CORS := CORS c; CORS_Origins := CORS_Origins c;
     Debug := Debug c; LogTextFormat := LogTextFormat c;
     RequestBufSize := RequestBufSize c; SecretBytes := SecretBytes c;
     KeyService := KeyService c; IdentityService := IdentityService c;
     Niomon := Niomon c; VerifyService := VerifyService c;
     configDir := configDir c |}.

Definition set_CORS_Origins (v : option (list string)) (c : Config) : Config :=
  {| Devices := Devices c; Secret := Secret c; Env := Env c; DSN := DSN c;
     StaticKeys := StaticKeys c; Keys := Keys c;
     CSR_Country := CSR_Country c; CSR_Organization := CSR_Organization c;
     TCP_addr := TCP_addr c; TLS := TLS c; TLS_CertFile := TLS_CertFile c;
     TLS_KeyFile := TLS_KeyFile c; CORS := CORS c; CORS_Origins := v;
     Debug := Debug c; LogTextFormat := LogTextFormat c;
     RequestBufSize := RequestBufSize c; SecretBytes := SecretBytes c;
     KeyService := KeyService c; IdentityService := IdentityService c;
     Niomon := Niomon c; VerifyService := VerifyService c;
     configDir := configDir c |}.

Definition set_RequestBufSize (v : Z) (c : Config) : Config :=
  {| Devices := Devices c; Secret := Secret c; Env := Env c; DSN := DSN c;
     StaticKeys := StaticKeys c; Keys := Keys c;
     CSR_Country := CSR_Country c; CSR_Organization := CSR_Organization c;
     TCP_addr := TCP_addr c; TLS := TLS c; TLS_CertFile := TLS_CertFile c;
     TLS_KeyFile := TLS_KeyFile c; CORS := CORS c;
     CORS_Origins := CORS_Origins c; Debug := Debug c;
     LogTextFormat := LogTextFormat c; RequestBufSize := v;
     SecretBytes := SecretBytes c; KeyService := KeyService c;
     IdentityService := IdentityService c; Niomon := Niomon c;
     VerifyService := VerifyService c; configDir := configDir c |}.

Definition set_SecretBytes (v : bytes) (c : Config) : Config :=
  {| Devices := Devices c; Secret := Secret c; Env := Env c; DSN := DSN c;
     StaticKeys := StaticKeys c; Keys := Keys c;
     CSR_Country := CSR_Country c; CSR_Organization := CSR_Organization c;
     TCP_addr := TCP_addr c; TLS := TLS c; TLS_CertFile := TLS_CertFile c;
     TLS_KeyFile := TLS_KeyFile c; CORS := CORS c;
     CORS_Origins := CORS_Origins c; Debug := Debug c;
     LogTextFormat := LogTextFormat c; RequestBufSize := RequestBufSize c;
     SecretBytes := v; KeyService := KeyService c;
     IdentityService := IdentityService c; Niomon := Niomon c;
     VerifyService := VerifyService c; configDir := configDir c |}.

Definition set_Env (v : string) (c : Config) : Config :=
  {| Devices := Devices c; Secret := Secret c; Env := v; DSN := DSN c;
     StaticKeys := StaticKeys c; Keys := Keys c;
     CSR_Country := CSR_Country c; CSR_Organization := CSR_Organization c;
     TCP_addr := TCP_addr c; TLS := TLS c; TLS_CertFile := TLS_CertFile c;
     TLS_KeyFile := TLS_KeyFile c; CORS := CORS c;
     CORS_Origins := CORS_Origins c; Debug := Debug c;
     LogTextFormat := LogTextFormat c; RequestBufSize := RequestBufSize c;
     SecretBytes := SecretBytes c; KeyService := KeyService c;
     IdentityService := IdentityService c; Niomon := Niomon c;
     VerifyService := VerifyService c; configDir := configDir c |}.

Definition set_KeyService (v : string) (c : Config) : Config :=
  {| Devices := Devices c; Secret := Secret c; Env := Env c; DSN := DSN c;
     StaticKeys := StaticKeys c; Keys := Keys c;
     CSR_Country := CSR_Country c; CSR_Organization := CSR_Organization c;
     TCP_addr := TCP_addr c; TLS := TLS c; TLS_CertFile := TLS_CertFile c;
     TLS_KeyFile := TLS_KeyFile c; CORS := CORS c;
     CORS_Origins := CORS_Origins c; Debug := Debug c;
     LogTextFormat := LogTextFormat c; RequestBufSize := RequestBufSize c;
     SecretBytes := SecretBytes c; KeyService := v;
     IdentityService := IdentityService c; Niomon := Niomon c;
     VerifyService := VerifyService c; configDir := configDir c |}.

Definition set_IdentityService (v : string) (c : Config) : Config :=
  {| Devices := Devices c; Secret := Secret c; Env := Env c; DSN := DSN c;
     StaticKeys := StaticKeys c; Keys := Keys c;
     CSR_Country := CSR_Country c; CSR_Organization := CSR_Organization c;
     TCP_addr := TCP_addr c; TLS := TLS c; TLS_CertFile := TLS_CertFile c;
     TLS_KeyFile := TLS_KeyFile c; CORS := CORS c;
     CORS_Origins := CORS_Origins c; Debug := Debug c;
     LogTextFormat := LogTextFormat c; RequestBufSize := RequestBufSize c;
     SecretBytes := SecretBytes c; KeyService := KeyService c;
     IdentityService := v; Niomon := Niomon c;
     VerifyService := VerifyService c; configDir := configDir c |}.

Definition set_Niomon (v : string) (c : Config) : Config :=
  {| Devices := Devices c; Secret := Secret c; Env := Env c; DSN := DSN c;
     StaticKeys := StaticKeys c; Keys := Keys c;
     CSR_Country := CSR_Country c; CSR_Organization := CSR_Organization c;
     TCP_addr := TCP_addr c; TLS := TLS c; TLS_CertFile := TLS_CertFile c;
     TLS_KeyFile := TLS_KeyFile c; CORS := CORS c;
     CORS_Origins := CORS_Origins c; Debug := Debug c;
     LogTextFormat := LogTextFormat c; RequestBufSize := RequestBufSize c;
     SecretBytes := SecretBytes c; KeyService := KeyService c;
     IdentityService := IdentityService c; Niomon := v;
     VerifyService := VerifyService c; configDir := configDir c |}.

Definition set_VerifyService (v : string) (c : Config) : Config :=
  {| Devices := Devices c; Secret := Secret c; Env := Env c; DSN := DSN c;
     StaticKeys := StaticKeys c; Keys := Keys c;
     CSR_Country := CSR_Country c; CSR_Organization := CSR_Organization c;
     TCP_addr := TCP_addr c; TLS := TLS c; TLS_CertFile := TLS_CertFile c;
     TLS_KeyFile := TLS_KeyFile c; CORS := CORS c;
     CORS_Origins := CORS_Origins c; Debug := Debug c;
     LogTextFormat := LogTextFormat c; RequestBufSize := RequestBufSize c;
     SecretBytes := SecretBytes c; KeyService := KeyService c;
     IdentityService := IdentityService c; Niomon := Niomon c;
     VerifyService := v; configDir := configDir c |}.

Definition set_configDir (v : string) (c : Config) : Config :=
  {| Devices := Devices c; Secret := Secret c; Env := Env c; DSN := DSN c;
     StaticKeys := StaticKeys c; Keys := Keys c;
     CSR_Country := CSR_Country c; CSR_Organization := CSR_Organization c;
     TCP_addr := TCP_addr c; TLS := TLS c; TLS_CertFile := TLS_CertFile c;
     TLS_KeyFile := TLS_KeyFile c; CORS := CORS c;
     CORS_Origins := CORS_Origins c; Debug := Debug c;
     LogTextFormat := LogTextFormat c; RequestBufSize := RequestBufSize c;
     SecretBytes := SecretBytes c; KeyService := KeyService c;
     IdentityService := IdentityService c; Niomon := Niomon c;
     VerifyService := VerifyService c; configDir := v |}.

(** What the loader reads from outside. [NotExist] is [os.IsNotExist] of
    the error of [os.Stat]; [Open] is [os.Open] together with the reading
    of the file by the decoder. *)
Record OS := {
  Getenv : string → string;
  envconfig_Process : string → Config → result Config;
  Open : string → result bytes;
  Decode_Config : bytes → Config → result Config;
  Decode_identities : bytes → result (list (gmap string string));
  NotExist : string → bool;
  ReadFile : string → result bytes;
  Unmarshal_auth : bytes → result (gmap string (list string));
  filepath_Join : string → string → string
}.

Section config.
Context `{GoLib} (os : OS).

(** [loadEnv] reads the configuration from environment variables. *)
Definition loadEnv (c : Config) : result Config :=
  envconfig_Process os "ubirch" c.

(** [loadFile] reads the configuration from a json file. *)
Definition loadFile (filename : string) (c : Config) : result Config :=
  let configFile := filepath_Join os (configDir c) filename in
  match Open os configFile with
  | Err e => Err e
  | Ok fileHandle => Decode_Config os fileHandle c
  end.

Definition checkMandatory (c : Config) : result unit :=
  if bool_decide (size (Devices c) = 0%nat) then
    Err ("There are no devices authorized to use this client." +:+ newline
         +:+ "It is mandatory to set at least one device UUID and auth token in the configuration."
         +:+ newline
         +:+ "For more information take a look at the README under 'Configuration'.")
  else if bool_decide (length (SecretBytes c) ≠ 16%nat) then
    Err ("secret length must be 16 bytes (is "
         +:+ pretty (length (SecretBytes c)) +:+ ")")
  else if StaticKeys c && bool_decide (size (Keys c) = 0%nat) then
    Err "dynamic key generation disabled but no injected signing keys found in configuration"
  else Ok ().

Definition setDefaultCSR (c : Config) : Config :=
  let c := if String.eqb (CSR_Country c) "" then set_CSR_Country "DE" c
           else c in
  if String.eqb (CSR_Organization c) ""
  then set_CSR_Organization "ubirch GmbH" c else c.

Definition setDefaultTLS (c : Config) : Config :=
  let c := if String.eqb (TCP_addr c) "" then set_TCP_addr ":8080" c else c in
  if TLS c then
    let c := if String.eqb (TLS_CertFile c) ""
             then set_TLS_CertFile defaultTLSCertFile c else c in
    let c := set_TLS_CertFile
               (filepath_Join os (configDir c) (TLS_CertFile c)) c in
    let c := if String.eqb (TLS_KeyFile c) ""
             then set_TLS_KeyFile defaultTLSKeyFile c else c in
    set_TLS_KeyFile (filepath_Join os (configDir c) (TLS_KeyFile c)) c
  else c.

Definition setDefaultCORS (c : Config) : Config :=
  if CORS c then
    match CORS_Origins c with
    | None => set_CORS_Origins (Some ["*"]) c   (* allow all origins *)
    | Some _ => c
    end
  else c.

Definition setDefaultReqBufSize (c : Config) : Config :=
  if bool_decide (RequestBufSize c = 0) then set_RequestBufSize defaultReqBufSize c
  else c.

Definition valid_stage (env : string) : bool :=
  String.eqb env DEV_STAGE || String.eqb env DEMO_STAGE
  || String.eqb env PROD_STAGE.

(** [setDefaultURLs]: the configuration, and the value that the package
    variable [ENV] receives. *)
Definition setDefaultURLs (c : Config) : result (Config * string) :=
  let c := if String.eqb (Env c) "" then set_Env PROD_STAGE c else c in
  (* assert Env variable value is a valid UBIRCH backend environment *)
  if negb (valid_stage (Env c)) then
    Err ("invalid UBIRCH backend environment: " +:+ dquote +:+ Env c
         +:+ dquote)
  else
    let ENV := Env c in
    let c := if String.eqb (KeyService c) ""
             then set_KeyService (mainpkg.Sprintf defaultKeyURL (Env c)) c
             else set_KeyService
                    (gostrings.TrimSuffix (KeyService c) "/mpack") c in
    let c := if String.eqb (IdentityService c) ""
             then set_IdentityService
                    (mainpkg.Sprintf defaultIdentityURL (Env c)) c
             else c in
    let c := if String.eqb (Niomon c) ""
             then set_Niomon (mainpkg.Sprintf defaultNiomonURL (Env c)) c
             else c in
    let c := if String.eqb (VerifyService c) ""
             then set_VerifyService (mainpkg.Sprintf defaultVerifyURL (Env c)) c
             else c in
    Ok (c, ENV).

(** A read of a map of strings: the empty string for a missing key. *)
Definition at_key (m : gmap string string) (k : string) : string :=
  default "" (m !! k).

(** [loadIdentitiesFile] loads device identities from the identities JSON
    file. Returns without error if file does not exist. *)
Definition loadIdentitiesFile (c : Config) : result Config :=
  (* if file does not exist, return right away *)
  if NotExist os identitiesFile then Ok c
  else
    match Open os (filepath_Join os (configDir c) identitiesFile) with
    | Err e => Err e
    | Ok fileHandle =>
        match Decode_identities os fileHandle with
        | Err e => Err e
        | Ok identities =>
            Ok (foldl (λ c identity,
                         set_Devices (<[at_key identity "uuid"
                                        := at_key identity "password"]>
                                        (Devices c)) c)
                      c identities)
        end
    end.

(** The body of the loop of [loadAuthMap]: [c.Keys[k] = v[0]] and then
    [c.Devices[k] = v[1]]. *)
Definition auth_entry (c : Config) (kv : string * list string)
  : outcome Config :=
  match kv.2 !! 0%nat with
  | None => Panicked "runtime error: index out of range [0] with length 0"
  | Some key =>
      let c := set_Keys (<[kv.1 := key]> (Keys c)) c in
      match kv.2 !! 1%nat with
      | None => Panicked "runtime error: index out of range [1] with length 1"
      | Some token => Returned (set_Devices (<[kv.1 := token]> (Devices c)) c)
      end
  end.

(** A [range] loop whose body may panic. *)
Fixpoint range_entries (c : Config) (entries : list (string * list string))
  : outcome Config :=
  match entries with
  | [] => Returned c
  | kv :: entries' =>
      match auth_entry c kv with
      | Panicked msg => Panicked msg
      | Returned c' => range_entries c' entries'
      end
  end.

(** [loadAuthMap] loads the auth map from the environment (legacy).
    Returns without error if neither env variable nor file exists. The map
    is ranged over in the order of [map_to_list]. *)
Definition loadAuthMap (c : Config) : outcome (result Config) :=
  let authMap := Getenv os authEnv in
  let read : option (result bytes) :=
    if negb (String.eqb authMap "") then Some (Ok (list_byte_of_string authMap))
    else if NotExist os authFile then None
    else Some (ReadFile os (filepath_Join os (configDir c) authFile)) in
  match read with
  | None => Returned (Ok c)
  | Some (Err e) => Returned (Err e)
  | Some (Ok authMapBytes) =>
      match Unmarshal_auth os authMapBytes with
      | Err e => Returned (Err e)
      | Ok buffer =>
          match range_entries c (map_to_list buffer) with
          | Panicked msg => Panicked msg
          | Returned c' => Returned (Ok c')
          end
      end
  end.

Definition Load (dir filename : string) (c : Config)
  : outcome (result (Config * string)) :=
  let c := set_configDir dir c in
  (* assume that we want to load from env instead of config files, if
     we have the UBIRCH_SECRET env variable set. *)
  let loaded :=
    if negb (String.eqb (Getenv os "UBIRCH_SECRET") "")
    then loadEnv c else loadFile filename c in
  match loaded with
  | Err e => Returned (Err e)
  | Ok c =>
      match base64_DecodeString (Secret c) with
      | (_, Some e) =>
          Returned (Err ("unable to decode base64 encoded secret ("
                         +:+ Secret c +:+ "): " +:+ e))
      | (secretBytes, None) =>
          let c := set_SecretBytes secretBytes c in
          match loadAuthMap c with
          | Panicked msg => Panicked msg
          | Returned (Err e) => Returned (Err e)
          | Returned (Ok c) =>
              match loadIdentitiesFile c with
              | Err e => Returned (Err e)
              | Ok c =>
                  match checkMandatory c with
                  | Err e => Returned (Err e)
                  | Ok _ =>
                      (* set defaults *)
                      Returned
                        (setDefaultURLs
                           (setDefaultReqBufSize
                              (setDefaultCORS
                                 (setDefaultTLS (setDefaultCSR c)))))
                  end
              end
          end
      end
  end.

End config.
End config.


(** ** Inputs for the further code *)

Module samples.
Import scenario.

(** The HTML-escaping encoder, on strings that need no escape. *)
#[export] Instance libHTML : GoLibHTML := {|
  json_encodeStringHTML := fake.quote
|}.

(** POST /{uuid} *)
Definition data_request (contentType : string) (body : bytes) : http.Request :=
  {| http.Path := "/" +:+ uid_text;
     http.URLParams := {[ "uuid" := uid_text ]};
     http.ReqHeader := headers contentType "ABC";
     http.ReqBody := http.Readable body |}.

(** POST /{uuid}/hash *)
Definition hash_request (body : bytes) : http.Request :=
  {| http.Path := "/" +:+ uid_text +:+ "/hash";
     http.URLParams := {[ "uuid" := uid_text ]};
     http.ReqHeader := headers vars.BinType "ABC";
     http.ReqBody := http.Readable body |}.

Definition data : bytes := [x01; x02; x03; x04].

(** The token map of the older server. *)
Definition AuthTokens : gmap string string := {[ uid_text := "ABC" ]}.

(** A response of the backend whose payload starts with the 16 bytes of
    [uid]. *)
Definition uid_bytes : bytes :=
  [xd1; xb7; xeb; x09; xd1; xd8; x4c; x63; xb6; xa5; x1c; x86; x1a; x64; x77;
   xfa].

Definition backendResp : HTTPResponse :=
  {| StatusCode := 200; Header := ∅; Content := uid_bytes ++ [x2a] |}.

Definition backend : handlers.Client :=
  {| handlers.sendToAuthService := λ _ _ _, handlers.Responded backendResp |}.

(** The newer configuration: what config.json decodes to. *)
Definition file_config : config.Config :=
  {| config.Devices := ∅;
     config.Secret := "MTIzNDU2Nzg5MDEyMzQ1Ng==";
     config.Env := "demo"; config.DSN := ""; config.StaticKeys := true;
     config.Keys := ∅; config.CSR_Country := "";
     config.CSR_Organization := ""; config.TCP_addr := "";
     config.TLS := true; config.TLS_CertFile := ""; config.TLS_KeyFile := "";
     config.CORS := true; config.CORS_Origins := None;
     config.Debug := false; config.LogTextFormat := false;
     config.RequestBufSize := 0; config.SecretBytes := [];
     config.KeyService := ""; config.IdentityService := "";
     config.Niomon := ""; config.VerifyService := ""; config.configDir := "" |}.

Definition no_config : config.Config :=
  {| config.Devices := ∅; config.Secret := ""; config.Env := "";
     config.DSN := ""; config.StaticKeys := false; config.Keys := ∅;
     config.CSR_Country := ""; config.CSR_Organization := "";
     config.TCP_addr := ""; config.TLS := false; config.TLS_CertFile := "";
     config.TLS_KeyFile := ""; config.CORS := false;
     config.CORS_Origins := None; config.Debug := false;
     config.LogTextFormat := false; config.RequestBufSize := 0;
     config.SecretBytes := []; config.KeyService := "";
     config.IdentityService := ""; config.Niomon := "";
     config.VerifyService := ""; config.configDir := "" |}.

Definition other_uid_text : string := "8a70ad8b-a564-4e58-9a3b-224ac0f0153f".

Definition auth_map : gmap string (list string) :=
  {[ uid_text := ["a2V5"; "ABC"] ]}.

Definition identity_list : list (gmap string string) :=
  [ {[ "uuid" := other_uid_text; "password" := "first" ]};
    {[ "uuid" := other_uid_text; "password" := "second" ]} ].

(** UBIRCH_SECRET is not set, UBIRCH_AUTH_MAP is; config.json and
    identities.json exist. *)
Definition os : config.OS :=
  {| config.Getenv := λ k, if String.eqb k config.authEnv then "{}" else "";
     config.envconfig_Process := λ _ c, Ok c;
     config.Open := λ _, Ok [];
     config.Decode_Config := λ _ c,
       Ok (config.set_configDir (config.configDir c) file_config);
     config.Decode_identities := λ _, Ok identity_list;
     config.NotExist := λ _, false;
     config.ReadFile := λ _, Ok [];
     config.Unmarshal_auth := λ _, Ok auth_map;
     config.filepath_Join := λ dir file, dir +:+ "/" +:+ file |}.

End samples.


(** * Properties *)

(** ** Strings *)

Lemma string_length_app (s t : string) :
  String.length (s +:+ t) = (String.length s + String.length t)%nat.
Proof. induction s as [|c s IH]; simpl; [done | by rewrite IH]. Qed.

Lemma substring_app_skip (p s : string) (n m : nat) :
  String.substring (String.length p + n) m (p +:+ s) = String.substring n m s.
Proof. induction p as [|c p IH]; simpl; [done | apply IH]. Qed.

Lemma substring_all (s : string) :
  String.substring 0 (String.length s) s = s.
Proof. induction s as [|c s IH]; simpl; [done | by rewrite IH]. Qed.

Lemma HasSuffix_app (p s : string) : gostrings.HasSuffix (p +:+ s) s = true.
Proof.
  unfold gostrings.HasSuffix. rewrite string_length_app.
  apply andb_true_intro; split.
  - apply Nat.leb_le. lia.
  - replace (String.length p + String.length s - String.length s)%nat
      with (String.length p + 0)%nat by lia.
    rewrite substring_app_skip, substring_all. apply String.eqb_refl.
Qed.

Lemma string_app_assoc (s t u : string) : (s +:+ t) +:+ u = s +:+ t +:+ u.
Proof.
  induction s as [|c s IH]; [reflexivity |].
  change (String c ((s +:+ t) +:+ u) = String c (s +:+ t +:+ u)).
  by rewrite IH.
Qed.


(** ** Hash extraction (httphelper) *)

Section hash_extraction.
Context `{GoLib}.

Lemma copy_exact (n : nat) (data : bytes) :
  length data = n → httphelper.copy n data = data.
Proof.
  intros <-. unfold httphelper.copy.
  rewrite firstn_all, Nat.sub_diag. simpl. apply app_nil_r.
Qed.

Lemma checkHashLen_Ok (data h : bytes) :
  httphelper.checkHashLen data = Ok h ↔ length data = 32%nat ∧ h = data.
Proof.
  unfold httphelper.checkHashLen, vars.HashLen.
  case_bool_decide as Hlen.
  - split; [done | intros [? _]; done].
  - rewrite copy_exact by done.
    split; [intros [= <-]; done | intros [_ ->]; done].
Qed.

Lemma checkHashLen_length (data : bytes) :
  is_ok (httphelper.checkHashLen data) = true ↔ length data = 32%nat.
Proof.
  destruct (httphelper.checkHashLen data) as [h|e] eqn:E; simpl.
  - apply checkHashLen_Ok in E as [? _]. done.
  - split; [done |]. intros Hlen.
    assert (httphelper.checkHashLen data = Ok data) as E'
      by (apply checkHashLen_Ok; done).
    congruence.
Qed.

Lemma hash_request_bin (header : http.Header) (body h : bytes) :
  httphelper.ContentType header = vars.BinType →
  httphelper.getHashFromHashRequest header body = Ok h
  ↔ length body = 32%nat ∧ h = body.
Proof.
  intros Hct. unfold httphelper.getHashFromHashRequest. rewrite Hct. simpl.
  apply checkHashLen_Ok.
Qed.





End hash_extraction.

(** ** The signed update route *)

Section signing.
Context `{GoLib}.
Import handlers.

Lemma Protocol_Sign_identities (key : bytes) (u : ubirch.UPP) (w : World) :
  identities (Protocol_Sign key u w).2 = identities w.
Proof. reflexivity. Qed.

Lemma getSignedUPP_identities (id : UUID) (hash key : bytes) (op : operation)
    (w : World) :
  identities (getSignedUPP id hash key op w).2 = identities w.
Proof. unfold getSignedUPP. by destruct (hintLookup !! op). Qed.

Lemma Sign_identities (client : Client) (msg : HTTPRequest) (op : operation)
    (w : World) :
  identities (Sign client msg op w).2 = identities w.
Proof.
  unfold Sign. destruct (ContextManager.GetPrivateKey _ w) as [key|e]; [|done].
  pose proof (getSignedUPP_identities (ID msg) (Hash msg) key op w) as Hid.
  by destruct (getSignedUPP _ _ key op w) as [[upp|e] w'].
Qed.

(** The update route never writes to the identity store. *)
Lemma SigningService_identities (client : Client) (r : http.Request) (w : World) :
  identities (SigningService_HandleRequest client r w).2 = identities w.
Proof.
  unfold SigningService_HandleRequest.
  destruct (httphelper.GetUUID r) as [uid|e]; [|done].
  destruct (GetAuthToken uid w) as [tok|e]; [|done].
  destruct (httphelper.CheckAuth r tok) as [auth|e]; [|done].
  destruct (getOperation r) as [op|e]; [|done].
  destruct (httphelper.GetHash r) as [hash|e]; [|done].
  match goal with |- context [Sign ?c ?m ?o ?w] =>
    pose proof (Sign_identities c m o w) as Hid;
    destruct (Sign c m o w) as [resp w'] end.
  exact Hid.
Qed.

Lemma CheckAuth_Ok (r : http.Request) (tok : string) :
  httphelper.AuthToken (http.ReqHeader r) = tok →
  httphelper.CheckAuth r tok = Ok tok.
Proof.
  intros Htok. unfold httphelper.CheckAuth. rewrite Htok.
  by case_bool_decide.
Qed.

Lemma CheckAuth_Err (r : http.Request) (tok : string) :
  httphelper.AuthToken (http.ReqHeader r) ≠ tok →
  httphelper.CheckAuth r tok = Err "invalid auth token".
Proof.
  intros Htok. unfold httphelper.CheckAuth.
  case_bool_decide as Hne; [done |]. by destruct Hne.
Qed.

Lemma getOperation_Ok (r : http.Request) (op : operation) :
  op ∈ [anchorHash; disableHash; enableHash; deleteHash] →
  http.URLParam r vars.OperationKey = op →
  getOperation r = Ok op.
Proof.
  intros Hop Hparam. unfold getOperation. rewrite Hparam.
  case_bool_decide as Hin; [done |].
  destruct Hin. set_solver.
Qed.

(** The hint that [hintLookup] holds for each operation of the route. *)
Lemma hintLookup_table (op : operation) :
  op ∈ [anchorHash; disableHash; enableHash; deleteHash] →
  ∃ hint, hintLookup !! op = Some hint
          ∧ (op, hint) ∈ [(anchorHash, ubirch.Binary); (disableHash, ubirch.Disable);
                          (enableHash, ubirch.Enable); (deleteHash, ubirch.Delete)].
Proof.
  intros Hop.
  repeat (apply elem_of_cons in Hop as [-> | Hop]);
    [eexists; split; [vm_compute; reflexivity | set_solver] .. |].
  by apply elem_of_nil in Hop.
Qed.

Lemma GetAuthToken_fetch (uid : UUID) (w : World) (tok : string) :
  GetAuthToken uid w = Ok tok →
  ∃ id, identities w !! uid = Some id ∧ AuthToken id = tok.
Proof.
  unfold GetAuthToken, ContextManager.GetAuthToken, ContextManager.FetchIdentity.
  destruct (identities w !! uid) as [id|]; [|done].
  case_bool_decide; [done |]. intros [= <-]. by exists id.
Qed.

(** C3. On the update route POST /{uuid}/{operation}, for each of the four
    operations, an authenticated request with a readable hash makes the
    handler build exactly one envelope: a signed (not chained) one for the
    addressed uid and the request's hash, with the hint of the operation
    (anchor: BINARY 0x00, disable: 0xFA, enable: 0xFB, delete: 0xFC), also
    for anchor. Whatever the request, the identity store, and with it the
    chain tip of every uid, is left as it was. *)
Theorem update_route_builds_signed_envelope (client : Client)
    (r : http.Request) (w : World) (uid : UUID) (tok : string)
    (op : operation) (hash : Sha256Sum) :
  httphelper.GetUUID r = Ok uid →
  GetAuthToken uid w = Ok tok →
  httphelper.AuthToken (http.ReqHeader r) = tok →
  op ∈ [anchorHash; disableHash; enableHash; deleteHash] →
  http.URLParam r vars.OperationKey = op →
  httphelper.GetHash r = Ok hash →
  let w' := (SigningService_HandleRequest client r w).2 in
  (∃ hint signed,
      (op, hint) ∈ [(anchorHash, 0x00); (disableHash, 0xFA);
                     (enableHash, 0xFB); (deleteHash, 0xFC)]
      ∧ envelopes w'
        = envelopes w ++ [(ubirch.SignedUPP ubirch.Signed uid hint hash, signed)])
  ∧ identities w' = identities w
  ∧ ∀ uid', tip uid' w' = tip uid' w.
Proof.
  intros Huid Htok Hauth Hop Hparam Hhash w'.
  split; [| split].
  - subst w'. unfold SigningService_HandleRequest.
    rewrite Huid, Htok, (CheckAuth_Ok r tok Hauth),
      (getOperation_Ok r op Hop Hparam), Hhash.
    destruct (GetAuthToken_fetch uid w tok Htok) as (id & Hid & _).
    destruct (hintLookup_table op Hop) as (hint & Hhint & Htable).
    exists hint, (protocol_Sign (PrivateKey id)
                    (ubirch.SignedUPP ubirch.Signed uid hint hash)).
    split; [exact Htable |].
    unfold Sign, ContextManager.GetPrivateKey, ContextManager.FetchIdentity,
      getSignedUPP, Protocol_Sign. simpl.
    rewrite Hid, Hhint.
    by destruct (protocol_Sign _ _).
  - apply SigningService_identities.
  - intros uid'. unfold tip. subst w'. by rewrite SigningService_identities.
Qed.

(** ** Authentication *)

(** C8. When the X-Auth-Token header differs from the stored token of the
    addressed uid, both signing handlers answer through [http.Error] with
    status 401 and the message "invalid auth token", and return the world
    untouched: no envelope has been built and nothing was stored. *)
Theorem bad_token_unauthorized (client : Client) (r : http.Request)
    (w : World) (uid : UUID) (tok : string) :
  httphelper.GetUUID r = Ok uid →
  GetAuthToken uid w = Ok tok →
  httphelper.AuthToken (http.ReqHeader r) ≠ tok →
  ChainingService_HandleRequest client r w
    = (HttpError "invalid auth token" 401, w)
  ∧ SigningService_HandleRequest client r w
    = (HttpError "invalid auth token" 401, w).
Proof.
  intros Huid Htok Hauth.
  unfold ChainingService_HandleRequest, SigningService_HandleRequest.
  by rewrite Huid, Htok, (CheckAuth_Err r tok Hauth).
Qed.

End signing.

(** ** Dispatch to the backend *)

Section dispatch.
Context `{GoLib}.
Import handlers.

Lemma SendUPP_StatusCode (client : Client) (msg : HTTPRequest) (upp : bytes) :
  StatusCode (SendUPP client msg upp)
  = match sendToAuthService client (ID msg) (Auth msg) upp with
    | Failed true _ => 504
    | Failed false _ => 500
    | Responded backendResp => StatusCode backendResp
    end.
Proof.
  unfold SendUPP.
  by destruct (sendToAuthService client (ID msg) (Auth msg) upp) as [resp|[] e].
Qed.

Lemma SendUPP_failed (client : Client) (msg : HTTPRequest) (upp : bytes) :
  dispatch_failed (sendToAuthService client (ID msg) (Auth msg) upp) →
  HttpSuccess (StatusCode (SendUPP client msg upp)) = false.
Proof.
  rewrite SendUPP_StatusCode.
  by destruct (sendToAuthService client (ID msg) (Auth msg) upp) as [resp|[] e].
Qed.

(** What the signing handler answers once the envelope is signed. *)
Lemma Sign_status (client : Client) (msg : HTTPRequest) (op : operation)
    (w : World) (key upp : bytes) (w' : World) :
  ContextManager.GetPrivateKey (ID msg) w = Ok key →
  getSignedUPP (ID msg) (Hash msg) key op w = (Ok upp, w') →
  StatusCode (Sign client msg op w).1 = StatusCode (SendUPP client msg upp).
Proof. intros Hkey Hupp. unfold Sign. by rewrite Hkey, Hupp. Qed.

(** C4 (as amended). The status that [SendUPP] hands back for a dispatch,
    and that the signing handler passes on to the caller: 504 when the call
    timed out, 500 when it failed in any other way (a refused connection,
    for one), and otherwise the status of the backend's response as it is,
    a 4xx and a 5xx alike. *)
Theorem dispatch_status (client : Client) (msg : HTTPRequest) (upp : bytes) :
  let answer :=
    match sendToAuthService client (ID msg) (Auth msg) upp with
    | Failed true _ => 504
    | Failed false _ => 500
    | Responded backendResp => StatusCode backendResp
    end in
  StatusCode (SendUPP client msg upp) = answer
  ∧ ∀ op w key w',
      ContextManager.GetPrivateKey (ID msg) w = Ok key →
      getSignedUPP (ID msg) (Hash msg) key op w = (Ok upp, w') →
      StatusCode (Sign client msg op w).1 = answer.
Proof.
  intros answer. split; [apply SendUPP_StatusCode |].
  intros op w key w' Hkey Hupp.
  rewrite (Sign_status client msg op w key upp w' Hkey Hupp).
  apply SendUPP_StatusCode.
Qed.

End dispatch.

(** ** The chain *)

Section chain.
Context `{GoLib}.
Import handlers.

(** What one chained dispatch does to the world, seen from a uid. *)
Lemma SendChainedUpp_step (client : Client) (msg : HTTPRequest) (w : World)
    (r : result HTTPResponse) (w1 : World) (uid : UUID) :
  envelopes w = [] →
  SendChainedUpp client msg w = (r, w1) →
  let o := match r with
           | Ok resp => Sent resp
           | Err err => Error (ID msg) err http.StatusInternalServerError
           end in
  (omap (link_of uid o) (envelopes w1) = [] ∧ tip uid w1 = tip uid w)
  ∨ (∃ l, omap (link_of uid o) (envelopes w1) = [l]
          ∧ uid = ID msg
          ∧ tip uid w = Some (prev l)
          ∧ tip uid w1 = Some (if accepted l then sig l else prev l)).
Proof.
  intros Hlog. unfold SendChainedUpp, ContextManager.FetchIdentity.
  destruct (identities w !! ID msg) as [id|] eqn:Hid.
  2: { intros [= <- <-]. left. by rewrite Hlog. }
  unfold GetChainedUPP, Protocol_Sign. cbv zeta.
  destruct (decide (ID msg = uid)) as [<-|Hne].
  - destruct (protocol_Sign _ _) as [upp|e] eqn:Hsign.
    + destruct (HttpSuccess _) eqn:Hok; intros [= <- <-]; right; simpl;
        rewrite Hlog; simpl; unfold link_of; simpl;
        rewrite bool_decide_eq_true_2 by done;
        eexists; (split; [reflexivity |]); simpl; rewrite Hok; simpl;
        unfold tip; simpl; rewrite ?lookup_insert_eq, ?Hid; done.
    + intros [= <- <-]. right. simpl. rewrite Hlog. simpl. unfold link_of. simpl.
      rewrite bool_decide_eq_true_2 by done.
      eexists. split; [reflexivity |]. simpl. unfold tip. simpl.
      by rewrite Hid.
  - destruct (protocol_Sign _ _) as [upp|e] eqn:Hsign.
    + destruct (HttpSuccess _) eqn:Hok; intros [= <- <-]; left; simpl;
        rewrite Hlog; simpl; unfold link_of; simpl;
        rewrite bool_decide_eq_false_2 by done;
        (split; [done |]); unfold tip; simpl;
        rewrite ?lookup_insert_ne by done; done.
    + intros [= <- <-]. left. simpl. rewrite Hlog. simpl. unfold link_of. simpl.
      by rewrite bool_decide_eq_false_2 by done.
Qed.

Lemma Signing_links (client : Client) (r : http.Request) (w : World)
    (uid : UUID) (o : Written) :
  omap (link_of uid o) (envelopes (SigningService_HandleRequest client r w).2)
  = omap (link_of uid o) (envelopes w).
Proof.
  unfold SigningService_HandleRequest.
  destruct (httphelper.GetUUID r) as [id|e]; [|done].
  destruct (GetAuthToken id w) as [tok|e]; [|done].
  destruct (httphelper.CheckAuth r tok) as [auth|e]; [|done].
  destruct (getOperation r) as [op|e]; [|done].
  destruct (httphelper.GetHash r) as [hash|e]; [|done].
  unfold Sign. simpl.
  destruct (ContextManager.GetPrivateKey id w) as [key|e]; [|done].
  unfold getSignedUPP.
  destruct (hintLookup !! op) as [hint|]; [|done].
  unfold Protocol_Sign. cbv zeta.
  destruct (protocol_Sign _ _); simpl; by rewrite omap_app, app_nil_r.
Qed.

(** One served call, seen from a uid: either it built no chained envelope
    for the uid and left its tip alone, or it built one, which carries the
    tip, and the tip moved to its signature exactly if it was accepted. *)
Lemma handle_step (c : Call) (w : World) (o : Written) (w1 : World) (uid : UUID) :
  handle c (clear_envelopes w) = (o, w1) →
  (omap (link_of uid o) (envelopes w1) = [] ∧ tip uid w1 = tip uid w)
  ∨ (∃ l, omap (link_of uid o) (envelopes w1) = [l]
          ∧ tip uid w = Some (prev l)
          ∧ tip uid w1 = Some (if accepted l then sig l else prev l)).
Proof.
  unfold handle. destruct (route c).
  - unfold ChainingService_HandleRequest.
    destruct (httphelper.GetUUID _) as [id|e]; [|intros [= <- <-]; by left].
    destruct (GetAuthToken id _) as [tok|e]; [|intros [= <- <-]; by left].
    destruct (httphelper.CheckAuth _ tok) as [auth|e]; [|intros [= <- <-]; by left].
    destruct (httphelper.GetHash _) as [hash|e]; [|intros [= <- <-]; by left].
    destruct (SendChainedUpp _ _ _) as [r w'] eqn:Hsend.
    eapply (SendChainedUpp_step _ _ _ _ _ uid) in Hsend; [|done].
    destruct r as [resp|err]; intros [= <- <-];
      (destruct Hsend as [?|(l & ? & _ & ? & ?)]; [by left | right; by exists l]).
  - intros Hh. left.
    pose proof (Signing_links (backend c) (request c) (clear_envelopes w) uid o) as Hl.
    pose proof (SigningService_identities (backend c) (request c) (clear_envelopes w)) as Hi.
    rewrite Hh in Hl, Hi. simpl in Hl, Hi. split; [exact Hl |].
    unfold tip. by rewrite Hi.
Qed.



Lemma SendChainedUpp_failed (client : Client) (msg : HTTPRequest) (w : World) :
  (∀ upp, dispatch_failed (sendToAuthService client (ID msg) (Auth msg) upp)) →
  identities (SendChainedUpp client msg w).2 = identities w.
Proof.
  intros Hfail. unfold SendChainedUpp, ContextManager.FetchIdentity.
  destruct (identities w !! ID msg) as [id|]; [|done].
  unfold GetChainedUPP, Protocol_Sign. cbv zeta.
  destruct (protocol_Sign _ _) as [upp|e]; [|done].
  by rewrite (SendUPP_failed client msg upp (Hfail upp)).
Qed.

Lemma Chaining_failed (client : Client) (r : http.Request) (w : World) :
  (∀ id auth upp, dispatch_failed (sendToAuthService client id auth upp)) →
  identities (ChainingService_HandleRequest client r w).2 = identities w.
Proof.
  intros Hfail. unfold ChainingService_HandleRequest.
  destruct (httphelper.GetUUID r) as [id|e]; [|done].
  destruct (GetAuthToken id w) as [tok|e]; [|done].
  destruct (httphelper.CheckAuth r tok) as [auth|e]; [|done].
  destruct (httphelper.GetHash r) as [hash|e]; [|done].
  match goal with |- context [SendChainedUpp ?c ?m ?w] =>
    pose proof (SendChainedUpp_failed c m w (λ upp, Hfail _ _ upp)) as Hid;
    destruct (SendChainedUpp c m w) as [[resp|err] w'] end; exact Hid.
Qed.


(** C2. When the dispatch of a chained request fails (the call returns an
    error, a timeout included, or the backend answers outside 2xx), the
    identity store is left as it was, so the chain tip of the uid is
    unchanged, and a chained envelope built by the next call for that uid
    carries the same previous-signature field as the one built by the
    failing call. *)
Theorem failed_dispatch_keeps_tip (c1 c2 : Call) (w : World) (uid : UUID) :
  route c1 = ChainRoute →
  (∀ id auth upp,
      dispatch_failed (sendToAuthService (backend c1) id auth upp)) →
  identities (handle c1 w).2 = identities w
  ∧ tip uid (handle c1 w).2 = tip uid w
  ∧ ∀ l1 l2,
      l1 ∈ links uid (take 1 (serve [c1; c2] w).1) →
      l2 ∈ links uid (drop 1 (serve [c1; c2] w).1) →
      prev l2 = prev l1.
Proof.
  intros Hroute Hfail.
  assert (∀ w0, identities (handle c1 w0).2 = identities w0) as Hid.
  { intros w0. unfold handle. rewrite Hroute. by apply Chaining_failed. }
  split; [apply Hid | split].
  - unfold tip. by rewrite Hid.
  - simpl. destruct (handle c1 (clear_envelopes w)) as [o1 w1] eqn:H1.
    destruct (handle c2 (clear_envelopes w1)) as [o2 w2] eqn:H2. simpl.
    change (links uid [{| written := o1; built := envelopes w1 |}])
      with (omap (link_of uid o1) (envelopes w1) ++ []).
    change (links uid [{| written := o2; built := envelopes w2 |}])
      with (omap (link_of uid o2) (envelopes w2) ++ []).
    rewrite !app_nil_r. intros l1 l2 Hl1 Hl2.
    assert (tip uid w1 = tip uid w) as Htip.
    { pose proof (Hid (clear_envelopes w)) as Hid'. rewrite H1 in Hid'.
      unfold tip. simpl in Hid'. by rewrite Hid'. }
    destruct (handle_step c1 w o1 w1 uid H1) as [[E1 _]|(l & E1 & Ht & _)];
      rewrite E1 in Hl1; [by apply elem_of_nil in Hl1 |].
    destruct (handle_step c2 w1 o2 w2 uid H2) as [[E2 _]|(l' & E2 & Ht' & _)];
      rewrite E2 in Hl2; [by apply elem_of_nil in Hl2 |].
    apply list_elem_of_singleton in Hl1 as ->.
    apply list_elem_of_singleton in Hl2 as ->.
    rewrite Htip, Ht in Ht'. by injection Ht'.
Qed.

End chain.

(** ** The length of a stored signature *)

Section signature_length.
Context `{GoLib}.

Lemma checkSignatureLen_main (signature : bytes) :
  is_ok (mainpkg.checkSignatureLen signature) = true
  ↔ length signature = 64%nat.
Proof.
  unfold mainpkg.checkSignatureLen, SignatureLength.
  case_bool_decide; simpl; split; try done; intros; congruence.
Qed.

Lemma checkSignatureLen_handlers (signature : bytes) :
  is_ok (handlers.checkSignatureLen signature) = true
  ↔ length signature = 64%nat.
Proof.
  unfold handlers.checkSignatureLen, SignatureLength.
  case_bool_decide; simpl; split; try done; intros; congruence.
Qed.

(** C5 (as amended). A stored signature read back through [GetSignature] is
    accepted exactly when it is 64 bytes long; every other length, the
    empty one included, is rejected. [StoreIdentity] rejects an identity
    whose signature is not 64 bytes long, the empty one included, and
    stores nothing; it stores a new identity that has a token, both keys
    and a signature of 64 bytes. *)
Theorem stored_signature_is_64_bytes (uid : UUID) (id : Identity) (w : World) :
  (identities w !! uid = Some id →
   (is_ok (mainpkg.GetSignature uid w) = true ↔ length (Signature id) = 64%nat)
   ∧ ∀ sig, mainpkg.GetSignature uid w = Ok sig → sig = Signature id)
  ∧ (length (Signature id) ≠ 64%nat →
     is_ok (handlers.StoreIdentity uid id w).1 = false
     ∧ (handlers.StoreIdentity uid id w).2 = w)
  ∧ (length (Signature id) = 64%nat →
     AuthToken id ≠ "" → PrivateKey id ≠ [] → PublicKey id ≠ [] →
     identities w !! uid = None →
     (handlers.StoreIdentity uid id w).1 = Ok ()
     ∧ identities (handlers.StoreIdentity uid id w).2 !! uid = Some id).
Proof.
  split; [| split].
  - intros Hid. unfold mainpkg.GetSignature, ContextManager.GetSignature,
      ContextManager.FetchIdentity. rewrite Hid.
    pose proof (checkSignatureLen_main (Signature id)) as Hlen.
    destruct (mainpkg.checkSignatureLen (Signature id)); simpl in *.
    + split; [done |]. by intros sig [= <-].
    + split; [done |]. by intros sig.
  - intros Hlen. unfold handlers.StoreIdentity.
    case_bool_decide; [done |].
    pose proof (checkSignatureLen_handlers (Signature id)) as Hok.
    destruct (handlers.checkSignatureLen (Signature id)); simpl in *; [|done].
    destruct Hlen. by apply Hok.
  - intros Hlen Htok Hpriv Hpub Hfresh. unfold handlers.StoreIdentity.
    rewrite bool_decide_eq_false_2 by (by destruct (AuthToken id)).
    pose proof (checkSignatureLen_handlers (Signature id)) as Hok.
    destruct (handlers.checkSignatureLen (Signature id)) as [[]|e]; simpl in *.
    2: { apply Hok in Hlen. done. }
    rewrite (bool_decide_eq_false_2 (length (PrivateKey id) = 0%nat))
      by (by destruct (PrivateKey id)).
    rewrite (bool_decide_eq_false_2 (length (PublicKey id) = 0%nat))
      by (by destruct (PublicKey id)).
    unfold ContextManager.StoreIdentity. rewrite Hfresh.
    split; [done |]. apply lookup_insert_eq.
Qed.

End signature_length.

(** ** JSON canonicalisation *)

Section canonical_json.
Context `{GoLib}.
Import json.

Lemma decode_array (elems : list text) :
  jsonlib.decode (TArray elems) = Slice (jsonlib.decode <$> elems).
Proof. reflexivity. Qed.

Lemma decode_object (members : list (string * text)) :
  jsonlib.decode (TObject members)
  = Map (foldl (λ acc p, <[p.1 := jsonlib.decode p.2]> acc) ∅ members).
Proof. reflexivity. Qed.

Lemma unique_keys_array (elems : list text) :
  unique_keys (TArray elems) = forallb unique_keys elems.
Proof. reflexivity. Qed.

Lemma unique_keys_object (members : list (string * text)) :
  unique_keys (TObject members)
  = bool_decide (NoDup members.*1) && forallb (λ p, unique_keys p.2) members.
Proof. reflexivity. Qed.

(** Filling a map member by member does not depend on the order of the
    members when their names are distinct. *)
Lemma fill_permutation {A} (g : A → value) (m m' : list (string * A)) :
  m ≡ₚ m' → NoDup m.*1 →
  ∀ acc : gmap string value,
    foldl (λ acc p, <[p.1 := g p.2]> acc) acc m
    = foldl (λ acc p, <[p.1 := g p.2]> acc) acc m'.
Proof.
  induction 1 as [|x l l' Hperm IH|x y l|l l' l'' H1 IH1 H2 IH2];
    intros Hnd acc; simpl.
  - done.
  - apply IH. rewrite fmap_cons in Hnd. by apply NoDup_cons in Hnd as [_ ?].
  - rewrite insert_insert_ne; [done |].
    rewrite !fmap_cons in Hnd. apply NoDup_cons in Hnd as [Hnotin _].
    intros Heq. apply Hnotin. rewrite Heq. apply list_elem_of_here.
  - rewrite IH1 by done. apply IH2.
    by rewrite <- H1.
Qed.

Lemma forallb_permutation {A} (f : A → bool) (l l' : list A) :
  l ≡ₚ l' → forallb f l = true → forallb f l' = true.
Proof.
  intros Hperm. rewrite !forallb_forall. intros Hall x Hin.
  apply Hall. by eapply Permutation_in; [symmetry|].
Qed.

(** One rearrangement changes neither the decoded value nor the
    distinctness of the keys. *)
Lemma permutes_decode (t t' : text) :
  permutes t t' → unique_keys t = true →
  jsonlib.decode t = jsonlib.decode t' ∧ unique_keys t' = true.
Proof.
  induction 1 as [m m' Hperm|l1 t t' l2 Hstep IH|m1 k t t' m2 Hstep IH].
  - rewrite !unique_keys_object, !decode_object.
    intros [Hnd Hall]%andb_prop. apply bool_decide_eq_true in Hnd.
    split.
    + f_equal. by apply fill_permutation.
    + apply andb_true_intro. split.
      * apply bool_decide_eq_true. by rewrite <- Hperm.
      * by eapply forallb_permutation.
  - rewrite !unique_keys_array, !decode_array, !forallb_app. simpl.
    intros [H1 [Ht H2]%andb_prop]%andb_prop.
    destruct (IH Ht) as [Hdec Huniq].
    split.
    + by rewrite !fmap_app, !fmap_cons, Hdec.
    + by rewrite H1, Huniq, H2.
  - rewrite !unique_keys_object, !decode_object, !fmap_app, !forallb_app,
      !foldl_app. simpl.
    intros [Hnd [H1 [Ht H2]%andb_prop]%andb_prop]%andb_prop.
    destruct (IH Ht) as [Hdec Huniq].
    split.
    + by rewrite Hdec.
    + by rewrite Hnd, H1, Huniq, H2.
Qed.

Lemma key_permutation_decode (t t' : text) :
  key_permutation t t' → unique_keys t = true →
  jsonlib.decode t = jsonlib.decode t' ∧ unique_keys t' = true.
Proof.
  induction 1 as [t|t t1 t' Hstep Hrest IH]; [done |].
  intros Huniq. destruct (permutes_decode t t1 Hstep Huniq) as [-> Huniq1].
  by apply IH.
Qed.

#[local] Instance key_le_total : Total jsonlib.key_le.
Proof. intros p q. apply String.leb_total. Qed.

(** The encoder writes the members of a map in the order of their keys. *)
Lemma encoded_members_sorted (m : gmap string value) :
  Sorted jsonlib.key_le
         (merge_sort jsonlib.key_le (map_to_list (jsonlib.encode <$> m))).
Proof. apply (Sorted_merge_sort jsonlib.key_le). Qed.

(** C6 (as amended). For JSON texts in which no object has two members of
    the same name: if two bodies differ only in the order of the keys of
    their objects, at any depth, then they decode to the same value, their
    sorted compact renderings are equal, and so are the hashes of the two
    requests. *)
Theorem canonical_json_ignores_key_order (t t' : text) (body body' : bytes)
    (header : http.Header) :
  unique_keys t = true →
  key_permutation t t' →
  json_scan body = Ok t →
  json_scan body' = Ok t' →
  jsonlib.decode t = jsonlib.decode t'
  ∧ httphelper.GetSortedCompactJSON body = httphelper.GetSortedCompactJSON body'
  ∧ (httphelper.ContentType header = vars.JSONType →
     httphelper.getHashFromDataRequest header body
     = httphelper.getHashFromDataRequest header body').
Proof.
  intros Huniq Hperm Hscan Hscan'.
  destruct (key_permutation_decode t t' Hperm Huniq) as [Hdec _].
  assert (httphelper.GetSortedCompactJSON body
          = httphelper.GetSortedCompactJSON body') as Hcanon.
  { unfold httphelper.GetSortedCompactJSON, jsonlib.Unmarshal.
    by rewrite Hscan, Hscan', Hdec. }
  split; [exact Hdec | split; [exact Hcanon |]].
  intros Hct. unfold httphelper.getHashFromDataRequest.
  by rewrite Hct, Hcanon.
Qed.

End canonical_json.

(** ** Loading the configuration *)

Lemma string_app_nil_r (s : string) : s +:+ "" = s.
Proof.
  induction s as [|c s IH]; [reflexivity |].
  change (String c (s +:+ "") = String c s). by rewrite IH.
Qed.

Lemma split_go_dotless (s cur : string) :
  dotless s = true → gostrings.split_go "." 0 cur s = [cur +:+ s].
Proof.
  revert cur. induction s as [|c s IH]; intros cur Hd.
  - change (gostrings.split_go "." 0 cur "") with [cur].
    by rewrite string_app_nil_r.
  - change (negb (Ascii.eqb c ".") && dotless s = true) in Hd.
    apply andb_prop in Hd as [Hc Hs].
    change (gostrings.split_go "." 0 cur (String c s))
      with (if String.prefix "." (String c s)
            then cur :: gostrings.split_go "." 0 "" s
            else gostrings.split_go "." 0 (cur +:+ String c "") s).
    change (String.prefix "." (String c s))
      with (if ascii_dec "." c then String.prefix "" s else false).
    destruct (ascii_dec "." c) as [<-|Hne]; [discriminate Hc |].
    rewrite IH by done. by rewrite string_app_assoc.
Qed.

(** Whatever else the configuration holds, a backend URL that is not empty
    and has no dot makes [setDefaultURLs] index past the end of the split
    URL. *)
Lemma setDefaultURLs_dotless (c : mainpkg.Config) :
  mainpkg.Niomon c ≠ "" →
  dotless (mainpkg.Niomon c) = true →
  mainpkg.setDefaultURLs c
  = Panicked "runtime error: index out of range [1] with length 1".
Proof.
  intros Hne Hd. unfold mainpkg.setDefaultURLs. cbv zeta.
  set (c1 := if String.eqb (mainpkg.Env c) "" then _ else c).
  assert (mainpkg.Niomon c1 = mainpkg.Niomon c) as Hn
    by (subst c1; by destruct (String.eqb (mainpkg.Env c) "")).
  destruct (String.eqb_spec (mainpkg.Niomon c1) "") as [E|_]; [congruence |].
  unfold gostrings.Split. rewrite Hn, split_go_dotless by done.
  reflexivity.
Qed.

(** C10. [Load] is not total: with a configuration file that names devices
    and a 16 byte secret, and whose backend URL is a host name without a
    dot, the call panics instead of returning a configuration or an
    error. *)
Theorem Load_panics_on_dotless_url :
  @mainpkg.Load fake.lib
    (scenario.os_with_file (scenario.config_file "localhost"))
    scenario.empty_config
  = Panicked "runtime error: index out of range [1] with length 1".
Proof. vm_compute. reflexivity. Qed.

(** ** The scenarios, run *)

Section scenarios.
Import handlers scenario.
#[local] Existing Instance fake.lib.

(** S1 and S6 in the model. *)
Example S1_hash_is_the_body :
  httphelper.GetHash (chained_request "ABC") = Ok hash1.
Proof. vm_compute. reflexivity. Qed.

Example hex_encoded_hash :
  httphelper.GetHash hex_request = Ok (replicate 31 x00 ++ [xff]).
Proof. vm_compute. reflexivity. Qed.

(** S3: the backend answers 502, then 200; both envelopes carry the
    genesis tip. *)
Example S3_failed_dispatch :
  prev <$> links uid (serve [chained (answers 502); chained (answers 200)]
                            (world genesis)).1
  = [genesis; genesis].
Proof. vm_compute. reflexivity. Qed.

Example S6_same_rendering :
  httphelper.GetSortedCompactJSON fake.body_ba
  = httphelper.GetSortedCompactJSON fake.body_ab.
Proof. vm_compute. reflexivity. Qed.



Lemma failed_dispatch_keeps_tip_witness :
  route (chained (answers 502)) = ChainRoute
  ∧ (∀ id auth upp,
        dispatch_failed
          (sendToAuthService (backend (chained (answers 502))) id auth upp))
  ∧ tip uid (handle (chained (answers 502)) (world genesis)).2
    = tip uid (world genesis).
Proof.
  split; [reflexivity |]. split; [intros; reflexivity |].
  apply (failed_dispatch_keeps_tip (chained (answers 502))
           (chained (answers 200)) (world genesis) uid);
    [reflexivity | intros; reflexivity].
Defined.

Lemma update_route_builds_signed_envelope_witness :
  httphelper.GetUUID (update_request "disable" "ABC") = Ok uid
  ∧ GetAuthToken uid (world genesis) = Ok "ABC"
  ∧ httphelper.AuthToken (http.ReqHeader (update_request "disable" "ABC")) = "ABC"
  ∧ "disable" ∈ [anchorHash; disableHash; enableHash; deleteHash]
  ∧ http.URLParam (update_request "disable" "ABC") vars.OperationKey = "disable"
  ∧ httphelper.GetHash (update_request "disable" "ABC") = Ok hash1
  ∧ identities (SigningService_HandleRequest (answers 200)
                  (update_request "disable" "ABC") (world genesis)).2
    = identities (world genesis).
Proof.
  assert ("disable" ∈ [anchorHash; disableHash; enableHash; deleteHash]) as Hop
    by (apply list_elem_of_further, list_elem_of_here).
  repeat (split; [first [exact Hop | vm_compute; reflexivity] |]).
  apply (update_route_builds_signed_envelope (answers 200)
           (update_request "disable" "ABC") (world genesis) uid "ABC"
           "disable" hash1);
    first [exact Hop | vm_compute; reflexivity].
Defined.

Lemma dispatch_status_witness :
  ContextManager.GetPrivateKey (ID message) (world genesis) = Ok [x01; x02; x03]
  ∧ StatusCode (Sign times_out message "anchor" (world genesis)).1 = 504.
Proof.
  split; [vm_compute; reflexivity |].
  destruct (getSignedUPP (ID message) (Hash message) [x01; x02; x03] "anchor"
              (world genesis)) as [[upp|e] w'] eqn:Hupp;
    [| vm_compute in Hupp; discriminate Hupp].
  apply (proj2 (dispatch_status times_out message upp) "anchor"
           (world genesis) [x01; x02; x03] w');
    [vm_compute; reflexivity | exact Hupp].
Defined.

(** C4, the claim as stated fails: a refused connection is answered with
    500 and a 503 of the backend with 503, neither with 502. *)
Lemma unavailable_backend_is_not_502 :
  StatusCode (SendUPP refuses message [x00]) = 500
  ∧ StatusCode (SendUPP (answers 503) message [x00]) = 503
  ∧ status (handle (update refuses "anchor") (world genesis)).1 = 500
  ∧ status (handle (chained (answers 503)) (world genesis)).1 = 503.
Proof. repeat split; vm_compute; reflexivity. Qed.

(** C5, the claim as stated fails: an empty stored signature is rejected
    when read back, and an identity with an empty signature is not
    stored. *)
Lemma empty_signature_is_rejected :
  mainpkg.GetSignature uid (world [])
  = Err "invalid signature length: expected 64, got 0"
  ∧ StoreIdentity uid (device []) {| identities := ∅; envelopes := [] |}
    = (Err (uid_text +:+ ": invalid signature length: expected 64, got 0"),
       {| identities := ∅; envelopes := [] |}).
Proof. split; vm_compute; reflexivity. Qed.

Lemma stored_signature_is_64_bytes_witness :
  identities (world genesis) !! uid = Some (device genesis)
  ∧ length (Signature (device [])) ≠ 64%nat
  ∧ is_ok (mainpkg.GetSignature uid (world genesis)) = true
  ∧ is_ok (StoreIdentity uid (device []) (world genesis)).1 = false.
Proof.
  assert (identities (world genesis) !! uid = Some (device genesis)) as Hid
    by (vm_compute; reflexivity).
  assert (length (Signature (device [])) ≠ 64%nat) as Hlen by discriminate.
  split; [exact Hid | split; [exact Hlen | split]].
  - destruct (stored_signature_is_64_bytes uid (device genesis) (world genesis))
      as [Hget _].
    destruct (Hget Hid) as [[_ Hok] _]. apply Hok. reflexivity.
  - destruct (stored_signature_is_64_bytes uid (device []) (world genesis))
      as (_ & Hstore & _).
    exact (proj1 (Hstore Hlen)).
Defined.

(** C6, the claim as stated fails: the bodies [{"a":1,"a":2}] and
    [{"a":2,"a":1}] differ only in the order of their members, and the
    later member wins in each, so that their renderings differ. *)
Lemma duplicate_keys_depend_on_order :
  key_permutation text_aa12 text_aa21
  ∧ json_scan fake.body_aa12 = Ok text_aa12
  ∧ json_scan fake.body_aa21 = Ok text_aa21
  ∧ jsonlib.decode text_aa12 ≠ jsonlib.decode text_aa21
  ∧ httphelper.GetSortedCompactJSON fake.body_aa12
    ≠ httphelper.GetSortedCompactJSON fake.body_aa21.
Proof.
  split; [apply rtc_once, permutes_here, perm_swap |].
  split; [vm_compute; reflexivity |].
  split; [vm_compute; reflexivity |].
  split; [| vm_compute; discriminate].
  intros Heq. vm_compute in Heq. discriminate.
Qed.

Lemma canonical_json_ignores_key_order_witness :
  unique_keys text_ba = true
  ∧ key_permutation text_ba text_ab
  ∧ json_scan fake.body_ba = Ok text_ba
  ∧ json_scan fake.body_ab = Ok text_ab
  ∧ httphelper.GetSortedCompactJSON fake.body_ba
    = httphelper.GetSortedCompactJSON fake.body_ab.
Proof.
  assert (key_permutation text_ba text_ab) as Hperm
    by apply rtc_once, permutes_here, perm_swap.
  split; [vm_compute; reflexivity |]. split; [exact Hperm |].
  split; [vm_compute; reflexivity |]. split; [vm_compute; reflexivity |].
  apply (canonical_json_ignores_key_order text_ba text_ab fake.body_ba
           fake.body_ab ∅);
    first [exact Hperm | vm_compute; reflexivity].
Defined.


Lemma bad_token_unauthorized_witness :
  httphelper.GetUUID (chained_request "AB") = Ok uid
  ∧ GetAuthToken uid (world genesis) = Ok "ABC"
  ∧ httphelper.AuthToken (http.ReqHeader (chained_request "AB")) ≠ "ABC"
  ∧ ChainingService_HandleRequest (answers 200) (chained_request "AB")
      (world genesis)
    = (HttpError "invalid auth token" 401, world genesis).
Proof.
  assert (httphelper.AuthToken (http.ReqHeader (chained_request "AB")) ≠ "ABC")
    as Hne by (intros E; vm_compute in E; discriminate).
  split; [vm_compute; reflexivity |]. split; [vm_compute; reflexivity |].
  split; [exact Hne |].
  apply (bad_token_unauthorized (answers 200) (chained_request "AB")
           (world genesis) uid "ABC");
    first [exact Hne | vm_compute; reflexivity].
Defined.

End scenarios.

(** * Further properties of the code *)

(** ** httphelper: the data route and the hash route together *)

Lemma string_app_cons (c : ascii) (s t : string) :
  String c s +:+ t = String c (s +:+ t).
Proof. reflexivity. Qed.

Lemma substring_split (s : string) (n : nat) :
  (n ≤ String.length s)%nat →
  s = String.substring 0 n s +:+ String.substring n (String.length s - n) s.
Proof.
  revert n. induction s as [|c s IH]; intros n Hn.
  - destruct n; [reflexivity | simpl in Hn; lia].
  - destruct n as [|n].
    + change (String c s
              = "" +:+ String.substring 0 (String.length (String c s))
                                        (String c s)).
      by rewrite substring_all.
    + change (String c s
              = String c (String.substring 0 n s)
                +:+ String.substring n (String.length s - n) s).
      rewrite string_app_cons. f_equal. apply IH. simpl in Hn. lia.
Qed.

Lemma HasSuffix_inv (s suffix : string) :
  gostrings.HasSuffix s suffix = true → ∃ p, s = p +:+ suffix.
Proof.
  unfold gostrings.HasSuffix. intros [Hlen Heq]%andb_prop.
  apply Nat.leb_le in Hlen. apply String.eqb_eq in Heq.
  exists (String.substring 0 (String.length s - String.length suffix) s).
  pose proof (substring_split s (String.length s - String.length suffix))
    as Hs.
  replace (String.length s - (String.length s - String.length suffix))%nat
    with (String.length suffix) in Hs by lia.
  rewrite Heq in Hs. apply Hs. lia.
Qed.

Section data_route.
Context `{GoLib}.

(** X1. A request is taken for a hash request exactly when its path ends
    with the four characters of [vars.HashEndpoint], whatever precedes
    them: no slash is asked for. *)
Theorem isHashRequest_iff_suffix (r : http.Request) :
  httphelper.isHashRequest r = true ↔ ∃ p, http.Path r = p +:+ "hash".
Proof.
  unfold httphelper.isHashRequest. split.
  - apply HasSuffix_inv.
  - intros [p ->]. apply HasSuffix_app.
Qed.

Lemma data_route_hashes_the_body_aux (r : http.Request) (body : bytes) :
  httphelper.isHashRequest r = false →
  http.ReqBody r = http.Readable body →
  (httphelper.ContentType (http.ReqHeader r) = vars.BinType →
   httphelper.GetHash r = Ok (sha256_Sum256 body))
  ∧ (httphelper.ContentType (http.ReqHeader r) = vars.JSONType →
     httphelper.GetHash r
     = match httphelper.GetSortedCompactJSON body with
       | Ok canonical => Ok (sha256_Sum256 canonical)
       | Err e => Err e
       end).
Proof.
  intros Hroute Hbody.
  unfold httphelper.GetHash, httphelper.readBody. rewrite Hbody, Hroute.
  unfold httphelper.getHashFromDataRequest.
  split; by intros ->.
Qed.


(** X3. With a digest of 32 bytes, sending the digest of some data to the
    hash route and sending the data itself to the data route, both as
    application/octet-stream, give the same hash; so do the digest of the
    sorted compact rendering of a JSON body sent to the hash route and the
    JSON body sent to the data route. *)
Theorem hash_of_data_is_the_submitted_hash (rd rh : http.Request)
    (p : string) (data : bytes) :
  (∀ d, length (sha256_Sum256 d) = 32%nat) →
  httphelper.isHashRequest rd = false →
  http.ReqBody rd = http.Readable data →
  http.Path rh = p +:+ "hash" →
  httphelper.ContentType (http.ReqHeader rh) = vars.BinType →
  (httphelper.ContentType (http.ReqHeader rd) = vars.BinType →
   http.ReqBody rh = http.Readable (sha256_Sum256 data) →
   httphelper.GetHash rh = httphelper.GetHash rd
   ∧ httphelper.GetHash rd = Ok (sha256_Sum256 data))
  ∧ (∀ canonical,
        httphelper.ContentType (http.ReqHeader rd) = vars.JSONType →
        httphelper.GetSortedCompactJSON data = Ok canonical →
        http.ReqBody rh = http.Readable (sha256_Sum256 canonical) →
        httphelper.GetHash rh = httphelper.GetHash rd
        ∧ httphelper.GetHash rd = Ok (sha256_Sum256 canonical)).
Proof.
  intros Hlen Hroute Hbody Hpath Hbin.
  assert (∀ d, http.ReqBody rh = http.Readable (sha256_Sum256 d) →
               httphelper.GetHash rh = Ok (sha256_Sum256 d)) as Hh.
  { intros d Hb. unfold httphelper.GetHash, httphelper.readBody,
      httphelper.isHashRequest.
    rewrite Hb, Hpath, HasSuffix_app.
    apply hash_request_bin; [exact Hbin | by split]. }
  destruct (data_route_hashes_the_body_aux rd data Hroute Hbody)
    as (Hdbin & Hdjson).
  split.
  - intros Hct Hb. rewrite (Hh _ Hb), (Hdbin Hct). done.
  - intros canonical Hct Hcanon Hb.
    rewrite (Hh _ Hb), (Hdjson Hct), Hcanon. done.
Qed.

End data_route.

(** ** handlers: rejections, operations, receipts *)

Section handlers_more.
Context `{GoLib}.
Import handlers.


Lemma hintLookup_is_Some (op : operation) :
  is_Some (hintLookup !! op)
  ↔ op ∈ [anchorHash; disableHash; enableHash; deleteHash].
Proof.
  split.
  - unfold hintLookup. intros [hint Hhint].
    repeat (apply lookup_insert_Some in Hhint as [[<- _]|[_ Hhint]];
            [set_solver |]).
    by rewrite lookup_empty in Hhint.
  - intros Hop. destruct (hintLookup_table op Hop) as (hint & -> & _). eauto.
Qed.

(** X5. The operations that [getOperation] lets through are exactly the
    keys of [hintLookup]; so once the update route has accepted the
    operation, [getSignedUPP] always reaches [Protocol.Sign] and builds one
    signed envelope: its error for an invalid operation is never met. *)
Theorem accepted_operations_have_a_hint (r : http.Request) (op : operation) :
  (getOperation r = Ok op
   ↔ http.URLParam r vars.OperationKey = op ∧ is_Some (hintLookup !! op))
  ∧ (getOperation r = Ok op →
     ∀ id hash key w,
     ∃ hint,
       hintLookup !! op = Some hint
       ∧ getSignedUPP id hash key op w
         = Protocol_Sign key (ubirch.SignedUPP ubirch.Signed id hint hash) w).
Proof.
  assert (getOperation r = Ok op
          ↔ http.URLParam r vars.OperationKey = op
            ∧ is_Some (hintLookup !! op)) as Hiff.
  { rewrite hintLookup_is_Some. unfold getOperation. split.
    - case_bool_decide as Hin; [| done]. intros [= <-]. split; [done |].
      set_solver.
    - intros [<- Hin]. by apply getOperation_Ok. }
  split; [exact Hiff |].
  intros [_ [hint Hhint]]%Hiff id hash key w. exists hint.
  split; [exact Hhint |]. unfold getSignedUPP. by rewrite Hhint.
Qed.

(** X6. When [Sign] cannot get the private key of the uid, or the envelope
    cannot be signed, the answer is 500 with the plain text of the status,
    and nothing is sent to the backend: the answer is the same for every
    backend. *)
Theorem Sign_failure_dispatches_nothing (client client' : Client)
    (msg : HTTPRequest) (op : operation) (w : World) :
  (∀ key upp,
      ContextManager.GetPrivateKey (ID msg) w = Ok key →
      (getSignedUPP (ID msg) (Hash msg) key op w).1 ≠ Ok upp) →
  (Sign client msg op w).1
  = {| StatusCode := 500;
       Header := {[ "Content-Type" := ["text/plain; charset=utf-8"] ]};
       Content := list_byte_of_string "Internal Server Error" |}
  ∧ Sign client' msg op w = Sign client msg op w.
Proof.
  intros Hfail. unfold Sign.
  destruct (ContextManager.GetPrivateKey (ID msg) w) as [key|e]; [| done].
  specialize (Hfail key).
  destruct (getSignedUPP (ID msg) (Hash msg) key op w) as [[upp|e] w'];
    [| done].
  by destruct (Hfail upp).
Qed.

(** X7. The request id of a receipt: empty when the content of the
    backend's response does not decode; n/a when it decodes to an envelope
    whose payload is shorter than 16 bytes or whose first 16 bytes are
    no UUID; otherwise the UUID made of the first 16 bytes of the payload.
    In each case the receipt has the status of the backend's response, the
    content type application/json, and carries the hash of the request,
    the envelope and the backend's response. *)
Theorem receipt_request_id (client : Client) (msg : HTTPRequest)
    (upp : bytes) (backendResp : HTTPResponse) :
  sendToAuthService client (ID msg) (Auth msg) upp = Responded backendResp →
  let requestID :=
    match ubirch_Decode (Content backendResp) with
    | Err _ => ""
    | Ok u =>
        if bool_decide (length (ubirch.GetPayload u) < 16)%nat then "n/a"
        else match uuid_FromBytes (take 16 (ubirch.GetPayload u)) with
             | Err _ => "n/a"
             | Ok id => uuid_String id
             end
    end in
  SendUPP client msg upp
  = {| StatusCode := StatusCode backendResp;
       Header := {[ "Content-Type" := ["application/json"] ]};
       Content :=
         match json_Marshal {| sr_Error := ""; sr_Hash := Hash msg;
                               sr_UPP := upp; sr_Response := backendResp;
                               sr_RequestID := requestID |} with
         | Ok b => b
         | Err _ => []
         end |}.
Proof.
  intros Hsend requestID. unfold SendUPP. rewrite Hsend.
  unfold getSigningResponse. do 3 f_equal.
  subst requestID. destruct (ubirch_Decode _) as [u|e]; [| done].
  unfold getRequestID, lenRequestID. case_bool_decide; [done |].
  by destruct (uuid_FromBytes _).
Qed.

(** X8. The two versions of [Signer.Sign] that the sources hold (the one
    that fetches the private key before [getSignedUPP], and the one whose
    [getSignedUPP] fetches it) give the same answer and leave the same
    world, for every request. *)
Theorem Sign_versions_agree (client : Client) (msg : HTTPRequest)
    (op : operation) (w : World) :
  handlers0.Sign client msg op w = Sign client msg op w.
Proof.
  unfold handlers0.Sign, handlers0.getSignedUPP, Sign, getSignedUPP.
  destruct (ContextManager.GetPrivateKey (ID msg) w) as [key|e]; [| done].
  by destruct (hintLookup !! op).
Qed.

(** X9. [StoreIdentity] hands an identity to the store only if its token
    is not empty, its signature has 64 bytes and both keys are not empty;
    in every other case it returns an error and the world as it was. *)
Theorem StoreIdentity_checks_attributes (uid : UUID) (id : Identity)
    (w : World) :
  (AuthToken id = "" ∨ length (Signature id) ≠ 64%nat
   ∨ PrivateKey id = [] ∨ PublicKey id = [] →
   is_ok (StoreIdentity uid id w).1 = false
   ∧ (StoreIdentity uid id w).2 = w)
  ∧ (AuthToken id ≠ "" → length (Signature id) = 64%nat →
     PrivateKey id ≠ [] → PublicKey id ≠ [] →
     StoreIdentity uid id w = ContextManager.StoreIdentity uid id w).
Proof.
  unfold StoreIdentity, checkSignatureLen, SignatureLength. split.
  - intros Hbad.
    case_bool_decide as Htok; [done |].
    case_bool_decide as Hsig; [done |].
    case_bool_decide as Hpriv; [done |].
    case_bool_decide as Hpub; [done |].
    destruct Hbad as [Hb|[Hb|[Hb|Hb]]].
    + rewrite Hb in Htok. done.
    + done.
    + rewrite Hb in Hpriv. done.
    + rewrite Hb in Hpub. done.
  - intros Htok Hsig Hpriv Hpub.
    rewrite bool_decide_eq_false_2 by (by destruct (AuthToken id)).
    rewrite (bool_decide_eq_false_2 (length (Signature id) ≠ 64%nat))
      by (intros Hne; by apply Hne).
    rewrite (bool_decide_eq_false_2 (length (PrivateKey id) = 0%nat))
      by (by destruct (PrivateKey id)).
    rewrite (bool_decide_eq_false_2 (length (PublicKey id) = 0%nat))
      by (by destruct (PublicKey id)).
    done.
Qed.

(** X10. The verification route asks for no token: setting, changing or
    removing the X-Auth-Token header of a request never changes its
    answer. *)
Theorem verification_ignores_the_token (Verify : bytes → HTTPResponse)
    (r : http.Request) (token : option (list string)) :
  let r' := {| http.Path := http.Path r; http.URLParams := http.URLParams r;
               http.ReqHeader :=
                 partial_alter (λ _, token) "X-Auth-Token" (http.ReqHeader r);
               http.ReqBody := http.ReqBody r |} in
  handlers0.VerificationService_HandleRequest Verify r'
  = handlers0.VerificationService_HandleRequest Verify r.
Proof.
  intros r'. unfold handlers0.VerificationService_HandleRequest.
  assert (httphelper.GetHash r' = httphelper.GetHash r) as ->; [| done].
  unfold httphelper.GetHash, httphelper.readBody, httphelper.isHashRequest.
  simpl. destruct (http.ReqBody r) as [body|e]; [| done].
  assert (∀ k, k ≠ "X-Auth-Token" →
               http.Get (http.ReqHeader r') k = http.Get (http.ReqHeader r) k)
    as Hget.
  { intros k Hk. unfold http.Get. simpl.
    by rewrite lookup_partial_alter_ne. }
  unfold httphelper.getHashFromHashRequest, httphelper.getHashFromDataRequest,
    httphelper.ContentType, httphelper.ContentEncoding.
  rewrite !Hget by done. done.
Qed.

End handlers_more.

(** ** main/protocol.go: what the protocol wrapper lets through *)

Section protocol_wrapper.
Context `{GoLib}.

(** X11. The wrapper around the identity store validates in both
    directions: a signature it returns has 64 bytes and a token it returns
    is not empty (in package main and in package handlers); a signature of
    another length and an empty token are refused before the store is
    touched. *)
Theorem protocol_wrapper_validates (uid : UUID) (w : World) :
  (∀ sig, mainpkg.GetSignature uid w = Ok sig → length sig = 64%nat)
  ∧ (∀ tok, protocol0.GetAuthToken uid w = Ok tok → tok ≠ "")
  ∧ (∀ tok, handlers.GetAuthToken uid w = Ok tok → tok ≠ "")
  ∧ (∀ sig, length sig ≠ 64%nat →
            is_ok (mainpkg.SetSignature uid sig w).1 = false
            ∧ (mainpkg.SetSignature uid sig w).2 = w)
  ∧ protocol0.SetAuthToken uid "" w = (Err "empty auth token", w).
Proof.
  split; [| split; [| split; [| split]]].
  - intros sig. unfold mainpkg.GetSignature.
    destruct (ContextManager.GetSignature uid w) as [s|e]; [| done].
    pose proof (checkSignatureLen_main s) as Hlen.
    destruct (mainpkg.checkSignatureLen s); [| done].
    intros [= <-]. by apply Hlen.
  - intros tok. unfold protocol0.GetAuthToken.
    destruct (ContextManager.GetAuthToken uid w) as [t|e]; [| done].
    case_bool_decide as Hlen; [done |]. intros [= <-] ->. by apply Hlen.
  - intros tok. unfold handlers.GetAuthToken.
    destruct (ContextManager.GetAuthToken uid w) as [t|e]; [| done].
    case_bool_decide as Hlen; [done |]. intros [= <-] ->. by apply Hlen.
  - intros sig Hlen. unfold mainpkg.SetSignature.
    pose proof (checkSignatureLen_main sig) as Hok.
    destruct (mainpkg.checkSignatureLen sig); [| done].
    destruct Hlen. by apply Hok.
  - reflexivity.
Qed.

End protocol_wrapper.

(** ** main/main.go: the command line *)

Lemma getArgs_fold (l : list string) :
  foldl maingo.arg_step ("", false, false) l
  = (default "" (last (filter (λ a, a ≠ "migrate" ∧ a ≠ "88") l)),
     bool_decide ("migrate" ∈ l), bool_decide ("88" ∈ l)).
Proof.
  induction l as [|a l IH] using rev_ind; [done |].
  rewrite foldl_app, IH. simpl. unfold maingo.arg_step, maingo.MigrateArg.
  rewrite filter_app.
  destruct (String.eqb_spec a "migrate") as [->|Hm].
  - rewrite filter_cons_False, filter_nil, app_nil_r by naive_solver.
    f_equal; [f_equal |];
      first [ reflexivity
            | symmetry; apply bool_decide_eq_true_2; set_solver
            | apply bool_decide_ext; set_solver ].
  - destruct (String.eqb_spec a "88") as [->|Hp].
    + rewrite filter_cons_False, filter_nil, app_nil_r by naive_solver.
      f_equal; [f_equal |];
      first [ reflexivity
            | symmetry; apply bool_decide_eq_true_2; set_solver
            | apply bool_decide_ext; set_solver ].
    + rewrite filter_cons_True, filter_nil, last_snoc by done. simpl.
      f_equal; [f_equal |];
      first [ reflexivity
            | symmetry; apply bool_decide_eq_true_2; set_solver
            | apply bool_decide_ext; set_solver ].
Qed.

(** X12. [getArgs], applied to the arguments of the program: migration is
    requested exactly when one of the arguments after the program name is
    migrate, the other port exactly when one of them is 88, and the
    configuration directory is the last argument that is neither of the
    two (the empty string when there is none). *)
Theorem getArgs_reads_the_arguments (Args : list string) :
  maingo.getArgs Args
  = (default "" (last (filter (λ a, a ≠ "migrate" ∧ a ≠ "88") (drop 1 Args))),
     bool_decide ("migrate" ∈ drop 1 Args),
     bool_decide ("88" ∈ drop 1 Args)).
Proof.
  unfold maingo.getArgs. case_bool_decide as Hlen.
  - apply getArgs_fold.
  - destruct Args as [|a [|b Args]]; [done | done | simpl in Hlen; lia].
Qed.

(** ** main/config.go: the backend URLs *)

Lemma split_go_cons (cur : string) (c : ascii) (s : string) :
  gostrings.split_go "." 0 cur (String c s)
  = if Ascii.eqb c "."
    then cur :: gostrings.split_go "." 0 "" s
    else gostrings.split_go "." 0 (cur +:+ String c "") s.
Proof.
  change (gostrings.split_go "." 0 cur (String c s))
    with (if (if ascii_dec "." c then String.prefix "" s else false)
          then cur :: gostrings.split_go "." 0 "" s
          else gostrings.split_go "." 0 (cur +:+ String c "") s).
  destruct (ascii_dec "." c) as [<-|Hne].
  - by destruct s.
  - destruct (Ascii.eqb_spec c "."); [by subst | done].
Qed.

(** The first piece of a split is the part before the first dot. *)
Lemma split_go_label (s cur : string) :
  ∃ pieces, gostrings.split_go "." 0 cur s = (cur +:+ label s) :: pieces.
Proof.
  revert cur. induction s as [|c s IH]; intros cur.
  - exists []. simpl. by rewrite string_app_nil_r.
  - rewrite split_go_cons. simpl. destruct (Ascii.eqb c ".").
    + eexists. by rewrite string_app_nil_r.
    + destruct (IH (cur +:+ String c "")) as [pieces ->].
      exists pieces. by rewrite string_app_assoc.
Qed.

Lemma split_go_piece (a rest cur : string) :
  dotless a = true →
  gostrings.split_go "." 0 cur (a +:+ "." +:+ rest)
  = (cur +:+ a) :: gostrings.split_go "." 0 "" rest.
Proof.
  revert cur. induction a as [|c a IH]; intros cur Hd.
  - change ("" +:+ "." +:+ rest) with (String "." rest).
    rewrite split_go_cons. simpl. by rewrite string_app_nil_r.
  - change (negb (Ascii.eqb c ".") && dotless a = true) in Hd.
    apply andb_prop in Hd as [Hc Ha].
    rewrite string_app_cons, split_go_cons.
    destruct (Ascii.eqb c "."); [done |].
    rewrite IH by done. by rewrite string_app_assoc.
Qed.

Lemma label_app_dot (e rest : string) : label (e +:+ "." +:+ rest) = label e.
Proof.
  induction e as [|c e IH]; [reflexivity |].
  rewrite string_app_cons. simpl. destruct (Ascii.eqb c "."); [done |].
  by rewrite IH.
Qed.

(** The environment that [setDefaultURLs] reads back from the URL it has
    just built. *)
Lemma Split_default_Niomon (e : string) :
  gostrings.Split (mainpkg.Sprintf mainpkg.NIOMON_URL e) "." !! 1%nat
  = Some (label e).
Proof.
  change (mainpkg.Sprintf mainpkg.NIOMON_URL e)
    with ("https://niomon" +:+ "." +:+ (e +:+ "." +:+ "ubirch.com/")).
  unfold gostrings.Split. rewrite split_go_piece by reflexivity.
  destruct (split_go_label (e +:+ "." +:+ "ubirch.com/") "") as [pieces ->].
  simpl. by rewrite label_app_dot.
Qed.

Lemma Sprintf_nonempty (e : string) :
  mainpkg.Sprintf mainpkg.NIOMON_URL e ≠ ""
  ∧ mainpkg.Sprintf mainpkg.KEY_URL e ≠ ""
  ∧ mainpkg.Sprintf mainpkg.VERIFY_URL e ≠ "".
Proof. repeat split; discriminate. Qed.

(** What [setDefaultURLs] has done when it returns a configuration. *)
Lemma setDefaultURLs_Ok (c c' : mainpkg.Config) :
  mainpkg.setDefaultURLs c = Returned (Ok c') →
  mainpkg.Devices c' = mainpkg.Devices c
  ∧ mainpkg.Secret c' = mainpkg.Secret c
  ∧ mainpkg.SecretBytes c' = mainpkg.SecretBytes c
  ∧ mainpkg.valid_stage (mainpkg.Env c') = true
  ∧ mainpkg.Niomon c' ≠ ""
  ∧ gostrings.Split (mainpkg.Niomon c') "." !! 1%nat = Some (mainpkg.Env c')
  ∧ mainpkg.VerifyService c' ≠ ""
  ∧ mainpkg.KeyService c'
    = (if String.eqb (mainpkg.KeyService c) ""
       then mainpkg.Sprintf mainpkg.KEY_URL (mainpkg.Env c')
       else gostrings.TrimSuffix (mainpkg.KeyService c) "/mpack")
  ∧ (mainpkg.Niomon c ≠ "" → mainpkg.Niomon c' = mainpkg.Niomon c).
Proof.
  unfold mainpkg.setDefaultURLs. cbv zeta.
  set (c1 := if String.eqb (mainpkg.Env c) "" then _ else c).
  set (c2 := if String.eqb (mainpkg.Niomon c1) "" then _ else c1).
  assert (mainpkg.Devices c2 = mainpkg.Devices c
          ∧ mainpkg.Secret c2 = mainpkg.Secret c
          ∧ mainpkg.SecretBytes c2 = mainpkg.SecretBytes c
          ∧ mainpkg.KeyService c2 = mainpkg.KeyService c
          ∧ mainpkg.Niomon c2 ≠ ""
          ∧ (mainpkg.Niomon c ≠ "" → mainpkg.Niomon c2 = mainpkg.Niomon c))
    as (HD & HS & HB & HK & HN & HN').
  { subst c2 c1. destruct (String.eqb (mainpkg.Env c) "");
      match goal with |- context [String.eqb (mainpkg.Niomon ?x) ""] =>
        destruct (String.eqb_spec (mainpkg.Niomon x) "") end;
      repeat split; try done. }
  destruct (gostrings.Split (mainpkg.Niomon c2) "." !! 1%nat) as [env|] eqn:Hsplit;
    [| done].
  simpl. destruct (mainpkg.valid_stage env) eqn:Hvalid; [| done].
  simpl. intros [= <-].
  rewrite <- HK.
  destruct (String.eqb (mainpkg.KeyService c2) "") eqn:Hkey; simpl;
    destruct (String.eqb_spec (mainpkg.VerifyService c2) "") as [Hv|Hv];
    simpl; repeat split; done.
Qed.

(** X13. Without a configured backend URL, [setDefaultURLs] does not
    panic: with [e] the configured environment (prod when none is
    configured), it returns a configuration exactly when the part of [e]
    before its first dot is dev, demo or prod, and then that part is the
    environment and the backend URL is the default one built from [e];
    otherwise it returns the error for an invalid environment. *)
Theorem setDefaultURLs_without_a_url (c : mainpkg.Config) :
  mainpkg.Niomon c = "" →
  let e := if String.eqb (mainpkg.Env c) "" then mainpkg.PROD_STAGE
           else mainpkg.Env c in
  ∃ r, mainpkg.setDefaultURLs c = Returned r
       ∧ is_ok r = mainpkg.valid_stage (label e)
       ∧ (∀ c', r = Ok c' →
                mainpkg.Env c' = label e
                ∧ mainpkg.Niomon c' = "https://niomon." +:+ e +:+ ".ubirch.com/")
       ∧ (mainpkg.valid_stage (label e) = false →
          r = Err ("invalid UBIRCH backend environment: " +:+ dquote
                   +:+ label e +:+ dquote)).
Proof.
  intros Hn e. unfold mainpkg.setDefaultURLs. cbv zeta.
  set (c1 := if String.eqb (mainpkg.Env c) "" then _ else c).
  assert (mainpkg.Niomon c1 = "" ∧ mainpkg.Env c1 = e) as [Hn1 He1].
  { subst c1 e. by destruct (String.eqb (mainpkg.Env c) ""). }
  set (c2 := if String.eqb (mainpkg.Niomon c1) "" then _ else c1).
  assert (c2 = mainpkg.set_Niomon (mainpkg.Sprintf mainpkg.NIOMON_URL e) c1)
    as Hc2 by (subst c2; by rewrite Hn1, He1).
  assert (mainpkg.Niomon c2 = mainpkg.Sprintf mainpkg.NIOMON_URL e) as Hn2
    by (by rewrite Hc2).
  rewrite Hn2, Split_default_Niomon.
  change (mainpkg.Env (mainpkg.set_Env (label e) c2)) with (label e).
  destruct (mainpkg.valid_stage (label e)) eqn:Hvalid;
    cbv beta iota delta [negb].
  - eexists. split; [reflexivity |]. split; [done |]. split; [| done].
    intros c' [= <-].
    destruct (String.eqb (mainpkg.KeyService _) "");
      destruct (String.eqb (mainpkg.VerifyService _) ""); by rewrite Hc2.
  - eexists. split; [reflexivity |]. split; [done |]. split; [done | done].
Qed.

(** X14. A configured backend URL decides the environment: whatever
    environment is configured beside it, the outcome of [setDefaultURLs]
    is the same, and on success the environment is the second
    dot-separated piece of the URL. *)
Theorem configured_url_decides_the_environment (c : mainpkg.Config)
    (e : string) :
  mainpkg.Niomon c ≠ "" →
  mainpkg.setDefaultURLs (mainpkg.set_Env e c) = mainpkg.setDefaultURLs c
  ∧ ∀ c', mainpkg.setDefaultURLs c = Returned (Ok c') →
          mainpkg.Niomon c' = mainpkg.Niomon c
          ∧ gostrings.Split (mainpkg.Niomon c) "." !! 1%nat
            = Some (mainpkg.Env c').
Proof.
  intros Hn. split.
  - unfold mainpkg.setDefaultURLs. cbv zeta.
    set (c1 := if String.eqb (mainpkg.Env c) "" then _ else c).
    set (d1 := if String.eqb (mainpkg.Env (mainpkg.set_Env e c)) "" then _
               else mainpkg.set_Env e c).
    assert (mainpkg.Niomon c1 = mainpkg.Niomon c) as Hc1
      by (subst c1; by destruct (String.eqb (mainpkg.Env c) "")).
    assert (mainpkg.Niomon d1 = mainpkg.Niomon c) as Hd1
      by (subst d1;
          by destruct (String.eqb (mainpkg.Env (mainpkg.set_Env e c)) "")).
    assert (∀ env, mainpkg.set_Env env d1 = mainpkg.set_Env env c1) as Hset.
    { intros env. subst c1 d1.
      destruct (String.eqb (mainpkg.Env c) "");
        destruct (String.eqb (mainpkg.Env (mainpkg.set_Env e c)) ""); done. }
    rewrite Hc1, Hd1.
    destruct (String.eqb_spec (mainpkg.Niomon c) "") as [|_]; [done |].
    rewrite Hc1, Hd1.
    destruct (gostrings.Split (mainpkg.Niomon c) "." !! 1%nat) as [env|];
      [| done].
    by rewrite Hset.
  - intros c' Hok.
    destruct (setDefaultURLs_Ok c c' Hok)
      as (_ & _ & _ & _ & _ & Hsplit & _ & _ & Heq).
    specialize (Heq Hn).
    split; [exact Heq |]. by rewrite <- Heq.
Qed.

Lemma substring_prefix (p s : string) :
  String.substring 0 (String.length p) (p +:+ s) = p.
Proof.
  induction p as [|c p IH]; [by destruct s |].
  rewrite string_app_cons. simpl. by rewrite IH.
Qed.

Lemma TrimSuffix_app (p suffix : string) :
  gostrings.TrimSuffix (p +:+ suffix) suffix = p.
Proof.
  unfold gostrings.TrimSuffix. rewrite HasSuffix_app, string_length_app.
  replace (String.length p + String.length suffix - String.length suffix)%nat
    with (String.length p) by lia.
  apply substring_prefix.
Qed.

Lemma TrimSuffix_other (s suffix : string) :
  gostrings.HasSuffix s suffix = false → gostrings.TrimSuffix s suffix = s.
Proof. intros Hs. unfold gostrings.TrimSuffix. by rewrite Hs. Qed.

(** X15. The key service URL after [setDefaultURLs]: the default one of
    the environment when none is configured; a configured URL that ends
    with /mpack loses that ending (once); any other configured URL is kept
    as it is. *)
Theorem key_service_url (c c' : mainpkg.Config) :
  mainpkg.setDefaultURLs c = Returned (Ok c') →
  (mainpkg.KeyService c = "" →
   mainpkg.KeyService c'
   = "https://key." +:+ mainpkg.Env c' +:+ ".ubirch.com/api/keyService/v1/pubkey")
  ∧ (∀ p, mainpkg.KeyService c = p +:+ "/mpack" → mainpkg.KeyService c' = p)
  ∧ (mainpkg.KeyService c ≠ "" →
     gostrings.HasSuffix (mainpkg.KeyService c) "/mpack" = false →
     mainpkg.KeyService c' = mainpkg.KeyService c).
Proof.
  intros Hok.
  destruct (setDefaultURLs_Ok c c' Hok) as (_ & _ & _ & _ & _ & _ & _ & Hk & _).
  rewrite Hk. split; [| split].
  - by intros ->.
  - intros p ->.
    destruct (String.eqb_spec (p +:+ "/mpack") "") as [Heq|_].
    + by destruct p.
    + apply TrimSuffix_app.
  - intros Hne Hs.
    destruct (String.eqb_spec (mainpkg.KeyService c) ""); [done |].
    by apply TrimSuffix_other.
Qed.

Section load_config.
Context `{GoLib} (os : mainpkg.OS).

Lemma setDefaultTLS_keeps (c : mainpkg.Config) :
  mainpkg.Devices (mainpkg.setDefaultTLS os c) = mainpkg.Devices c
  ∧ mainpkg.Secret (mainpkg.setDefaultTLS os c) = mainpkg.Secret c
  ∧ mainpkg.SecretBytes (mainpkg.setDefaultTLS os c) = mainpkg.SecretBytes c.
Proof.
  unfold mainpkg.setDefaultTLS. destruct (mainpkg.TLS c); [| done].
  destruct (String.eqb (mainpkg.CertFile c) ""); simpl;
    match goal with |- context [String.eqb ?k ""] =>
      destruct (String.eqb k "") end; done.
Qed.

(** X16. A configuration that [Load] returns has at least one device, a
    secret of exactly 16 bytes that is the base64 decoding of the
    configured secret, an environment among dev, demo and prod that is the
    second dot-separated piece of its backend URL, and a verification
    URL. *)
Theorem Load_returns_a_checked_configuration (c c' : mainpkg.Config) :
  mainpkg.Load os c = Returned (Ok c') →
  size (mainpkg.Devices c') ≠ 0%nat
  ∧ length (mainpkg.SecretBytes c') = 16%nat
  ∧ base64_DecodeString (mainpkg.Secret c') = (mainpkg.SecretBytes c', None)
  ∧ mainpkg.Env c' ∈ [mainpkg.DEV_STAGE; mainpkg.DEMO_STAGE; mainpkg.PROD_STAGE]
  ∧ gostrings.Split (mainpkg.Niomon c') "." !! 1%nat = Some (mainpkg.Env c')
  ∧ mainpkg.VerifyService c' ≠ "".
Proof.
  unfold mainpkg.Load.
  destruct (if negb _ then _ else _) as [c0|e]; [| done].
  destruct (base64_DecodeString (mainpkg.Secret c0)) as [sb [e|]] eqn:Hb64;
    [done |].
  unfold mainpkg.checkMandatory.
  case_bool_decide as Hdev; [done |].
  case_bool_decide as Hlen; [done |].
  intros Hok.
  destruct (setDefaultURLs_Ok _ c' Hok)
    as (HD & HS & HB & Hvalid & _ & Hsplit & Hv & _).
  destruct (setDefaultTLS_keeps (mainpkg.set_SecretBytes sb c0))
    as (HD' & HS' & HB').
  rewrite HD' in HD. rewrite HS' in HS. rewrite HB' in HB. simpl in *.
  rewrite HD, HS, HB. repeat split; try done.
  unfold mainpkg.valid_stage in Hvalid.
  apply orb_prop in Hvalid as [[Hs|Hs]%orb_prop|Hs];
    apply String.eqb_eq in Hs; rewrite Hs; set_solver.
Qed.

End load_config.

(** ** api/ubirch_rest_api.go: the older endpoints *)

Section old_api.
Context `{GoLib} `{GoLibHTML}.

(** X17. [checkAuth] lets a request through exactly when the uuid of the
    URL parses, is a key of the token map, and the X-Auth-Token header
    equals the token stored for it; it answers 404 for a uuid that does
    not parse or is not known, whatever the header holds, and 401 only for
    a known uuid. *)
Theorem checkAuth_admits_known_tokens (r : http.Request)
    (AuthTokens : gmap string string) :
  (∀ id, api.checkAuth r AuthTokens = api.Continue id
         ↔ uuid_Parse (http.URLParam r api.UUIDKey) = Ok id
           ∧ AuthTokens !! uuid_String id = Some (api.XAuthToken r))
  ∧ (∀ message code,
        api.checkAuth r AuthTokens = api.Answered message code →
        (code = 404
         ∧ ∀ id, uuid_Parse (http.URLParam r api.UUIDKey) = Ok id →
                 AuthTokens !! uuid_String id = None)
        ∨ (code = 401
           ∧ ∃ id token,
               uuid_Parse (http.URLParam r api.UUIDKey) = Ok id
               ∧ AuthTokens !! uuid_String id = Some token
               ∧ token ≠ api.XAuthToken r)).
Proof.
  unfold api.checkAuth. cbv zeta.
  destruct (uuid_Parse (http.URLParam r api.UUIDKey)) as [id0|e].
  - destruct (AuthTokens !! uuid_String id0) as [token|] eqn:Htok.
    + case_bool_decide as Hne.
      * split.
        -- intros id. split; [done |]. intros [[= <-] Hid].
           rewrite Htok in Hid. by injection Hid as ->.
        -- intros message code [= <- <-]. right. split; [done |].
           exists id0, token. split; [done | split; [done |]].
           intros ->. by apply Hne.
      * split; [| done].
        intros id. split.
        -- intros [= <-]. by rewrite Htok, Hne.
        -- by intros [[= <-] _].
    + split.
      * intros id. split; [done |]. intros [[= <-] Hid]. by rewrite Htok in Hid.
      * intros message code [= <- <-]. left. split; [done |].
        by intros id [= <-].
  - split.
    + intros id. split; [done | by intros [? _]].
    + intros message code [= <- <-]. left. split; [done | done].
Qed.



(** X20. The older JSON endpoint does not depend on the order of the keys:
    two requests that differ only in their bodies, whose texts have no
    repeated member name and differ only in the order of their keys, are
    answered alike and submit the same message. *)
Theorem signJSON_ignores_key_order (AuthTokens : gmap string string)
    (r r' : http.Request) (body body' : bytes) (t t' : json.text) :
  http.URLParams r' = http.URLParams r →
  http.ReqHeader r' = http.ReqHeader r →
  http.ReqBody r = http.Readable body →
  http.ReqBody r' = http.Readable body' →
  json_scan body = Ok t →
  json_scan body' = Ok t' →
  unique_keys t = true →
  key_permutation t t' →
  api.signJSON AuthTokens r' = api.signJSON AuthTokens r.
Proof.
  intros Hparams Hheader Hbody Hbody' Hscan Hscan' Huniq Hperm.
  destruct (key_permutation_decode t t' Hperm Huniq) as [Hdec _].
  assert (api.getSortedCompactJSON body' = api.getSortedCompactJSON body)
    as Hcanon.
  { unfold api.getSortedCompactJSON, jsonlib.Unmarshal.
    by rewrite Hscan, Hscan', Hdec. }
  assert (api.ContentType r' = api.ContentType r) as Hct'
    by (unfold api.ContentType; by rewrite Hheader).
  assert (api.checkAuth r' AuthTokens = api.checkAuth r AuthTokens) as Hauth.
  { unfold api.checkAuth, api.XAuthToken, http.URLParam.
    by rewrite Hparams, Hheader. }
  unfold api.signJSON, api.assertContentType. rewrite Hct'.
  case_bool_decide as Hct; [done |].
  unfold api.sign, api.getData.
  by rewrite Hauth, Hbody, Hbody', Hct', Hct, Hcanon.
Qed.

End old_api.

(** ** The newer configuration loader *)

Section newer_config.
Context `{GoLib} (os : config.OS).

Lemma identities_fold (ids : list (gmap string string)) (c : config.Config) :
  let c' := foldl (λ c identity,
                     config.set_Devices
                       (<[config.at_key identity "uuid"
                          := config.at_key identity "password"]>
                          (config.Devices c)) c) c ids in
  config.Keys c' = config.Keys c
  ∧ config.Secret c' = config.Secret c
  ∧ config.SecretBytes c' = config.SecretBytes c
  ∧ ∀ u, config.Devices c' !! u
         = match last (filter (λ i, config.at_key i "uuid" = u) ids) with
           | Some i => Some (config.at_key i "password")
           | None => config.Devices c !! u
           end.
Proof.
  induction ids as [|i ids IH] using rev_ind; [done |].
  cbv zeta in *. rewrite foldl_app. simpl.
  destruct IH as (HK & HS & HB & HD). repeat split; try done.
  intros u. rewrite filter_app.
  destruct (decide (config.at_key i "uuid" = u)) as [Hu|Hu].
  - rewrite filter_cons_True, filter_nil, last_snoc by done.
    rewrite Hu. apply lookup_insert_eq.
  - rewrite filter_cons_False, filter_nil, app_nil_r by done.
    rewrite lookup_insert_ne by done. apply HD.
Qed.

(** X21. [loadIdentitiesFile] looks for identities.json in the working
    directory but opens it in the configuration directory: when no such
    file exists in the working directory the configuration is returned as
    it was, whatever the configuration directory holds. When the file is
    read, every identity is registered under its uuid (the empty string
    when it has none) with the password of its last occurrence, the other
    devices are kept, and the keys and the secret are untouched. *)
Theorem loadIdentitiesFile_registers_devices (c : config.Config) :
  (config.NotExist os config.identitiesFile = true →
   config.loadIdentitiesFile os c = Ok c)
  ∧ ∀ fileHandle ids,
      config.NotExist os config.identitiesFile = false →
      config.Open os (config.filepath_Join os (config.configDir c)
                        config.identitiesFile) = Ok fileHandle →
      config.Decode_identities os fileHandle = Ok ids →
      ∃ c', config.loadIdentitiesFile os c = Ok c'
            ∧ config.Keys c' = config.Keys c
            ∧ config.SecretBytes c' = config.SecretBytes c
            ∧ ∀ u, config.Devices c' !! u
                   = match last (filter (λ i, config.at_key i "uuid" = u) ids)
                     with
                     | Some i => Some (config.at_key i "password")
                     | None => config.Devices c !! u
                     end.
Proof.
  unfold config.loadIdentitiesFile. split.
  - by intros ->.
  - intros fileHandle ids -> -> ->. eexists. split; [reflexivity |].
    destruct (identities_fold ids c) as (HK & _ & HB & HD). done.
Qed.

Lemma auth_entry_Returned (c : config.Config) (k : string) (v : list string) :
  (2 ≤ length v)%nat →
  ∃ c', config.auth_entry c (k, v) = Returned c'
        ∧ config.Keys c' = <[k := default "" (v !! 0%nat)]> (config.Keys c)
        ∧ config.Devices c'
          = <[k := default "" (v !! 1%nat)]> (config.Devices c).
Proof.
  intros Hlen. destruct v as [|a [|b v]]; [simpl in Hlen; lia .. |].
  eexists. split; [reflexivity | done].
Qed.

Lemma range_entries_Returned (entries : list (string * list string))
    (c : config.Config) :
  Forall (λ kv, 2 ≤ length kv.2)%nat entries →
  ∃ c', config.range_entries c entries = Returned c'
        ∧ config.Keys c'
          = foldl (λ m kv, <[kv.1 := default "" (kv.2 !! 0%nat)]> m)
                  (config.Keys c) entries
        ∧ config.Devices c'
          = foldl (λ m kv, <[kv.1 := default "" (kv.2 !! 1%nat)]> m)
                  (config.Devices c) entries.
Proof.
  revert c. induction entries as [|[k v] entries IH]; intros c Hall.
  - by exists c.
  - apply Forall_cons in Hall as [Hkv Hall]. simpl in Hkv.
    destruct (auth_entry_Returned c k v Hkv) as (c1 & Hc1 & HK1 & HD1).
    destruct (IH c1 Hall) as (c' & Hc' & HK & HD).
    exists c'. simpl. rewrite Hc1. split; [exact Hc' |].
    by rewrite HK, HD, HK1, HD1.
Qed.

Lemma range_entries_Panicked (entries : list (string * list string))
    (c : config.Config) :
  Exists (λ kv, length kv.2 < 2)%nat entries →
  ∃ msg, config.range_entries c entries = Panicked msg.
Proof.
  revert c. induction entries as [|[k v] entries IH]; intros c Hex.
  - by apply Exists_nil in Hex.
  - simpl. destruct (config.auth_entry c (k, v)) as [c1|msg] eqn:Hentry;
      [| by exists msg].
    apply Exists_cons in Hex as [Hshort|Hex]; [| by apply IH].
    simpl in Hshort. unfold config.auth_entry in Hentry. simpl in Hentry.
    destruct v as [|a [|b v]]; [done | done | simpl in Hshort; lia].
Qed.

Lemma foldl_insert_union {A B} (f : A → B) (l : list (string * A))
    (m : gmap string B) :
  NoDup l.*1 →
  foldl (λ m kv, <[kv.1 := f kv.2]> m) m l
  = (f <$> (list_to_map l : gmap string A)) ∪ m.
Proof.
  revert m. induction l as [|[k a] l IH]; intros m Hnd.
  - simpl. by rewrite fmap_empty, (left_id_L ∅ (∪)).
  - rewrite fmap_cons in Hnd. apply NoDup_cons in Hnd as [Hk Hnd].
    simpl. rewrite IH by done. rewrite fmap_insert.
    rewrite <- insert_union_l, <- insert_union_r; [done |].
    rewrite lookup_fmap. apply fmap_None.
    by apply not_elem_of_list_to_map_1.
Qed.

(** X22. [loadAuthMap], with the auth map taken from the environment
    variable: if every entry of the map holds at least two strings, the
    first string of each entry becomes the key and the second the token
    of its uuid, replacing what the configuration held for that uuid and
    keeping the rest; if some entry holds fewer than two strings, the call
    panics. *)
Theorem loadAuthMap_reads_key_and_token (c : config.Config)
    (buffer : gmap string (list string)) :
  config.Getenv os config.authEnv ≠ "" →
  config.Unmarshal_auth os
    (list_byte_of_string (config.Getenv os config.authEnv)) = Ok buffer →
  ((∀ k v, buffer !! k = Some v → (2 ≤ length v)%nat) →
   ∃ c', config.loadAuthMap os c = Returned (Ok c')
         ∧ config.Keys c'
           = ((λ v, default "" (v !! 0%nat)) <$> buffer) ∪ config.Keys c
         ∧ config.Devices c'
           = ((λ v, default "" (v !! 1%nat)) <$> buffer) ∪ config.Devices c)
  ∧ ((∃ k v, buffer !! k = Some v ∧ (length v < 2)%nat) →
     ∃ msg, config.loadAuthMap os c = Panicked msg).
Proof.
  intros Henv Hbuffer. unfold config.loadAuthMap. cbv zeta.
  destruct (String.eqb_spec (config.Getenv os config.authEnv) "") as [|_];
    [done |].
  simpl. rewrite Hbuffer. split.
  - intros Hall.
    destruct (range_entries_Returned (map_to_list buffer) c)
      as (c' & -> & HK & HD).
    { apply Forall_forall. intros [k v] Hin%elem_of_map_to_list. eauto. }
    exists c'. split; [done |].
    rewrite HK, HD.
    rewrite (foldl_insert_union (λ v : list string, default "" (v !! 0%nat))
               (map_to_list buffer)) by apply NoDup_fst_map_to_list.
    rewrite (foldl_insert_union (λ v : list string, default "" (v !! 1%nat))
               (map_to_list buffer)) by apply NoDup_fst_map_to_list.
    by rewrite list_to_map_to_list.
  - intros (k & v & Hkv & Hshort).
    destruct (range_entries_Panicked (map_to_list buffer) c) as [msg ->].
    { apply Exists_exists. exists (k, v). split; [| done].
      by apply elem_of_map_to_list. }
    by exists msg.
Qed.

Lemma setDefaultCSR_sets (c : config.Config) :
  ∃ country organization,
    country ≠ "" ∧ organization ≠ ""
    ∧ config.setDefaultCSR c
      = config.set_CSR_Organization organization
          (config.set_CSR_Country country c).
Proof.
  exists (config.CSR_Country (config.setDefaultCSR c)),
         (config.CSR_Organization (config.setDefaultCSR c)).
  destruct c. unfold config.setDefaultCSR. simpl.
  destruct (String.eqb_spec CSR_Country "") as [->|Hc]; simpl;
    destruct (String.eqb_spec CSR_Organization "") as [->|Ho]; done.
Qed.

Lemma setDefaultTLS_sets (c : config.Config) :
  ∃ addr cert key,
    addr ≠ ""
    ∧ config.setDefaultTLS os c
      = config.set_TLS_KeyFile key
          (config.set_TLS_CertFile cert (config.set_TCP_addr addr c)).
Proof.
  exists (config.TCP_addr (config.setDefaultTLS os c)),
         (config.TLS_CertFile (config.setDefaultTLS os c)),
         (config.TLS_KeyFile (config.setDefaultTLS os c)).
  destruct c. unfold config.setDefaultTLS. simpl.
  destruct (String.eqb_spec TCP_addr "") as [->|Ha]; simpl; destruct TLS;
    simpl;
    try (destruct (String.eqb TLS_CertFile ""); simpl;
         destruct (String.eqb TLS_KeyFile ""); simpl);
    done.
Qed.

Lemma setDefaultCORS_sets (c : config.Config) :
  ∃ origins,
    (config.CORS c = true → origins ≠ None)
    ∧ config.setDefaultCORS c = config.set_CORS_Origins origins c.
Proof.
  exists (config.CORS_Origins (config.setDefaultCORS c)).
  destruct c. unfold config.setDefaultCORS. simpl.
  destruct CORS; [destruct CORS_Origins |]; done.
Qed.

Lemma setDefaultReqBufSize_sets (c : config.Config) :
  ∃ n, n ≠ 0
       ∧ config.setDefaultReqBufSize c = config.set_RequestBufSize n c.
Proof.
  exists (config.RequestBufSize (config.setDefaultReqBufSize c)).
  destruct c. unfold config.setDefaultReqBufSize. simpl.
  case_bool_decide as Hn; done.
Qed.

Lemma setDefaultURLs_sets (c c' : config.Config) (ENV : string) :
  config.setDefaultURLs c = Ok (c', ENV) →
  ∃ keyService identityService niomon verifyService,
    config.valid_stage ENV = true
    ∧ identityService ≠ "" ∧ niomon ≠ "" ∧ verifyService ≠ ""
    ∧ c' = config.set_VerifyService verifyService
             (config.set_Niomon niomon
                (config.set_IdentityService identityService
                   (config.set_KeyService keyService
                      (config.set_Env ENV c)))).
Proof.
  intros Hok.
  exists (config.KeyService c'), (config.IdentityService c'),
         (config.Niomon c'), (config.VerifyService c').
  revert Hok. destruct c. unfold config.setDefaultURLs. simpl.
  destruct (String.eqb Env ""); simpl;
    match goal with |- context [config.valid_stage ?e] =>
      destruct (config.valid_stage e) eqn:Hvalid end; simpl; try done;
    destruct (String.eqb KeyService ""); simpl;
    destruct (String.eqb_spec IdentityService ""); simpl;
    destruct (String.eqb_spec Niomon ""); simpl;
    destruct (String.eqb_spec VerifyService ""); simpl;
    intros [= <- <-]; simpl; done.
Qed.

(** X23. A configuration that the newer [Load] returns has at least one
    device and a secret of exactly 16 bytes; if dynamic key generation is
    disabled it has at least one injected key; its environment is dev,
    demo or prod and is what the package variable [ENV] receives; the CSR
    country and organization, the TCP address, the identity, backend and
    verification URLs are not empty, the request buffer size is not zero,
    and with CORS enabled the allowed origins are set. *)
Theorem newer_Load_returns_a_checked_configuration (dir filename : string)
    (c c' : config.Config) (ENV : string) :
  config.Load os dir filename c = Returned (Ok (c', ENV)) →
  size (config.Devices c') ≠ 0%nat
  ∧ length (config.SecretBytes c') = 16%nat
  ∧ (config.StaticKeys c' = true → size (config.Keys c') ≠ 0%nat)
  ∧ ENV = config.Env c'
  ∧ config.Env c' ∈ [config.DEV_STAGE; config.DEMO_STAGE; config.PROD_STAGE]
  ∧ config.CSR_Country c' ≠ "" ∧ config.CSR_Organization c' ≠ ""
  ∧ config.TCP_addr c' ≠ "" ∧ config.RequestBufSize c' ≠ 0
  ∧ (config.CORS c' = true → config.CORS_Origins c' ≠ None)
  ∧ config.IdentityService c' ≠ "" ∧ config.Niomon c' ≠ ""
  ∧ config.VerifyService c' ≠ "".
Proof.
  unfold config.Load. cbv zeta.
  destruct (if negb _ then _ else _) as [c0|e]; [| done].
  destruct (base64_DecodeString (config.Secret c0)) as [sb [e|]]; [done |].
  destruct (config.loadAuthMap os _) as [[c1|e]|msg]; [| done | done].
  destruct (config.loadIdentitiesFile os c1) as [c2|e]; [| done].
  unfold config.checkMandatory.
  case_bool_decide as Hdev; [done |].
  case_bool_decide as Hlen; [done |].
  destruct (config.StaticKeys c2 && bool_decide (size (config.Keys c2) = 0%nat))
    eqn:Hkeys; [done |].
  intros [= Hurls].
  destruct (setDefaultCSR_sets c2) as (country & organization & Hc & Ho & Ecsr).
  rewrite Ecsr in Hurls.
  destruct (setDefaultTLS_sets
              (config.set_CSR_Organization organization
                 (config.set_CSR_Country country c2)))
    as (addr & cert & key & Ha & Etls).
  rewrite Etls in Hurls.
  match type of Hurls with context [config.setDefaultCORS ?x] =>
    destruct (setDefaultCORS_sets x) as (origins & Horigins & Ecors) end.
  rewrite Ecors in Hurls.
  match type of Hurls with context [config.setDefaultReqBufSize ?x] =>
    destruct (setDefaultReqBufSize_sets x) as (n & Hn & Ereq) end.
  rewrite Ereq in Hurls.
  apply setDefaultURLs_sets in Hurls
    as (ks & ids & ni & vs & Hvalid & Hids & Hni & Hvs & ->).
  simpl in *. repeat split; try done.
  - intros Hstatic. rewrite Hstatic in Hkeys. simpl in Hkeys.
    by apply bool_decide_eq_false in Hkeys.
  - unfold config.valid_stage in Hvalid.
    apply orb_prop in Hvalid as [[Hs|Hs]%orb_prop|Hs];
      apply String.eqb_eq in Hs; rewrite Hs; set_solver.
Qed.

End newer_config.

(** ** The further properties, at the inputs of [samples] *)

Section further_scenarios.
Import handlers scenario samples.
#[local] Existing Instance fake.lib.


Lemma hash_of_data_is_the_submitted_hash_witness :
  (∀ d, length (sha256_Sum256 d) = 32%nat)
  ∧ http.Path (hash_request (sha256_Sum256 data))
    = ("/" +:+ uid_text +:+ "/") +:+ "hash"
  ∧ httphelper.GetHash (hash_request (sha256_Sum256 data))
    = httphelper.GetHash (data_request vars.BinType data).
Proof.
  assert (∀ d, length (sha256_Sum256 d) = 32%nat) as Hlen.
  { intros d. change (length (fake.digest d) = 32%nat). unfold fake.digest.
    by rewrite length_fmap, length_seq. }
  split; [exact Hlen |]. split; [vm_compute; reflexivity |].
  destruct (hash_of_data_is_the_submitted_hash
              (data_request vars.BinType data)
              (hash_request (sha256_Sum256 data))
              ("/" +:+ uid_text +:+ "/") data Hlen
              ltac:(vm_compute; reflexivity) eq_refl
              ltac:(vm_compute; reflexivity) ltac:(vm_compute; reflexivity))
    as [Hbin _].
  apply Hbin; [vm_compute; reflexivity | reflexivity].
Defined.


Lemma accepted_operations_have_a_hint_witness :
  getOperation (update_request "disable" "ABC") = Ok "disable"
  ∧ ∃ hint,
      hintLookup !! "disable" = Some hint
      ∧ getSignedUPP uid hash1 [x01] "disable" (world genesis)
        = Protocol_Sign [x01]
            (ubirch.SignedUPP ubirch.Signed uid hint hash1) (world genesis).
Proof.
  assert (getOperation (update_request "disable" "ABC") = Ok "disable") as Hop
    by (vm_compute; reflexivity).
  split; [exact Hop |].
  exact (proj2 (accepted_operations_have_a_hint
                  (update_request "disable" "ABC") "disable")
           Hop uid hash1 [x01] (world genesis)).
Defined.

Lemma Sign_failure_dispatches_nothing_witness :
  (∀ key upp,
      ContextManager.GetPrivateKey (ID message) (world genesis) = Ok key →
      (getSignedUPP (ID message) (Hash message) key "bogus" (world genesis)).1
      ≠ Ok upp)
  ∧ StatusCode (Sign refuses message "bogus" (world genesis)).1 = 500
  ∧ Sign (answers 200) message "bogus" (world genesis)
    = Sign refuses message "bogus" (world genesis).
Proof.
  assert (∀ key upp,
            ContextManager.GetPrivateKey (ID message) (world genesis) = Ok key →
            (getSignedUPP (ID message) (Hash message) key "bogus"
               (world genesis)).1 ≠ Ok upp) as Hfail.
  { intros key upp Hkey E. vm_compute in Hkey. injection Hkey as <-.
    vm_compute in E. discriminate E. }
  split; [exact Hfail |].
  destruct (Sign_failure_dispatches_nothing refuses (answers 200) message
              "bogus" (world genesis) Hfail) as [Hanswer Hsame].
  split; [by rewrite Hanswer | exact Hsame].
Defined.

Lemma receipt_request_id_witness :
  sendToAuthService backend (ID message) (Auth message) [x00]
  = Responded backendResp
  ∧ StatusCode (SendUPP backend message [x00]) = 200
  ∧ uuid_FromBytes (take 16 (Content backendResp)) = Ok uid.
Proof.
  split; [reflexivity |]. split; [| vm_compute; reflexivity].
  pose proof (receipt_request_id backend message [x00] backendResp eq_refl)
    as Hreceipt.
  cbv zeta in Hreceipt. by rewrite Hreceipt.
Defined.

Lemma StoreIdentity_checks_attributes_witness :
  PublicKey (set_signature genesis
               {| Uid := uid_text; PrivateKey := [x01]; PublicKey := [];
                  Signature := []; AuthToken := "ABC" |}) = []
  ∧ is_ok (StoreIdentity uid
             (set_signature genesis
                {| Uid := uid_text; PrivateKey := [x01]; PublicKey := [];
                   Signature := []; AuthToken := "ABC" |})
             (world genesis)).1 = false
  ∧ StoreIdentity uid (device genesis) (world genesis)
    = ContextManager.StoreIdentity uid (device genesis) (world genesis).
Proof.
  split; [reflexivity |]. split.
  - apply (proj1 (StoreIdentity_checks_attributes uid _ (world genesis))).
    right. right. right. reflexivity.
  - apply (proj2 (StoreIdentity_checks_attributes uid (device genesis)
                    (world genesis)));
      first [reflexivity | discriminate].
Defined.

Lemma protocol_wrapper_validates_witness :
  length [x00] ≠ 64%nat
  ∧ is_ok (mainpkg.SetSignature uid [x00] (world genesis)).1 = false
  ∧ (mainpkg.SetSignature uid [x00] (world genesis)).2 = world genesis.
Proof.
  assert (length [x00] ≠ 64%nat) as Hlen by discriminate.
  split; [exact Hlen |].
  destruct (protocol_wrapper_validates uid (world genesis))
    as (_ & _ & _ & Hset & _).
  exact (Hset [x00] Hlen).
Defined.

Lemma setDefaultURLs_without_a_url_witness :
  mainpkg.Niomon (config_file "") = ""
  ∧ ∃ r, mainpkg.setDefaultURLs (config_file "") = Returned r
         ∧ is_ok r = true.
Proof.
  split; [reflexivity |].
  pose proof (setDefaultURLs_without_a_url (config_file "") eq_refl) as Hurls.
  cbv zeta in Hurls. destruct Hurls as (r & Hr & Hok & _).
  exists r. split; [exact Hr |]. rewrite Hok. vm_compute; reflexivity.
Defined.

Lemma configured_url_decides_the_environment_witness :
  mainpkg.Niomon (config_file "https://niomon.demo.ubirch.com/") ≠ ""
  ∧ mainpkg.setDefaultURLs
      (mainpkg.set_Env "dev" (config_file "https://niomon.demo.ubirch.com/"))
    = mainpkg.setDefaultURLs (config_file "https://niomon.demo.ubirch.com/").
Proof.
  assert (mainpkg.Niomon (config_file "https://niomon.demo.ubirch.com/") ≠ "")
    as Hurl by discriminate.
  split; [exact Hurl |].
  exact (proj1 (configured_url_decides_the_environment
                  (config_file "https://niomon.demo.ubirch.com/") "dev" Hurl)).
Defined.

Lemma key_service_url_witness :
  ∃ c', mainpkg.setDefaultURLs (config_file "https://niomon.demo.ubirch.com/")
        = Returned (Ok c')
        ∧ mainpkg.KeyService c'
          = "https://key." +:+ mainpkg.Env c'
            +:+ ".ubirch.com/api/keyService/v1/pubkey".
Proof.
  destruct (mainpkg.setDefaultURLs
              (config_file "https://niomon.demo.ubirch.com/"))
    as [[c'|e]|msg] eqn:Hurls;
    [| vm_compute in Hurls; discriminate Hurls ..].
  exists c'. split; [reflexivity |].
  apply (proj1 (key_service_url
                  (config_file "https://niomon.demo.ubirch.com/") c' Hurls)).
  reflexivity.
Defined.

Lemma Load_returns_a_checked_configuration_witness :
  ∃ c', mainpkg.Load
          (os_with_file (config_file "https://niomon.demo.ubirch.com/"))
          empty_config = Returned (Ok c')
        ∧ length (mainpkg.SecretBytes c') = 16%nat
        ∧ gostrings.Split (mainpkg.Niomon c') "." !! 1%nat
          = Some (mainpkg.Env c').
Proof.
  destruct (mainpkg.Load
              (os_with_file (config_file "https://niomon.demo.ubirch.com/"))
              empty_config)
    as [[c'|e]|msg] eqn:Hload;
    [| vm_compute in Hload; discriminate Hload ..].
  exists c'. split; [reflexivity |].
  destruct (Load_returns_a_checked_configuration
              (os_with_file (config_file "https://niomon.demo.ubirch.com/"))
              empty_config c' Hload) as (_ & Hsecret & _ & _ & Hsplit & _).
  split; [exact Hsecret | exact Hsplit].
Defined.

Lemma checkAuth_admits_known_tokens_witness :
  uuid_Parse (http.URLParam (hash_request data) api.UUIDKey) = Ok uid
  ∧ AuthTokens !! uuid_String uid = Some (api.XAuthToken (hash_request data))
  ∧ api.checkAuth (hash_request data) AuthTokens = api.Continue uid.
Proof.
  assert (uuid_Parse (http.URLParam (hash_request data) api.UUIDKey) = Ok uid)
    as Hparse by (vm_compute; reflexivity).
  assert (AuthTokens !! uuid_String uid
          = Some (api.XAuthToken (hash_request data)))
    as Htoken by (vm_compute; reflexivity).
  split; [exact Hparse |]. split; [exact Htoken |].
  exact (proj2 (proj1 (checkAuth_admits_known_tokens (hash_request data)
                         AuthTokens) uid)
           (conj Hparse Htoken)).
Defined.



Lemma signJSON_ignores_key_order_witness :
  unique_keys text_ba = true
  ∧ key_permutation text_ba text_ab
  ∧ json_scan fake.body_ba = Ok text_ba
  ∧ json_scan fake.body_ab = Ok text_ab
  ∧ api.signJSON AuthTokens (data_request api.JSONType fake.body_ab)
    = api.signJSON AuthTokens (data_request api.JSONType fake.body_ba).
Proof.
  assert (key_permutation text_ba text_ab) as Hperm
    by apply rtc_once, permutes_here, perm_swap.
  split; [vm_compute; reflexivity |]. split; [exact Hperm |].
  split; [vm_compute; reflexivity |]. split; [vm_compute; reflexivity |].
  apply (signJSON_ignores_key_order AuthTokens
           (data_request api.JSONType fake.body_ba)
           (data_request api.JSONType fake.body_ab)
           fake.body_ba fake.body_ab text_ba text_ab);
    first [exact Hperm | reflexivity | vm_compute; reflexivity].
Defined.

Lemma loadIdentitiesFile_registers_devices_witness :
  config.NotExist samples.os config.identitiesFile = false
  ∧ config.Decode_identities samples.os [] = Ok identity_list
  ∧ ∃ c', config.loadIdentitiesFile samples.os file_config = Ok c'
          ∧ config.Devices c' !! other_uid_text = Some "second"
          ∧ config.Devices c' !! uid_text = None.
Proof.
  split; [reflexivity |]. split; [reflexivity |].
  destruct (proj2 (loadIdentitiesFile_registers_devices samples.os file_config)
              [] identity_list eq_refl eq_refl eq_refl)
    as (c' & Hc' & _ & _ & Hdevices).
  exists c'. split; [exact Hc' |].
  rewrite !Hdevices. split; vm_compute; reflexivity.
Defined.

Lemma loadAuthMap_reads_key_and_token_witness :
  config.Getenv samples.os config.authEnv ≠ ""
  ∧ config.Unmarshal_auth samples.os
      (list_byte_of_string (config.Getenv samples.os config.authEnv))
    = Ok auth_map
  ∧ ∃ c', config.loadAuthMap samples.os file_config = Returned (Ok c')
          ∧ config.Keys c' !! uid_text = Some "a2V5"
          ∧ config.Devices c' !! uid_text = Some "ABC".
Proof.
  assert (config.Getenv samples.os config.authEnv ≠ "") as Henv
    by discriminate.
  split; [exact Henv |]. split; [reflexivity |].
  destruct (proj1 (loadAuthMap_reads_key_and_token samples.os file_config
                     auth_map Henv eq_refl))
    as (c' & Hc' & Hkeys & Hdevices).
  { intros k v Hkv. unfold auth_map in Hkv.
    apply lookup_singleton_Some in Hkv as [_ <-]. simpl. lia. }
  exists c'. split; [exact Hc' |].
  rewrite Hkeys, Hdevices. split; vm_compute; reflexivity.
Defined.

Lemma newer_Load_returns_a_checked_configuration_witness :
  ∃ c' ENV,
    config.Load samples.os "." "config.json" no_config
    = Returned (Ok (c', ENV))
    ∧ ENV = config.Env c'
    ∧ config.TCP_addr c' ≠ ""
    ∧ config.CORS_Origins c' ≠ None
    ∧ size (config.Devices c') ≠ 0%nat.
Proof.
  destruct (config.Load samples.os "." "config.json" no_config)
    as [[[c' ENV]|e]|msg] eqn:Hload;
    [| vm_compute in Hload; discriminate Hload ..].
  exists c', ENV. split; [reflexivity |].
  destruct (newer_Load_returns_a_checked_configuration samples.os "."
              "config.json" no_config c' ENV Hload)
    as (Hdevices & _ & _ & Henv & _ & _ & _ & Haddr & _ & Hcors & _).
  split; [exact Henv |]. split; [exact Haddr |]. split; [| exact Hdevices].
  apply Hcors.
  assert (config.CORS <$> (match config.Load samples.os "." "config.json"
                                   no_config with
                           | Returned (Ok (c, _)) => Some c
                           | _ => None
                           end) = Some true) as Hon
    by (vm_compute; reflexivity).
  rewrite Hload in Hon. by injection Hon.
Defined.

End further_scenarios.
